(** * st2common API models: [BaseAPI], [jsexpose] and [ActionExecutionAPI]

    A shallow embedding of
    - [st2common/models/api/base.py]      ([BaseAPI], [_handle_error], [jsexpose]);
    - [st2common/models/api/execution.py] ([ActionExecutionAPI]).

    Python values are a small inductive type, dictionaries are finite maps,
    exceptions are data, and code that touches [pecan.response], the logger
    or the wrapped controller runs in a state-and-exception monad whose
    state records the response, the log and every invocation of the
    controller. The wrapper of [jsexpose] comes twice: first with [str] and
    [json_encode] taken to return, then, in the module [Raising], with the
    two as calls that can raise. *)

From Stdlib Require Import ZArith.
From stdpp Require Import gmap strings list fin_maps.

Set Warnings "-register-all".
Open Scope string_scope.
Open Scope Z_scope.
Open Scope list_scope.

(** ** Python values *)

Inductive pyval : Type :=
  | PNone
  | PBool (b : bool)
  | PInt (z : Z)
  | PStr (s : string)
  | PDatetime (t : Z)                              (* datetime.datetime *)
  | PList (l : list pyval)
  | PDict (d : gmap string pyval)
  | PObject (cls : string) (attrs : gmap string pyval).

(** Truth value testing, as used by [if x:], [x or y], [x and y]. *)
Definition truthy (v : pyval) : bool :=
  match v with
  | PNone => false
  | PBool b => b
  | PInt z => negb (z =? 0)
  | PStr s => negb (String.eqb s "")
  | PDatetime _ => true
  | PList l => match l with [] => false | _ => true end
  | PDict d => negb (bool_decide (dom d = ∅))
  | PObject _ _ => true
  end.

(** [x.__class__.__name__] *)
Definition class_name (v : pyval) : string :=
  match v with
  | PNone => "NoneType"
  | PBool _ => "bool"
  | PInt _ => "int"
  | PStr _ => "str"
  | PDatetime _ => "datetime"
  | PList _ => "list"
  | PDict _ => "dict"
  | PObject cls _ => cls
  end.

(** ** Exceptions

    The classes the two modules distinguish in their [except] clauses, plus
    [OtherException] for any other subclass of [Exception] and [NonException]
    for classes that derive from [BaseException] only ([KeyboardInterrupt],
    [SystemExit], [GeneratorExit]). HTTP exceptions of webob carry the
    fields the wrapper reads: [e.wsgi_response.status_code],
    [e.wsgi_response.body] and [e.headers]. *)

Inductive exc_class : Type :=
  | IndexError
  | KeyError
  | TypeError
  | AttributeError
  | AssertionError
  | ValidationError                  (* jsonschema.exceptions.ValidationError *)
  | OtherException (name : string)
  | NonException (name : string).

Inductive exn : Type :=
  | PyExc (cls : exc_class) (msg : pyval)
  | HTTPExc (unauthorized : bool) (msg : pyval)
            (wsgi_status_code : Z) (wsgi_body : pyval) (hdrs : pyval).

(** [e.message] *)
Definition message (e : exn) : pyval :=
  match e with
  | PyExc _ m => m
  | HTTPExc _ m _ _ _ => m
  end.

Definition is_IndexError (e : exn) : bool :=
  match e with PyExc IndexError _ => true | _ => false end.

Definition is_KeyError (e : exn) : bool :=
  match e with PyExc KeyError _ => true | _ => false end.

Definition is_ValidationError (e : exn) : bool :=
  match e with PyExc ValidationError _ => true | _ => false end.

(** [isinstance(e, exc.HTTPException)]; [HTTPUnauthorized] is a subclass. *)
Definition is_HTTPException (e : exn) : bool :=
  match e with HTTPExc _ _ _ _ _ => true | _ => false end.

Definition is_HTTPUnauthorized (e : exn) : bool :=
  match e with HTTPExc true _ _ _ _ => true | _ => false end.

(** [isinstance(e, Exception)] *)
Definition is_Exception (e : exn) : bool :=
  match e with PyExc (NonException _) _ => false | _ => true end.

Inductive result (A : Type) : Type :=
  | Ok (a : A)
  | Raise (e : exn).

Arguments Ok {A} a.
Arguments Raise {A} e.

(** HTTP status codes of [six.moves.http_client]. *)
Definition BAD_REQUEST : Z := 400.
Definition FORBIDDEN : Z := 403.
Definition METHOD_NOT_ALLOWED : Z := 405.
Definition INTERNAL_SERVER_ERROR : Z := 500.
Definition NOT_IMPLEMENTED : Z := 501.

(** ** [BaseAPI] *)

Record api_class : Type := {
  cls_name : string;
  cls_schema : option pyval          (* the class attribute [schema], if any *)
}.

Record instance : Type := {
  inst_class : string;
  inst_attrs : gmap string pyval     (* vars(self) *)
}.

Definition setattr (self : instance) (key : string) (value : pyval) : instance :=
  {| inst_class := inst_class self; inst_attrs := <[key := value]> (inst_attrs self) |}.

(** [getattr(self, 'schema', {})]: instance attribute, then class attribute,
    then the default. *)
Definition getattr_schema (cls : api_class) (self : instance) : pyval :=
  match inst_attrs self !! "schema" with
  | Some s => s
  | None => match cls_schema cls with
            | Some s => s
            | None => PDict ∅
            end
  end.

Definition new_instance (cls : api_class) : instance :=
  {| inst_class := cls_name cls; inst_attrs := ∅ |}.

Definition obj_of (self : instance) : pyval :=
  PObject (inst_class self) (inst_attrs self).

Section BaseAPI.

(** [VALIDATOR(schema).validate(kw)] of [st2common.util.schema]: [None] when
    the instance conforms, otherwise the exception it raises. Built with
    [assign_property_default=False], so it does not modify [kw]. *)
Variable VALIDATOR : pyval → gmap string pyval → option exn.

(** [BaseAPI.__init__(self, **kw)]: the instance after the call and the
    outcome. *)
Definition BaseAPI_init (cls : api_class) (self : instance)
    (kw : gmap string pyval) : instance * result unit :=
  match VALIDATOR (getattr_schema cls self) kw with
  | Some e => (self, Raise e)
  | None =>
      (map_fold (λ key value self, setattr self key value) self kw, Ok tt)
  end.

(** Instantiation [cls( **kw )]: [__init__] on a fresh object. *)
Definition BaseAPI_new (cls : api_class) (kw : gmap string pyval) : result pyval :=
  match BaseAPI_init cls (new_instance cls) kw with
  | (self, Ok _) => Ok (obj_of self)
  | (_, Raise e) => Raise e
  end.

End BaseAPI.

(** ** A state-and-exception monad

    [M S A] threads a state of type [S] and either returns a value or raises
    a Python exception. The state survives a raise, as mutations made before
    an exception do in Python. *)

Definition M (S A : Type) : Type := S → S * result A.

Definition ret {S A} (a : A) : M S A := λ s, (s, Ok a).

Definition raise {S A} (e : exn) : M S A := λ s, (s, Raise e).

Definition bind {S A B} (m : M S A) (k : A → M S B) : M S B :=
  λ s, match m s with
       | (s', Ok a) => k a s'
       | (s', Raise e) => (s', Raise e)
       end.

(** [try: m  except <classes accepted by handles> as e: h e] *)
Definition try_except {S A} (m : M S A) (handles : exn → bool)
    (h : exn → M S A) : M S A :=
  λ s, match m s with
       | (s', Ok a) => (s', Ok a)
       | (s', Raise e) => if handles e then h e s' else (s', Raise e)
       end.

Definition lift {S A} (r : result A) : M S A := λ s, (s, r).

Definition modify {S} (f : S → S) : M S unit := λ s, (f s, Ok tt).

Definition get {S} : M S S := λ s, (s, Ok s).

Declare Scope py_scope.
Delimit Scope py_scope with py.
Notation "'let!' x ':=' m 'in' k" := (bind m (λ x, k))
  (at level 10, x name, m at level 100, k at level 200) : py_scope.
Notation "m >> k" := (bind m (λ _, k))
  (at level 100, k at level 200, right associativity) : py_scope.

(** ** The request, the response and the log *)

Record request : Type := {
  req_params : option (gmap string pyval);   (* [None]: a mock without [params] *)
  req_method : pyval;
  req_path : pyval;
  req_remote_addr : pyval;
  req_body : pyval;                          (* pecan.request.body *)
  req_json : result pyval                    (* pecan.request.json *)
}.

Record request_info : Type := {
  ri_method : pyval;
  ri_path : pyval;
  ri_remote_addr : pyval
}.

Inductive log_record : Type :=
  | LOG_info_request (info : request_info) (filters : gmap string pyval)
  | LOG_info_response (info : request_info) (status_code : Z)
                      (logged_result : option pyval)
  | LOG_warning_type_missing (name : string) (function_name : string)
  | LOG_debug_failed (e : exn)
  | LOG_exception_failed (e : exn).

(** The response of the current request, [pecan.response]. *)
Record response : Type := {
  status : Z;
  headers : pyval
}.

(** One invocation of the wrapped controller function: [f( *args, **kwargs )]. *)
Record invocation : Type := {
  inv_args : list pyval;
  inv_kwargs : gmap string pyval
}.

Record world : Type := {
  pecan_response : response;
  LOG : list log_record;               (* oldest first *)
  invocations : list invocation        (* oldest first *)
}.

Definition set_status (code : Z) : M world unit :=
  modify (λ w, {| pecan_response := {| status := code;
                                       headers := headers (pecan_response w) |};
                  LOG := LOG w; invocations := invocations w |}).

Definition set_headers (h : pyval) : M world unit :=
  modify (λ w, {| pecan_response := {| status := status (pecan_response w);
                                       headers := h |};
                  LOG := LOG w; invocations := invocations w |}).

Definition log_emit (r : log_record) : M world unit :=
  modify (λ w, {| pecan_response := pecan_response w;
                  LOG := LOG w ++ [r]; invocations := invocations w |}).

(** What the wrapper hands back to pecan: the text [json_encode(v)] of
    [st2common.util.jsonify], kept symbolic as the value it encodes, or the
    controller's result as it is.

    [_handle_error] and [callfunction] below take [json_encode], and the
    [str(e)] in the message of the log calls of the handlers, to return;
    the module [Raising] further down has the same code with the two as
    calls that can raise. *)
Inductive reply : Type :=
  | json_encode (v : pyval)
  | raw (v : pyval).

(** ** [_handle_error]

    [body] and [headers] default to [None]. The [assert] raises
    [AssertionError] (with an empty message) when a non-empty body is not a
    dict. *)
Definition _handle_error (e : exn) (status_code : Z) (body : pyval)
    (hdrs : pyval) : M world reply :=
  (set_status status_code >>
   (if truthy hdrs then set_headers hdrs else ret tt) >>
   let error_body := if truthy body then body else PDict ∅ in
   match error_body with
   | PDict d => ret (json_encode (PDict (<["faultstring" := message e]> d)))
   | _ => raise (PyExc AssertionError (PStr ""))
   end)%py.

(** ** [jsexpose] *)

Definition RESPONSE_LOGGING_METHOD_NAME_BLACKLIST : list string :=
  ["get_all"].

Definition RESPONSE_LOGGING_CONTROLLER_NAME_BLACKLIST : list string :=
  ["ActionExecutionChildrenController";
   "ActionExecutionAttributeController";
   "ActionExecutionsController"].

(** The wrapped controller function [f]: its name, [inspect.getargspec(f).args]
    and its behaviour on [( *args, **kwargs )], which may read and change the
    response. *)
Record controller_function : Type := {
  f_name : string;
  f_argspec_args : list string;
  f_call : list pyval → gmap string pyval → response → response * result pyval
}.

(** The arguments of the decorator. A type in [arg_types] is any callable
    applied to one value; [body_cls] is applied to the request body as keyword
    arguments. *)
Record jsexpose_args : Type := {
  arg_types : option (list (pyval → result pyval));
  body_cls : option (gmap string pyval → result pyval);
  status_code : option Z;
  content_type : string
}.

(** The local variables the coercion loop mutates. *)
Record locals : Type := {
  l_args : list pyval;
  l_types : list (pyval → result pyval);
  l_more : list pyval;
  l_kwargs : gmap string pyval
}.

(** The handler of the inner [IndexError]: positional arguments (or types)
    ran out, so the next type is applied to the keyword argument [name].
    [types.pop(0)] is evaluated before [kwargs[name]]. *)
Definition coerce_keyword (fname name : string) (l : locals) : M world locals :=
  match l_types l with
  | [] =>
      (log_emit (LOG_warning_type_missing name fname) >> ret l)%py
  | t :: types =>
      let l' := {| l_args := l_args l; l_types := types;
                   l_more := l_more l; l_kwargs := l_kwargs l |} in
      match l_kwargs l !! name with
      | None => ret l'                                         (* KeyError: pass *)
      | Some v =>
          match t v with
          | Ok v' => ret {| l_args := l_args l; l_types := types;
                            l_more := l_more l;
                            l_kwargs := <[name := v']> (l_kwargs l) |}
          | Raise e =>
              if is_IndexError e then
                (log_emit (LOG_warning_type_missing name fname) >> ret l')%py
              else if is_KeyError e then ret l'
              else raise e
          end
      end
  end.

(** One iteration of [for name in names]. *)
Definition coerce_step (fname name : string) (l : locals) : M world locals :=
  match l_args l with
  | [] => coerce_keyword fname name l                  (* args.pop(0): IndexError *)
  | a :: args =>
      let popped := {| l_args := args; l_types := l_types l;
                       l_more := l_more l; l_kwargs := l_kwargs l |} in
      match l_types l with
      | [] => coerce_keyword fname name popped         (* types.pop(0): IndexError *)
      | t :: types =>
          let popped2 := {| l_args := args; l_types := types;
                            l_more := l_more l; l_kwargs := l_kwargs l |} in
          match t a with
          | Ok v => ret {| l_args := args; l_types := types;
                           l_more := l_more l ++ [v]; l_kwargs := l_kwargs l |}
          | Raise e =>
              if is_IndexError e then coerce_keyword fname name popped2
              else raise e
          end
      end
  end.

Fixpoint coerce_loop (fname : string) (names : list string) (l : locals)
    : M world locals :=
  match names with
  | [] => ret l
  | name :: names' =>
      (let! l' := coerce_step fname name l in coerce_loop fname names' l')%py
  end.

(** Lines 156-175: [args = list(args)], [more = [args.pop(0)]] and, when
    [types] is non-empty, the coercion loop over [argspec.args[1:]]. *)
Definition coerce_arguments (d : jsexpose_args) (f : controller_function)
    (args : list pyval) (kwargs : gmap string pyval) : M world locals :=
  match args with
  | [] => raise (PyExc IndexError (PStr "pop from empty list"))
  | self :: args' =>
      let types := default [] (arg_types d) in
      let l := {| l_args := args'; l_types := types;
                  l_more := [self]; l_kwargs := kwargs |} in
      match types with
      | [] => ret l
      | _ :: _ => coerce_loop (f_name f) (tail (f_argspec_args f)) l
      end
  end.

(** Lines 178-181: the data the body class is built from. *)
Definition request_data (req : request) : result pyval :=
  if truthy (req_body req) then req_json req else Ok (PDict ∅).

(** Line 183, [body_cls( **data )]: a [data] that is not a mapping cannot be
    unpacked, which is a [TypeError]. *)
Definition construct (cls : gmap string pyval → result pyval) (data : pyval)
    : result pyval :=
  match data with
  | PDict kw => cls kw
  | _ => Raise (PyExc TypeError
                  (PStr "type object argument after ** must be a mapping"))
  end.

Definition noop_codes : list Z :=
  [NOT_IMPLEMENTED; METHOD_NOT_ALLOWED; FORBIDDEN].

(** [status_code and status_code in noop_codes]: the code, when the test
    succeeds. *)
Definition noop_status (d : jsexpose_args) : option Z :=
  match status_code d with
  | Some c => if negb (c =? 0) && bool_decide (c ∈ noop_codes)
              then Some c else None
  | None => None
  end.

(** [f( *args, **kwargs )]: the invocation is recorded, then the controller
    runs on the current response. *)
Definition invoke (f : controller_function) (args : list pyval)
    (kwargs : gmap string pyval) : M world pyval :=
  λ w, let (r, res) := f_call f args kwargs (pecan_response w) in
       ({| pecan_response := r; LOG := LOG w;
           invocations := invocations w ++
                            [{| inv_args := args; inv_kwargs := kwargs |}] |},
        res).

(** Lines 198-237: the inner [try] around the call, the response log and
    the encoding, with its two handlers for webob's HTTP exceptions. *)
Definition call_and_respond (d : jsexpose_args) (f : controller_function)
    (info : request_info) (controller : pyval) (args : list pyval)
    (kwargs : gmap string pyval) : M world reply :=
  try_except
    (let! result := invoke f args kwargs in
     let! w := get in
     let logged_status :=
       match status_code d with
       | Some c => if c =? 0 then status (pecan_response w) else c
       | None => status (pecan_response w)
       end in
     let log_result :=
       negb (bool_decide (f_name f ∈ RESPONSE_LOGGING_METHOD_NAME_BLACKLIST))
       && negb (bool_decide (class_name controller
                               ∈ RESPONSE_LOGGING_CONTROLLER_NAME_BLACKLIST)) in
     log_emit (LOG_info_response info logged_status
                 (if log_result then Some result else None)) >>
     (match status_code d with
      | Some c => if c =? 0 then ret tt else set_status c
      | None => ret tt
      end) >>
     if String.eqb (content_type d) "application/json"
     then ret (json_encode result)
     else ret (raw result))%py
    is_HTTPException
    (λ e, match e with
          | HTTPExc unauthorized _ code body hdrs =>
              (log_emit (if unauthorized then LOG_debug_failed e
                         else LOG_exception_failed e) >>
               _handle_error e code body hdrs)%py
          | PyExc _ _ => raise e
          end).

(** Lines 188-237: the final argument tuple, the no-op codes and the call. *)
Definition dispatch (d : jsexpose_args) (f : controller_function)
    (info : request_info) (controller : pyval) (more : list pyval)
    (l : locals) : M world reply :=
  let args := more ++ l_args l in
  match noop_status d with
  | Some c => (set_status c >> ret (json_encode PNone))%py
  | None => call_and_respond d f info controller args (l_kwargs l)
  end.

(** Lines 156-237: the body of the outer [try]. *)
Definition guarded_block (d : jsexpose_args) (f : controller_function)
    (req : request) (info : request_info) (controller : pyval)
    (args : list pyval) (kwargs : gmap string pyval) : M world reply :=
  (let! l := coerce_arguments d f args kwargs in
   match body_cls d with
   | None => dispatch d f info controller (l_more l) l
   | Some cls =>
       let! data := lift (request_data req) in
       match construct cls data with
       | Ok obj => dispatch d f info controller (l_more l ++ [obj]) l
       | Raise e =>
           if is_ValidationError e
           then _handle_error e BAD_REQUEST PNone PNone
           else raise e
       end
   end)%py.

(** [args[0] if args else None] *)
Definition controller_of (args : list pyval) : pyval :=
  match args with
  | a :: _ => a
  | [] => PNone
  end.

(** The request information included in the log context. *)
Definition request_info_of (req : request) : request_info :=
  {| ri_method := req_method req; ri_path := req_path req;
     ri_remote_addr := req_remote_addr req |}.

Section jsexpose.

(** [st2common.constants.auth.QUERY_PARAM_ATTRIBUTE_NAME] *)
Variable QUERY_PARAM_ATTRIBUTE_NAME : string.

(** The keyword arguments after lines 151-153. *)
Definition strip_auth_token (req : request) (kwargs : gmap string pyval)
    : gmap string pyval :=
  let params := default ∅ (req_params req) in
  if bool_decide (QUERY_PARAM_ATTRIBUTE_NAME ∈ dom params)
     && bool_decide (QUERY_PARAM_ATTRIBUTE_NAME ∈ dom kwargs)
  then delete QUERY_PARAM_ATTRIBUTE_NAME kwargs
  else kwargs.

(** [jsexpose(arg_types, body_cls, status_code, content_type)(f)] called as
    [callfunction( *args, **kwargs )] while [req] is the current request. *)
Definition callfunction (d : jsexpose_args) (f : controller_function)
    (req : request) (args : list pyval) (kwargs : gmap string pyval)
    : M world reply :=
  let controller := controller_of args in
  let info := request_info_of req in
  (log_emit (LOG_info_request info kwargs) >>
   let kwargs := strip_auth_token req kwargs in
   try_except (guarded_block d f req info controller args kwargs)
     is_Exception
     (λ e, log_emit (LOG_exception_failed e) >>
           _handle_error e INTERNAL_SERVER_ERROR PNone PNone))%py.

End jsexpose.

(** ** Persistence documents

    A document model (a mongoengine [Document]) is an object with identity;
    the store maps each one to the values of its fields. *)

Abbreviation store := (gmap nat (gmap string pyval)).

(** Modelled from the spec: [Document.to_mongo] belongs to the persistence
    layer, which section 6 describes as "document objects exposing
    [to_mongo() -> mapping]". The mapping handed out is a new one holding the
    document's fields; the document is read, not written. *)
Definition to_mongo (model : nat) : M store (gmap string pyval) :=
  λ σ, match σ !! model with
       | Some fields => (σ, Ok fields)
       | None => (σ, Raise (PyExc AttributeError (PStr "to_mongo")))
       end.

(** [cls.model()]: a new document holding the field defaults. *)
Definition model_new (defaults : gmap string pyval) : M store nat :=
  λ σ, let model := fresh (dom σ) in (<[model := defaults]> σ, Ok model).

(** What a field holds after it was assigned [value]: the descriptor of a
    mongoengine field replaces [None] by the field's default when it has
    one ([BaseField.__set__]). [defaults] are the field defaults of the
    document class. *)
Definition field_value (defaults : gmap string pyval) (attr : string)
    (value : pyval) : pyval :=
  match value with
  | PNone => default PNone (defaults !! attr)
  | _ => value
  end.

(** [setattr(model, attr, value)] *)
Definition model_setattr (defaults : gmap string pyval) (model : nat)
    (attr : string) (value : pyval) : M store unit :=
  modify (alter (<[attr := field_value defaults attr value]>) model).

Definition model_getattr (model : nat) (attr : string) : M store pyval :=
  λ σ, match σ !! model ≫= (.!! attr) with
       | Some v => (σ, Ok v)
       | None => (σ, Raise (PyExc AttributeError (PStr attr)))
       end.

(** [v[key]] for a string key. *)
Definition subscript (v : pyval) (key : string) : result pyval :=
  match v with
  | PDict d => match d !! key with
               | Some x => Ok x
               | None => Raise (PyExc KeyError (PStr key))
               end
  | _ => Raise (PyExc TypeError (PStr "object is not subscriptable"))
  end.

(** [v[key] = x] *)
Definition store_subscript (v : pyval) (key : string) (x : pyval) : result pyval :=
  match v with
  | PDict d => Ok (PDict (<[key := x]> d))
  | _ => Raise (PyExc TypeError (PStr "object does not support item assignment"))
  end.

(** [v.get(key, default)] *)
Definition dict_get (v : pyval) (key : string) (default : pyval) : result pyval :=
  match v with
  | PDict d => match d !! key with
               | Some x => Ok x
               | None => Ok default
               end
  | _ => Raise (PyExc AttributeError (PStr "get"))
  end.

Definition is_not_None (v : pyval) : bool :=
  match v with PNone => false | _ => true end.

(** [getattr(instance, attr, default)] on an API object. *)
Definition getattr_default (inst : pyval) (attr : string) (default : pyval) : pyval :=
  match inst with
  | PObject _ attrs => match attrs !! attr with
                       | Some v => v
                       | None => default
                       end
  | _ => default
  end.

(** The class attribute [schema] of the API classes that [execution.py]
    imports from [reactor], [rule] and [action]. *)
Record imported_schemas : Type := {
  TriggerAPI_schema : gmap string pyval;
  TriggerTypeAPI_schema : gmap string pyval;
  TriggerInstanceAPI_schema : gmap string pyval;
  RuleAPI_schema : gmap string pyval;
  ActionAPI_schema : gmap string pyval;
  RunnerTypeAPI_schema : gmap string pyval;
  LiveActionAPI_schema : gmap string pyval
}.

Section Conversions.

Variable VALIDATOR : pyval → gmap string pyval → option exn.

(** [st2common.util.mongoescape.unescape_chars] *)
Variable unescape_chars : gmap string pyval → gmap string pyval.

(** The builtin [str], applied to the document id. *)
Variable str : pyval → string.

(** [BaseAPI._from_model] *)
Definition _from_model (model : nat) : M store (gmap string pyval) :=
  (let! son := to_mongo model in
   let doc := unescape_chars son in
   match doc !! "_id" with
   | Some oid => ret (<["id" := PStr (str oid)]> (delete "_id" doc))
   | None => ret doc
   end)%py.

(** [BaseAPI.from_model] *)
Definition from_model (cls : api_class) (model : nat) : M store pyval :=
  (let! doc := _from_model model in
   let attrs := filter (λ kv : string * pyval, is_not_None kv.2 = true) doc in
   lift (BaseAPI_new VALIDATOR cls attrs))%py.

(** [BaseAPI.to_model] (lines 89-94). [cls.model()] makes a new document
    with the field defaults of the document class of [cls]. *)
Definition BaseAPI_to_model (model_defaults : gmap string pyval) (doc : pyval)
    : M store nat :=
  (let! model := model_new model_defaults in
   model_setattr model_defaults model "name"
     (getattr_default doc "name" PNone) >>
   model_setattr model_defaults model "description"
     (getattr_default doc "description" PNone) >>
   ret model)%py.

(** *** [ActionExecutionAPI] *)

(** [st2common.util.isotime]: [format(dt, offset=False)] and [parse]. *)
Variable isotime_format : pyval → result pyval.
Variable isotime_parse : pyval → result pyval.

(** The schemas imported from the sibling API modules. *)
Variable imported : imported_schemas.

(** [ActionExecutionDB]: the field values of a new document, and
    [_fields[attr].required] ([None] where there is no such field). *)
Variable ActionExecutionDB_defaults : gmap string pyval.
Variable ActionExecutionDB_required : string → option bool.

(** After the module-level loop [v.update({"required": True})]. *)
Definition REQUIRED_ATTR_SCHEMAS : gmap string pyval :=
  list_to_map
    [("action", PDict (<["required" := PBool true]> (ActionAPI_schema imported)));
     ("runner", PDict (<["required" := PBool true]> (RunnerTypeAPI_schema imported)));
     ("liveaction",
      PDict (<["required" := PBool true]> (LiveActionAPI_schema imported)))].

Definition ActionExecutionAPI_properties : gmap string pyval :=
  list_to_map
    [("id", PDict (list_to_map [("type", PStr "string");
                                ("required", PBool true)]));
     ("trigger", PDict (TriggerAPI_schema imported));
     ("trigger_type", PDict (TriggerTypeAPI_schema imported));
     ("trigger_instance", PDict (TriggerInstanceAPI_schema imported));
     ("rule", PDict (RuleAPI_schema imported));
     ("action", default PNone (REQUIRED_ATTR_SCHEMAS !! "action"));
     ("runner", default PNone (REQUIRED_ATTR_SCHEMAS !! "runner"));
     ("liveaction", default PNone (REQUIRED_ATTR_SCHEMAS !! "liveaction"));
     ("parent", PDict (list_to_map [("type", PStr "string")]));
     ("children", PDict (list_to_map
                           [("type", PStr "array");
                            ("items", PDict (list_to_map [("type", PStr "string")]));
                            ("uniqueItems", PBool true)]))].

Definition ActionExecutionAPI_schema : pyval :=
  PDict (list_to_map
    [("title", PStr "ActionExecution");
     ("description", PStr "Record of the execution of an action.");
     ("type", PStr "object");
     ("properties", PDict ActionExecutionAPI_properties);
     ("additionalProperties", PBool false)]).

Definition ActionExecutionAPI : api_class :=
  {| cls_name := "ActionExecutionAPI";
     cls_schema := Some ActionExecutionAPI_schema |}.

(** [ActionExecutionAPI.from_model] *)
Definition ActionExecutionAPI_from_model (model : nat) : M store pyval :=
  (let! doc := _from_model model in
   let! liveaction := lift (subscript (PDict doc) "liveaction") in
   let! start := lift (subscript liveaction "start_timestamp") in
   let! start_timestamp := lift (isotime_format start) in
   let! end_timestamp := lift (dict_get liveaction "end_timestamp" PNone) in
   let! liveaction :=
     (if is_not_None end_timestamp then
        let! end_timestamp := lift (isotime_format end_timestamp) in
        lift (store_subscript liveaction "end_timestamp" end_timestamp)
      else ret liveaction) in
   let! liveaction :=
     lift (store_subscript liveaction "start_timestamp" start_timestamp) in
   let doc := <["liveaction" := liveaction]> doc in
   let attrs := filter (λ kv : string * pyval, truthy kv.2 = true) doc in
   lift (BaseAPI_new VALIDATOR ActionExecutionAPI attrs))%py.

(** One iteration of the loop over the schema's properties in [to_model]. *)
Definition to_model_step (instance : pyval) (model : nat)
    (item : string * pyval) : M store unit :=
  let (attr, meta) := item in
  (let! default := lift (dict_get meta "default" PNone) in
   let value := getattr_default instance attr default in
   if truthy value then model_setattr ActionExecutionDB_defaults model attr value
   else match ActionExecutionDB_required attr with
        | None => raise (PyExc KeyError (PStr attr))
        | Some false => ret tt                                   (* continue *)
        | Some true => model_setattr ActionExecutionDB_defaults model attr value
        end)%py.

Fixpoint to_model_loop (instance : pyval) (model : nat)
    (items : list (string * pyval)) : M store unit :=
  match items with
  | [] => ret tt
  | item :: items' =>
      (to_model_step instance model item >> to_model_loop instance model items')%py
  end.

(** [model.liveaction[key] = isotime.parse(model.liveaction[key])] *)
Definition parse_timestamp (model : nat) (key : string) : M store unit :=
  (let! liveaction := model_getattr model "liveaction" in
   let! ts := lift (subscript liveaction key) in
   let! parsed := lift (isotime_parse ts) in
   let! liveaction := model_getattr model "liveaction" in
   let! liveaction := lift (store_subscript liveaction key parsed) in
   model_setattr ActionExecutionDB_defaults model "liveaction" liveaction)%py.

(** [ActionExecutionAPI.to_model] *)
Definition ActionExecutionAPI_to_model (instance : pyval) : M store nat :=
  (let! model := model_new ActionExecutionDB_defaults in
   to_model_loop instance model (map_to_list ActionExecutionAPI_properties) >>
   parse_timestamp model "start_timestamp" >>
   parse_timestamp model "end_timestamp" >>
   ret model)%py.

End Conversions.

(** ** Auxiliary notions for the statements *)

(** The world after the records [logs] were appended to the log. *)
Definition emit (logs : list log_record) (w : world) : world :=
  {| pecan_response := pecan_response w;
     LOG := LOG w ++ logs;
     invocations := invocations w |}.

(** A computation that only writes to the log: the records it emits and its
    outcome do not depend on the world it runs in. *)
Definition log_only {A} (m : M world A) : Prop :=
  ∃ logs r, ∀ w, m w = (emit logs w, r).


(** The world after [pecan.response.status = code] and, when [hdrs] is
    truthy, [pecan.response.headers = hdrs]. *)
Definition with_response (code : Z) (hdrs : pyval) (w : world) : world :=
  {| pecan_response :=
       {| status := code;
          headers := if truthy hdrs then hdrs else headers (pecan_response w) |};
     LOG := LOG w;
     invocations := invocations w |}.

(** The body [_handle_error] starts from: [body if body else dict()]. *)
Definition error_body (body : pyval) : pyval :=
  if truthy body then body else PDict ∅.


(** Line 188 seen from outside: the positional arguments the controller
    would be called with once the coercion has left the locals [l], provided
    the request body could be read and turned into a [body_cls] object. *)
Definition call_arguments (d : jsexpose_args) (req : request) (l : locals)
    : result (list pyval) :=
  match body_cls d with
  | None => Ok (l_more l ++ l_args l)
  | Some cls =>
      match request_data req with
      | Ok data =>
          match construct cls data with
          | Ok obj => Ok ((l_more l ++ [obj]) ++ l_args l)
          | Raise e => Raise e
          end
      | Raise e => Raise e
      end
  end.


(** A computation over the store that leaves it as it found it. *)
Definition reads_only {A} (m : M store A) : Prop :=
  ∀ σ, (m σ).1 = σ.

(** A computation over the store that writes to the document [model] at
    most. *)
Definition writes_only {A} (model : nat) (m : M store A) : Prop :=
  ∀ σ other, other ≠ model → (m σ).1 !! other = σ !! other.


(** Line 203, [status_code or pecan.response.status]: the status the
    response log reports, read after the controller has returned. *)
Definition reported_status (d : jsexpose_args) (resp : response) : Z :=
  match status_code d with
  | Some c => if c =? 0 then status resp else c
  | None => status resp
  end.

(** Lines 208-210: whether the result of the controller goes to the log. *)
Definition log_result (f : controller_function) (controller : pyval) : bool :=
  negb (bool_decide (f_name f ∈ RESPONSE_LOGGING_METHOD_NAME_BLACKLIST))
  && negb (bool_decide (class_name controller
                          ∈ RESPONSE_LOGGING_CONTROLLER_NAME_BLACKLIST)).

(** The world after the controller was called and has returned [result],
    leaving the response [resp]: the response log was written and the status
    code of the decorator, when there is one, was set (lines 199-223). *)
Definition returned (d : jsexpose_args) (f : controller_function)
    (info : request_info) (controller : pyval) (args : list pyval)
    (kwargs : gmap string pyval) (resp : response) (result : pyval)
    (w : world) : world :=
  {| pecan_response := {| status := reported_status d resp;
                          headers := headers resp |};
     LOG := LOG w ++ [LOG_info_response info (reported_status d resp)
                        (if log_result f controller then Some result
                         else None)];
     invocations := invocations w ++
                      [{| inv_args := args; inv_kwargs := kwargs |}] |}.

(** The world after the controller was called and has raised, leaving the
    response [resp]. *)
Definition failed (args : list pyval) (kwargs : gmap string pyval)
    (resp : response) (w : world) : world :=
  {| pecan_response := resp;
     LOG := LOG w;
     invocations := invocations w ++
                      [{| inv_args := args; inv_kwargs := kwargs |}] |}.


(** ** The wrapper when [str] and [json_encode] raise

    [callfunction] above takes the two calls that the wrapper makes on
    values it does not control to return: [str(e)] in the message of the
    three log calls (lines 229, 233 and 240) and [json_encode] (lines 110,
    196 and 225). Both can raise. In Python 2, [str] of an exception whose
    message is unicode text outside ASCII is a [UnicodeEncodeError], and
    [json_encode] is a [TypeError] on a value that it cannot serialise.
    Module [Raising] has the wrapper with the two calls made explicit:
    [str_raises e] and [json_raises v] are the exception that the call
    raises, when it raises. The handlers make both calls outside any [try]
    of their own, so what they raise leaves the handler. *)

Module Raising.

Section jsexpose.

Variable str_raises : exn → option exn.
Variable json_raises : pyval → option exn.

(** [st2common.constants.auth.QUERY_PARAM_ATTRIBUTE_NAME] *)
Variable QUERY_PARAM_ATTRIBUTE_NAME : string.

(** ['API call failed: %s' % (str(e))], evaluated before the log call. *)
Definition failure_message (e : exn) : M world unit :=
  match str_raises e with
  | Some e' => raise e'
  | None => ret tt
  end.

(** [json_encode(v)] *)
Definition encode (v : pyval) : M world reply :=
  match json_raises v with
  | Some e' => raise e'
  | None => ret (json_encode v)
  end.

(** [_handle_error] (lines 97-110) *)
Definition _handle_error (e : exn) (status_code : Z) (body : pyval)
    (hdrs : pyval) : M world reply :=
  (set_status status_code >>
   (if truthy hdrs then set_headers hdrs else ret tt) >>
   let error_body := if truthy body then body else PDict ∅ in
   match error_body with
   | PDict d => encode (PDict (<["faultstring" := message e]> d))
   | _ => raise (PyExc AssertionError (PStr ""))
   end)%py.

(** Lines 228-237: the handlers of the inner [try], for [HTTPUnauthorized]
    and for any other [HTTPException]. *)
Definition handle_http_exception (e : exn) : M world reply :=
  match e with
  | HTTPExc unauthorized _ code body hdrs =>
      (failure_message e >>
       log_emit (if unauthorized then LOG_debug_failed e
                 else LOG_exception_failed e) >>
       _handle_error e code body hdrs)%py
  | PyExc _ _ => raise e
  end.

(** Lines 198-237 *)
Definition call_and_respond (d : jsexpose_args) (f : controller_function)
    (info : request_info) (controller : pyval) (args : list pyval)
    (kwargs : gmap string pyval) : M world reply :=
  try_except
    (let! result := invoke f args kwargs in
     let! w := get in
     let logged_status :=
       match status_code d with
       | Some c => if c =? 0 then status (pecan_response w) else c
       | None => status (pecan_response w)
       end in
     let log_result :=
       negb (bool_decide (f_name f ∈ RESPONSE_LOGGING_METHOD_NAME_BLACKLIST))
       && negb (bool_decide (class_name controller
                               ∈ RESPONSE_LOGGING_CONTROLLER_NAME_BLACKLIST)) in
     log_emit (LOG_info_response info logged_status
                 (if log_result then Some result else None)) >>
     (match status_code d with
      | Some c => if c =? 0 then ret tt else set_status c
      | None => ret tt
      end) >>
     if String.eqb (content_type d) "application/json"
     then encode result
     else ret (raw result))%py
    is_HTTPException
    handle_http_exception.

(** Lines 188-237 *)
Definition dispatch (d : jsexpose_args) (f : controller_function)
    (info : request_info) (controller : pyval) (more : list pyval)
    (l : locals) : M world reply :=
  let args := more ++ l_args l in
  match noop_status d with
  | Some c => (set_status c >> encode PNone)%py
  | None => call_and_respond d f info controller args (l_kwargs l)
  end.

(** Lines 156-237: the body of the outer [try]. *)
Definition guarded_block (d : jsexpose_args) (f : controller_function)
    (req : request) (info : request_info) (controller : pyval)
    (args : list pyval) (kwargs : gmap string pyval) : M world reply :=
  (let! l := coerce_arguments d f args kwargs in
   match body_cls d with
   | None => dispatch d f info controller (l_more l) l
   | Some cls =>
       let! data := lift (request_data req) in
       match construct cls data with
       | Ok obj => dispatch d f info controller (l_more l ++ [obj]) l
       | Raise e =>
           if is_ValidationError e
           then _handle_error e BAD_REQUEST PNone PNone
           else raise e
       end
   end)%py.

(** [callfunction( *args, **kwargs )] (lines 134-241) *)
Definition callfunction (d : jsexpose_args) (f : controller_function)
    (req : request) (args : list pyval) (kwargs : gmap string pyval)
    : M world reply :=
  let controller := controller_of args in
  let info := request_info_of req in
  (log_emit (LOG_info_request info kwargs) >>
   let kwargs := strip_auth_token QUERY_PARAM_ATTRIBUTE_NAME req kwargs in
   try_except (guarded_block d f req info controller args kwargs)
     is_Exception
     (λ e, failure_message e >>
           log_emit (LOG_exception_failed e) >>
           _handle_error e INTERNAL_SERVER_ERROR PNone PNone))%py.

End jsexpose.

End Raising.

(** [str] and [json_encode] that return on every value: with them the
    wrapper of [Raising] is [callfunction]. *)
Definition always_returns {A} (x : A) : option exn := None.

(** What the inner [try] does with an exception raised inside it. *)
Definition inner_except (str_raises : exn → option exn)
    (json_raises : pyval → option exn) (e : exn) (w : world)
    : world * result reply :=
  if is_HTTPException e
  then Raising.handle_http_exception str_raises json_raises e w
  else (w, Raise e).

(** *** The exceptions raised while a request is handled

    The statements of the outer [try] that can raise, for the call
    [callfunction( *args, **kwargs )] of the wrapper made by
    [jsexpose(d)(f)] in the world [w]. *)

Section raised_during_handling.

Variable str_raises : exn → option exn.
Variable json_raises : pyval → option exn.
Variable QUERY_PARAM_ATTRIBUTE_NAME : string.
Variable d : jsexpose_args.
Variable f : controller_function.
Variable req : request.
Variable args : list pyval.
Variable kwargs : gmap string pyval.
Variable w : world.

(** The locals that the coercion loop leaves, when it returns; its outcome
    is the same in every world. *)
Definition coerced (l : locals) : Prop :=
  ∃ w0, (coerce_arguments d f args
           (strip_auth_token QUERY_PARAM_ATTRIBUTE_NAME req kwargs) w0).2
        = Ok l.

(** The inner [try] (lines 198-227): the controller raises [e], or it
    returns and [json_encode(result)] raises [e]. *)
Inductive raised_in_call : exn → Prop :=
  | raised_by_controller l args' resp e :
      coerced l →
      call_arguments d req l = Ok args' →
      noop_status d = None →
      f_call f args' (l_kwargs l) (pecan_response w) = (resp, Raise e) →
      raised_in_call e
  | raised_by_encoding_the_result l args' resp result e :
      coerced l →
      call_arguments d req l = Ok args' →
      noop_status d = None →
      f_call f args' (l_kwargs l) (pecan_response w) = (resp, Ok result) →
      content_type d = "application/json" →
      json_raises result = Some e →
      raised_in_call e.

(** The exceptions that reach the outer [except Exception] clause. *)
Inductive raised_during_handling : exn → Prop :=
  (* lines 158-175: [args.pop(0)] on an empty [args], or a type of
     [arg_types] whose exception the loop does not absorb *)
  | raised_by_coercion w0 e :
      (coerce_arguments d f args
         (strip_auth_token QUERY_PARAM_ATTRIBUTE_NAME req kwargs) w0).2
      = Raise e →
      raised_during_handling e
  (* line 179: [pecan.request.json] *)
  | raised_by_request_json l cls e :
      coerced l →
      body_cls d = Some cls →
      request_data req = Raise e →
      raised_during_handling e
  (* line 183: [body_cls( **data )], other than a [ValidationError] *)
  | raised_by_body_cls l cls data e :
      coerced l →
      body_cls d = Some cls →
      request_data req = Ok data →
      construct cls data = Raise e →
      is_ValidationError e = false →
      raised_during_handling e
  (* line 185: [json_encode] of the body that answers a [ValidationError] *)
  | raised_by_encoding_the_validation_error l cls data ev e :
      coerced l →
      body_cls d = Some cls →
      request_data req = Ok data →
      construct cls data = Raise ev →
      is_ValidationError ev = true →
      json_raises (PDict {[ "faultstring" := message ev ]}) = Some e →
      raised_during_handling e
  (* line 196: [json_encode(None)] *)
  | raised_by_encoding_None l args' c e :
      coerced l →
      call_arguments d req l = Ok args' →
      noop_status d = Some c →
      json_raises PNone = Some e →
      raised_during_handling e
  (* lines 199-227: the inner [try], when no handler of it applies *)
  | raised_by_call e :
      raised_in_call e →
      is_HTTPException e = false →
      raised_during_handling e
  (* lines 229 and 233: [str(e)] in a handler of the inner [try] *)
  | raised_by_str_in_handler e0 e :
      raised_in_call e0 →
      is_HTTPException e0 = true →
      str_raises e0 = Some e →
      raised_during_handling e
  (* line 108: the assertion of [_handle_error], called by such a handler *)
  | raised_by_assertion u m code body hdrs :
      raised_in_call (HTTPExc u m code body hdrs) →
      str_raises (HTTPExc u m code body hdrs) = None →
      (∀ bd, error_body body ≠ PDict bd) →
      raised_during_handling (PyExc AssertionError (PStr ""))
  (* line 110: [json_encode(error_body)], called by such a handler *)
  | raised_by_encoding_in_handler u m code body hdrs bd e :
      raised_in_call (HTTPExc u m code body hdrs) →
      str_raises (HTTPExc u m code body hdrs) = None →
      error_body body = PDict bd →
      json_raises (PDict (<["faultstring" := m]> bd)) = Some e →
      raised_during_handling e.

End raised_during_handling.



(** ** Sample inputs *)

Module Samples.

(** A validator that accepts a mapping exactly when it has a string [name]. *)
Definition name_validator (schema : pyval) (kw : gmap string pyval) : option exn :=
  match kw !! "name" with
  | Some (PStr _) => None
  | _ => Some (PyExc ValidationError (PStr "'name' is a required property"))
  end.

Definition RuleLikeAPI : api_class :=
  {| cls_name := "RuleLikeAPI";
     cls_schema := Some (PDict {[ "type" := PStr "object" ]}) |}.

Definition good_kw : gmap string pyval :=
  <["name" := PStr "r1"]> {[ "enabled" := PBool true ]}.

Definition bad_kw : gmap string pyval :=
  {[ "enabled" := PBool true ]}.

Definition QUERY_PARAM_ATTRIBUTE_NAME : string := "x-auth-token".

Definition rules_controller : pyval := PObject "RulesController" ∅.

(** The builtin [bool] used as an argument type. *)
Definition py_bool (v : pyval) : result pyval := Ok (PBool (truthy v)).

(** A body class built on [BaseAPI] with the validator above. *)
Definition RuleLikeAPI_cls (kw : gmap string pyval) : result pyval :=
  BaseAPI_new name_validator RuleLikeAPI kw.

(** A controller method [get_one(self, id=None, verbose=None)] that echoes
    what it was called with; both parameters have a default, so it accepts
    a call that leaves them out. *)
Definition get_one : controller_function :=
  {| f_name := "get_one";
     f_argspec_args := ["self"; "id"; "verbose"];
     f_call := λ args kwargs resp,
       (resp, Ok (PDict (<["args" := PList args]> {[ "kwargs" := PDict kwargs ]}))) |}.

Definition plain_request : request :=
  {| req_params := Some ∅;
     req_method := PStr "GET";
     req_path := PStr "/v1/rules/1";
     req_remote_addr := PStr "127.0.0.1";
     req_body := PStr "";
     req_json := Raise (PyExc (OtherException "ValueError")
                          (PStr "No JSON object could be decoded")) |}.

Definition initial_world : world :=
  {| pecan_response := {| status := 200; headers := PDict ∅ |};
     LOG := [];
     invocations := [] |}.


(** A request that carries the auth token as a query parameter. *)
Definition token_request : request :=
  {| req_params := Some {[ QUERY_PARAM_ATTRIBUTE_NAME := PStr "secret" ]};
     req_method := PStr "GET";
     req_path := PStr "/v1/rules";
     req_remote_addr := PStr "127.0.0.1";
     req_body := PStr "";
     req_json := Raise (PyExc (OtherException "ValueError")
                          (PStr "No JSON object could be decoded")) |}.

Definition token_kwargs : gmap string pyval :=
  <[QUERY_PARAM_ATTRIBUTE_NAME := PStr "secret"]> {[ "verbose" := PStr "1" ]}.

(** [@jsexpose()] *)
Definition jsexpose_default : jsexpose_args :=
  {| arg_types := None; body_cls := None; status_code := None;
     content_type := "application/json" |}.


(** [@jsexpose(body_cls=RuleLikeAPI)] *)
Definition jsexpose_body : jsexpose_args :=
  {| arg_types := None; body_cls := Some RuleLikeAPI_cls; status_code := None;
     content_type := "application/json" |}.

(** [@jsexpose(body_cls=RuleLikeAPI, status_code=http_client.FORBIDDEN)] *)
Definition jsexpose_body_forbidden : jsexpose_args :=
  {| arg_types := None; body_cls := Some RuleLikeAPI_cls;
     status_code := Some FORBIDDEN; content_type := "application/json" |}.

(** [@jsexpose(status_code=http_client.NOT_IMPLEMENTED)] *)
Definition jsexpose_not_implemented : jsexpose_args :=
  {| arg_types := None; body_cls := None; status_code := Some NOT_IMPLEMENTED;
     content_type := "application/json" |}.

(** A POST whose JSON body lacks the required [name]. *)
Definition bad_post : request :=
  {| req_params := Some ∅;
     req_method := PStr "POST";
     req_path := PStr "/v1/rules";
     req_remote_addr := PStr "127.0.0.1";
     req_body := PStr "{enabled: true}";
     req_json := Ok (PDict bad_kw) |}.

(** A controller method [post(self, rule)]. *)
Definition post : controller_function :=
  {| f_name := "post";
     f_argspec_args := ["self"; "rule"];
     f_call := λ args kwargs resp, (resp, Ok (PList args)) |}.


(** A controller method that fails with a plain exception. *)
Definition get_one_failing : controller_function :=
  {| f_name := "get_one";
     f_argspec_args := ["self"; "id"];
     f_call := λ args kwargs resp,
       (resp, Raise (PyExc (OtherException "ValueError") (PStr "bad id"))) |}.

(** [webob.exc.HTTPNotFound(...)] as the wrapper sees it: the status code
    and body of [e.wsgi_response], and [e.headers]. *)
Definition not_found_headers : pyval :=
  PDict {[ "Content-Type" := PStr "text/plain; charset=UTF-8" ]}.

Definition not_found_with_body : exn :=
  HTTPExc false (PStr "Rule not found") 404
    (PStr "404 Not Found: no such rule") not_found_headers.

Definition not_found_empty_body : exn :=
  HTTPExc false (PStr "Rule not found") 404 (PStr "") not_found_headers.

(** Controller methods that raise them. *)
Definition get_one_not_found_with_body : controller_function :=
  {| f_name := "get_one";
     f_argspec_args := ["self"; "id"];
     f_call := λ args kwargs resp, (resp, Raise not_found_with_body) |}.

Definition get_one_not_found_empty_body : controller_function :=
  {| f_name := "get_one";
     f_argspec_args := ["self"; "id"];
     f_call := λ args kwargs resp, (resp, Raise not_found_empty_body) |}.


(** [@jsexpose(arg_types=[bool])]: one type for the two parameters of
    [get_one(self, id=None, verbose=None)]. *)
Definition jsexpose_one_type : jsexpose_args :=
  {| arg_types := Some [py_bool]; body_cls := None; status_code := None;
     content_type := "application/json" |}.


(** *** Persistence samples *)

(** Stand-ins for the collaborators of the conversions: a validator that
    accepts everything, an [unescape_chars] with nothing to unescape, [str]
    on ids kept as strings, and [isotime] on two instants. *)
Definition accept_all (schema : pyval) (kw : gmap string pyval) : option exn :=
  None.

Definition nothing_to_unescape (doc : gmap string pyval) : gmap string pyval :=
  doc.

Definition str_of_id (v : pyval) : string :=
  match v with
  | PStr s => s
  | _ => "object"
  end.

Definition sample_format (v : pyval) : result pyval :=
  match v with
  | PDatetime t =>
      if t =? 1420070400 then Ok (PStr "2015-01-01T00:00:00.000000Z")
      else if t =? 1420070460 then Ok (PStr "2015-01-01T00:01:00.000000Z")
      else Raise (PyExc (OtherException "ValueError") (PStr "not a sample instant"))
  | _ => Raise (PyExc AttributeError (PStr "strftime"))
  end.

Definition sample_parse (v : pyval) : result pyval :=
  match v with
  | PStr s =>
      if String.eqb s "2015-01-01T00:00:00.000000Z" then Ok (PDatetime 1420070400)
      else if String.eqb s "2015-01-01T00:01:00.000000Z" then Ok (PDatetime 1420070460)
      else Raise (PyExc (OtherException "ValueError") (PStr "not a sample instant"))
  | _ => Raise (PyExc (OtherException "ValueError") (PStr "not a string"))
  end.

(** [ActionExecutionDB]: a new document has an empty [liveaction]; [action],
    [runner] and [liveaction] are required fields. *)
Definition sample_defaults : gmap string pyval :=
  {[ "liveaction" := PDict ∅ ]}.

Definition sample_required (attr : string) : option bool :=
  Some (bool_decide (attr ∈ ["action"; "runner"; "liveaction"])).

(** The record of a finished execution, and of one that is still running. *)
Definition finished_liveaction : gmap string pyval :=
  <["start_timestamp" := PDatetime 1420070400]>
    (<["end_timestamp" := PDatetime 1420070460]>
       {[ "status" := PStr "succeeded" ]}).

Definition running_liveaction : gmap string pyval :=
  <["start_timestamp" := PDatetime 1420070400]>
    {[ "status" := PStr "running" ]}.

Definition execution_fields (liveaction : gmap string pyval)
    : gmap string pyval :=
  <["_id" := PStr "54c6bb640640fd5211edef0d"]>
    (<["action" := PDict {[ "name" := PStr "local" ]}]>
       (<["runner" := PDict {[ "name" := PStr "run-local" ]}]>
          {[ "liveaction" := PDict liveaction ]})).

Definition finished_store : store :=
  {[ 0%nat := execution_fields finished_liveaction ]}.

Definition running_store : store :=
  {[ 0%nat := execution_fields running_liveaction ]}.


Definition no_imported_schemas : imported_schemas :=
  {| TriggerAPI_schema := ∅; TriggerTypeAPI_schema := ∅;
     TriggerInstanceAPI_schema := ∅; RuleAPI_schema := ∅;
     ActionAPI_schema := ∅; RunnerTypeAPI_schema := ∅;
     LiveActionAPI_schema := ∅ |}.


(** *** Samples for [str] and [json_encode] *)

(** Text that [str] can return: every character is ASCII. *)
Definition is_ascii (s : string) : bool :=
  forallb (λ c, Nat.ltb (Ascii.nat_of_ascii c) 128) (String.list_ascii_of_string s).

(** [str(e)] in Python 2, for exceptions whose message is unicode text:
    [UnicodeEncodeError] when the text is not ASCII. *)
Definition ascii_str (e : exn) : option exn :=
  match message e with
  | PStr s =>
      if is_ascii s then None
      else Some (PyExc (OtherException "UnicodeEncodeError")
                   (PStr "'ascii' codec can't encode character"))
  | _ => None
  end.

Definition is_object (v : pyval) : bool :=
  match v with PObject _ _ => true | _ => false end.

(** A [json_encode] that cannot serialise an object, be it the value, an
    item of the list or a value of the dict that it is given. *)
Definition no_objects (v : pyval) : option exn :=
  let unserialisable :=
    match v with
    | PObject _ _ => true
    | PList l => existsb is_object l
    | PDict d => existsb (λ kv : string * pyval, is_object kv.2) (map_to_list d)
    | _ => false
    end in
  if unserialisable
  then Some (PyExc TypeError (PStr "is not JSON serializable"))
  else None.

(** A controller method that returns an object. *)
Definition get_one_object : controller_function :=
  {| f_name := "get_one";
     f_argspec_args := ["self"; "id"];
     f_call := λ args kwargs resp, (resp, Ok (PObject "RuleDB" ∅)) |}.

(** A controller method that fails with a message outside ASCII. *)
Definition get_one_failing_unicode : controller_function :=
  {| f_name := "get_one";
     f_argspec_args := ["self"; "id"];
     f_call := λ args kwargs resp,
       (resp, Raise (PyExc (OtherException "ValueError")
                       (PStr (String (Ascii.ascii_of_nat 233) "")))) |}.

(** A controller method that is interrupted. *)
Definition get_one_interrupted : controller_function :=
  {| f_name := "get_one";
     f_argspec_args := ["self"; "id"];
     f_call := λ args kwargs resp,
       (resp, Raise (PyExc (NonException "KeyboardInterrupt") (PStr ""))) |}.

(** An argument type that accepts numbers and rejects any other value. *)
Definition py_int (v : pyval) : result pyval :=
  match v with
  | PInt z => Ok (PInt z)
  | PBool b => Ok (PInt (if b then 1 else 0))
  | _ => Raise (PyExc (OtherException "ValueError")
                  (PStr "invalid literal for int() with base 10"))
  end.

(** [@jsexpose(arg_types=[int])] *)
Definition jsexpose_int : jsexpose_args :=
  {| arg_types := Some [py_int]; body_cls := None; status_code := None;
     content_type := "application/json" |}.

(** *** More sample calls *)

(** A controller method that returns a rule as a dict. *)
Definition get_one_found : controller_function :=
  {| f_name := "get_one";
     f_argspec_args := ["self"; "id"];
     f_call := λ args kwargs resp,
       (resp, Ok (PDict {[ "name" := PStr "r1" ]})) |}.

(** A POST whose JSON body has the required [name]. *)
Definition good_post : request :=
  {| req_params := Some ∅;
     req_method := PStr "POST";
     req_path := PStr "/v1/rules";
     req_remote_addr := PStr "127.0.0.1";
     req_body := PStr "{name: r1, enabled: true}";
     req_json := Ok (PDict good_kw) |}.

(** [@jsexpose(arg_types=[bool, int])] *)
Definition jsexpose_bool_int : jsexpose_args :=
  {| arg_types := Some [py_bool; py_int]; body_cls := None;
     status_code := None; content_type := "application/json" |}.

(** An argument type that looks its argument up in a table, as
    [{'low': 0, 'high': 1}.__getitem__] does: a [KeyError] for any other
    value. *)
Definition by_level (v : pyval) : result pyval :=
  match v with
  | PStr "low" => Ok (PInt 0)
  | PStr "high" => Ok (PInt 1)
  | _ => Raise (PyExc KeyError v)
  end.

(** [@jsexpose(arg_types=[by_level])] on [get_all(self, level=None)]. *)
Definition jsexpose_level : jsexpose_args :=
  {| arg_types := Some [by_level]; body_cls := None; status_code := None;
     content_type := "application/json" |}.

Definition get_all : controller_function :=
  {| f_name := "get_all";
     f_argspec_args := ["self"; "level"];
     f_call := λ args kwargs resp, (resp, Ok (PList [])) |}.

(** The request [plain_request] with another JSON body behind its empty
    [body]. *)
Definition plain_request_other_json : request :=
  {| req_params := Some ∅;
     req_method := PStr "GET";
     req_path := PStr "/v1/rules/1";
     req_remote_addr := PStr "127.0.0.1";
     req_body := PStr "";
     req_json := Ok (PDict good_kw) |}.

(** A store with the document of a rule that has no description. *)
Definition rule_fields : gmap string pyval :=
  <["_id" := PStr "54c6bb640640fd5211edef0d"]>
    (<["name" := PStr "r1"]>
       (<["description" := PNone]> {[ "enabled" := PBool false ]})).

Definition rule_store : store :=
  {[ 0%nat := rule_fields ]}.

(** The field defaults of the document class of [RuleLikeAPI]. *)
Definition rule_defaults : gmap string pyval :=
  {[ "enabled" := PBool true ]}.

(** The API object of the finished execution. *)
Definition finished_api_object : pyval :=
  PObject "ActionExecutionAPI"
    (<["id" := PStr "54c6bb640640fd5211edef0d"]>
       (<["action" := PDict {[ "name" := PStr "local" ]}]>
          (<["runner" := PDict {[ "name" := PStr "run-local" ]}]>
             {[ "liveaction" :=
                  PDict (<["start_timestamp" := PStr "2015-01-01T00:00:00.000000Z"]>
                           (<["end_timestamp" := PStr "2015-01-01T00:01:00.000000Z"]>
                              {[ "status" := PStr "succeeded" ]})) ]}))).

End Samples.

(** * Properties *)

(** ** [BaseAPI.__init__] *)

Section BaseAPI_properties.

Context (VALIDATOR : pyval → gmap string pyval → option exn).

(** The [setattr] loop leaves every supplied key bound to its value and the
    other attributes as they were. *)
Lemma setattr_loop_attrs (self : instance) (kw : gmap string pyval) :
  inst_attrs (map_fold (λ key value self, setattr self key value) self kw)
  = kw ∪ inst_attrs self.
Proof.
  apply (map_fold_weak_ind
           (λ r m, inst_attrs r = m ∪ inst_attrs self)).
  - by rewrite (left_id_L ∅ (∪)).
  - intros key value m r Hfresh IH. simpl. rewrite IH.
    by rewrite insert_union_l.
Qed.

Lemma setattr_loop_class (self : instance) (kw : gmap string pyval) :
  inst_class (map_fold (λ key value self, setattr self key value) self kw)
  = inst_class self.
Proof.
  apply (map_fold_weak_ind (λ r _, inst_class r = inst_class self)); done.
Qed.


(** C10: when validation of the keyword arguments raises, the constructor
    raises that error and the instance has exactly the attributes it had
    before: nothing from the keyword arguments was assigned. *)
Theorem BaseAPI_init_raises_before_assignment (cls : api_class)
    (self : instance) (kw : gmap string pyval) (e : exn) :
  VALIDATOR (getattr_schema cls self) kw = Some e →
  BaseAPI_init VALIDATOR cls self kw = (self, Raise e) ∧
  ∀ key, inst_attrs (BaseAPI_init VALIDATOR cls self kw).1 !! key
         = inst_attrs self !! key.
Proof.
  intros Hv. unfold BaseAPI_init. rewrite Hv. done.
Qed.

(** Instantiation: a new object gets exactly the keyword arguments as its
    attributes, or the validator's error. *)
Lemma BaseAPI_new_spec (cls : api_class) (kw : gmap string pyval) :
  BaseAPI_new VALIDATOR cls kw
  = match VALIDATOR (default (PDict ∅) (cls_schema cls)) kw with
    | Some e => Raise e
    | None => Ok (PObject (cls_name cls) kw)
    end.
Proof.
  unfold BaseAPI_new, BaseAPI_init, getattr_schema, new_instance. simpl.
  rewrite lookup_empty.
  destruct (cls_schema cls) as [s|]; simpl;
    (destruct (VALIDATOR _ kw); [done|]);
    unfold obj_of; rewrite setattr_loop_attrs, setattr_loop_class; simpl;
    by rewrite (right_id_L ∅ (∪)).
Qed.

End BaseAPI_properties.

Lemma BaseAPI_init_raises_before_assignment_witness :
  BaseAPI_init Samples.name_validator Samples.RuleLikeAPI
    (new_instance Samples.RuleLikeAPI) Samples.bad_kw
  = (new_instance Samples.RuleLikeAPI,
     Raise (PyExc ValidationError (PStr "'name' is a required property"))) ∧
  ∀ key, inst_attrs (BaseAPI_init Samples.name_validator Samples.RuleLikeAPI
                       (new_instance Samples.RuleLikeAPI) Samples.bad_kw).1 !! key
         = inst_attrs (new_instance Samples.RuleLikeAPI) !! key.
Proof.
  apply (BaseAPI_init_raises_before_assignment Samples.name_validator).
  reflexivity.
Defined.

Example BaseAPI_new_good :
  BaseAPI_new Samples.name_validator Samples.RuleLikeAPI Samples.good_kw
  = Ok (PObject "RuleLikeAPI" Samples.good_kw).
Proof. by rewrite BaseAPI_new_spec. Qed.

(** ** The coercion loop writes only to the log *)

Lemma emit_nil (w : world) : emit [] w = w.
Proof. destruct w. unfold emit. simpl. by rewrite app_nil_r. Qed.

Lemma emit_app (logs1 logs2 : list log_record) (w : world) :
  emit logs2 (emit logs1 w) = emit (logs1 ++ logs2) w.
Proof. unfold emit. simpl. by rewrite app_assoc. Qed.

Lemma log_only_ret {A} (a : A) : log_only (ret a).
Proof. exists [], (Ok a). intros w. by rewrite emit_nil. Qed.

Lemma log_only_raise {A} (e : exn) : log_only (@raise world A e).
Proof. exists [], (Raise e). intros w. by rewrite emit_nil. Qed.

Lemma log_only_lift {A} (r : result A) : log_only (lift r).
Proof. exists [], r. intros w. by rewrite emit_nil. Qed.

Lemma log_only_log_emit (r : log_record) : log_only (log_emit r).
Proof. by exists [r], (Ok tt). Qed.

Lemma log_only_bind {A B} (m : M world A) (k : A → M world B) :
  log_only m → (∀ a, log_only (k a)) → log_only (bind m k).
Proof.
  intros (logs & r & Hm) Hk. destruct r as [a|e].
  - destruct (Hk a) as (logs' & r' & Hka).
    exists (logs ++ logs'), r'. intros w.
    unfold bind. by rewrite Hm, Hka, emit_app.
  - exists logs, (Raise e). intros w. unfold bind. by rewrite Hm.
Qed.

Create HintDb log_only.

#[local] Hint Resolve log_only_ret log_only_raise log_only_lift
  log_only_log_emit : log_only.

Ltac log_only_tac :=
  repeat first
    [ apply log_only_bind; [|intros ?]
    | solve [auto with log_only] ].

Lemma coerce_keyword_log_only (fname name : string) (l : locals) :
  log_only (coerce_keyword fname name l).
Proof.
  unfold coerce_keyword.
  destruct (l_types l) as [|t types]; [log_only_tac|].
  destruct (l_kwargs l !! name) as [v|]; [|log_only_tac].
  destruct (t v) as [v'|e]; [log_only_tac|].
  destruct (is_IndexError e); [log_only_tac|].
  destruct (is_KeyError e); log_only_tac.
Qed.

Lemma coerce_step_log_only (fname name : string) (l : locals) :
  log_only (coerce_step fname name l).
Proof.
  unfold coerce_step.
  destruct (l_args l) as [|a args]; [apply coerce_keyword_log_only|].
  destruct (l_types l) as [|t types]; [apply coerce_keyword_log_only|].
  destruct (t a) as [v|e]; [log_only_tac|].
  destruct (is_IndexError e);
    [apply coerce_keyword_log_only|log_only_tac].
Qed.

Lemma coerce_loop_log_only (fname : string) (names : list string) (l : locals) :
  log_only (coerce_loop fname names l).
Proof.
  revert l. induction names as [|name names IH]; intros l; simpl.
  - log_only_tac.
  - apply log_only_bind; [apply coerce_step_log_only|done].
Qed.

Lemma coerce_arguments_log_only (d : jsexpose_args) (f : controller_function)
    (args : list pyval) (kwargs : gmap string pyval) :
  log_only (coerce_arguments d f args kwargs).
Proof.
  unfold coerce_arguments. destruct args as [|self args]; [log_only_tac|].
  destruct (default [] (arg_types d)); [log_only_tac|].
  apply coerce_loop_log_only.
Qed.

(** The outcome of the coercion can be read off in any world. *)
Lemma coerce_arguments_run (d : jsexpose_args) (f : controller_function)
    (args : list pyval) (kwargs : gmap string pyval) (w0 : world)
    (r : result locals) :
  (coerce_arguments d f args kwargs w0).2 = r →
  ∃ logs, ∀ w, coerce_arguments d f args kwargs w = (emit logs w, r).
Proof.
  destruct (coerce_arguments_log_only d f args kwargs) as (logs & r' & H).
  rewrite H. simpl. intros <-. by exists logs.
Qed.

(** ** The coercion loop keeps the keys of [kwargs] *)

Lemma coerce_keyword_dom (fname name : string) (l l' : locals) (w w' : world) :
  coerce_keyword fname name l w = (w', Ok l') →
  dom (l_kwargs l') = dom (l_kwargs l).
Proof.
  unfold coerce_keyword.
  destruct (l_types l) as [|t types].
  { intros [= _ <-]. done. }
  destruct (l_kwargs l !! name) as [v|] eqn:Hv.
  2:{ intros [= _ <-]. done. }
  destruct (t v) as [v'|e].
  { intros [= _ <-]. simpl. by apply dom_insert_lookup_L. }
  destruct (is_IndexError e).
  { intros [= _ <-]. done. }
  destruct (is_KeyError e).
  { intros [= _ <-]. done. }
  intros [=].
Qed.

Lemma coerce_step_dom (fname name : string) (l l' : locals) (w w' : world) :
  coerce_step fname name l w = (w', Ok l') →
  dom (l_kwargs l') = dom (l_kwargs l).
Proof.
  unfold coerce_step.
  destruct (l_args l) as [|a args]; [apply coerce_keyword_dom|].
  destruct (l_types l) as [|t types].
  { intros H. by apply coerce_keyword_dom in H. }
  destruct (t a) as [v|e].
  { intros [= _ <-]. done. }
  destruct (is_IndexError e).
  { intros H. by apply coerce_keyword_dom in H. }
  intros [=].
Qed.

Lemma coerce_loop_dom (fname : string) (names : list string) (l l' : locals)
    (w w' : world) :
  coerce_loop fname names l w = (w', Ok l') →
  dom (l_kwargs l') = dom (l_kwargs l).
Proof.
  revert l w. induction names as [|name names IH]; intros l w; simpl.
  - intros [= _ <-]. done.
  - unfold bind at 1.
    destruct (coerce_step fname name l w) as [w1 [l1|e]] eqn:Hstep; [|done].
    intros H. apply IH in H. rewrite H. by eapply coerce_step_dom.
Qed.

Lemma coerce_arguments_dom (d : jsexpose_args) (f : controller_function)
    (args : list pyval) (kwargs : gmap string pyval) (l : locals) (w w' : world) :
  coerce_arguments d f args kwargs w = (w', Ok l) →
  dom (l_kwargs l) = dom kwargs.
Proof.
  unfold coerce_arguments. destruct args as [|self args]; [done|].
  destruct (default [] (arg_types d)) as [|t types].
  { intros [= _ <-]. done. }
  intros H. by apply coerce_loop_dom in H.
Qed.

(** ** [_handle_error] and the call *)

Ltac run_monad :=
  unfold bind, ret, raise, lift, modify, get, try_except, log_emit,
    set_status, set_headers, invoke in *; simpl in *.

(** With the default [body] and [headers], [_handle_error] sets the status
    and returns the encoded [{'faultstring': e.message}]. *)
Lemma _handle_error_default (e : exn) (code : Z) (w : world) :
  _handle_error e code PNone PNone w
  = (with_response code PNone w,
     Ok (json_encode (PDict {[ "faultstring" := message e ]}))).
Proof. reflexivity. Qed.

(** Whatever its arguments, [_handle_error] sets the status (and the headers,
    when given), and either returns the encoded body extended with
    [faultstring] or fails its assertion. *)
Lemma _handle_error_run (e : exn) (code : Z) (body hdrs : pyval) (w : world) :
  _handle_error e code body hdrs w
  = (with_response code hdrs w,
     match error_body body with
     | PDict d => Ok (json_encode (PDict (<["faultstring" := message e]> d)))
     | _ => Raise (PyExc AssertionError (PStr ""))
     end).
Proof.
  unfold _handle_error, with_response, error_body. run_monad.
  destruct (truthy hdrs); simpl;
    destruct (if truthy body then body else PDict ∅); reflexivity.
Qed.

(** The inner [try]: the controller is invoked exactly once, with the given
    arguments. *)
Lemma call_and_respond_invocations (d : jsexpose_args) (f : controller_function)
    (info : request_info) (controller : pyval) (args : list pyval)
    (kwargs : gmap string pyval) (w w' : world) (r : result reply) :
  call_and_respond d f info controller args kwargs w = (w', r) →
  invocations w'
  = invocations w ++ [{| inv_args := args; inv_kwargs := kwargs |}].
Proof.
  unfold call_and_respond. run_monad.
  destruct (f_call f args kwargs (pecan_response w)) as [resp [result|e]].
  - destruct (status_code d) as [c|]; [destruct (c =? 0)|];
      destruct (String.eqb (content_type d) "application/json");
      simpl; intros [= <- _]; reflexivity.
  - destruct e as [cls m|u m code body hdrs]; simpl.
    + intros [= <- _]. reflexivity.
    + rewrite _handle_error_run. intros [= <- _]. reflexivity.
Qed.

(** What the inner handlers do with an HTTP exception of the controller. *)
Lemma call_and_respond_http (d : jsexpose_args) (f : controller_function)
    (info : request_info) (controller : pyval) (args : list pyval)
    (kwargs : gmap string pyval) (w : world) (resp : response)
    (u : bool) (m : pyval) (code : Z) (body hdrs : pyval) :
  f_call f args kwargs (pecan_response w)
  = (resp, Raise (HTTPExc u m code body hdrs)) →
  call_and_respond d f info controller args kwargs w
  = _handle_error (HTTPExc u m code body hdrs) code body hdrs
      {| pecan_response := resp;
         LOG := LOG w ++ [if u then LOG_debug_failed (HTTPExc u m code body hdrs)
                          else LOG_exception_failed (HTTPExc u m code body hdrs)];
         invocations := invocations w ++
                          [{| inv_args := args; inv_kwargs := kwargs |}] |}.
Proof.
  intros Hf. unfold call_and_respond. run_monad. rewrite Hf. simpl.
  reflexivity.
Qed.

(** Any other exception of the controller leaves the inner [try]. *)
Lemma call_and_respond_raise (d : jsexpose_args) (f : controller_function)
    (info : request_info) (controller : pyval) (args : list pyval)
    (kwargs : gmap string pyval) (w : world) (resp : response)
    (cls : exc_class) (m : pyval) :
  f_call f args kwargs (pecan_response w) = (resp, Raise (PyExc cls m)) →
  call_and_respond d f info controller args kwargs w
  = ({| pecan_response := resp; LOG := LOG w;
        invocations := invocations w ++
                         [{| inv_args := args; inv_kwargs := kwargs |}] |},
     Raise (PyExc cls m)).
Proof.
  intros Hf. unfold call_and_respond. run_monad. rewrite Hf. reflexivity.
Qed.

Lemma dispatch_invocations (d : jsexpose_args) (f : controller_function)
    (info : request_info) (controller : pyval) (more : list pyval)
    (l : locals) (w w' : world) (r : result reply) :
  dispatch d f info controller more l w = (w', r) →
  match noop_status d with
  | Some _ => invocations w' = invocations w
  | None => invocations w'
            = invocations w ++ [{| inv_args := more ++ l_args l;
                                   inv_kwargs := l_kwargs l |}]
  end.
Proof.
  unfold dispatch. destruct (noop_status d) as [c|].
  - run_monad. intros [= <- _]. reflexivity.
  - apply call_and_respond_invocations.
Qed.

(** The guarded block invokes the controller at most once, and then with
    keyword arguments that have the keys it was given. *)
Lemma guarded_block_invocations (d : jsexpose_args) (f : controller_function)
    (req : request) (info : request_info) (controller : pyval)
    (args : list pyval) (kwargs : gmap string pyval) (w w' : world)
    (r : result reply) :
  guarded_block d f req info controller args kwargs w = (w', r) →
  invocations w' = invocations w ∨
  (noop_status d = None ∧
   ∃ args' kwargs',
     invocations w'
     = invocations w ++ [{| inv_args := args'; inv_kwargs := kwargs' |}] ∧
     dom kwargs' = dom kwargs).
Proof.
  unfold guarded_block. unfold bind at 1.
  destruct (coerce_arguments_log_only d f args kwargs) as (logs & rl & Hco).
  rewrite Hco. destruct rl as [l|e].
  2:{ intros [= <- _]. by left. }
  assert (Hdom : dom (l_kwargs l) = dom kwargs).
  { eapply (coerce_arguments_dom d f args kwargs l w). apply Hco. }
  assert (Hdisp : ∀ more w1,
    invocations w1 = invocations w →
    dispatch d f info controller more l w1 = (w', r) →
    invocations w' = invocations w ∨
    (noop_status d = None ∧
     ∃ args' kwargs',
       invocations w'
       = invocations w ++ [{| inv_args := args'; inv_kwargs := kwargs' |}] ∧
       dom kwargs' = dom kwargs)).
  { intros more w1 Hw1 H. apply dispatch_invocations in H.
    destruct (noop_status d).
    - left. congruence.
    - right. split; [done|]. eexists _, _. rewrite H, Hw1. done. }
  destruct (body_cls d) as [cls|]; [|by apply Hdisp].
  unfold bind, lift. destruct (request_data req) as [data|e].
  2:{ intros [= <- _]. by left. }
  destruct (construct cls data) as [obj|e]; [by apply Hdisp|].
  destruct (is_ValidationError e).
  - rewrite _handle_error_default. intros [= <- _]. by left.
  - intros [= <- _]. by left.
Qed.

(** ** The wrapper *)

Section jsexpose_properties.

Context (QUERY_PARAM_ATTRIBUTE_NAME : string).


(** The outer [try] spelled out: the request is logged, the token is
    stripped, and an [Exception] that leaves the guarded block is logged and
    answered by [_handle_error] with status 500. *)
Lemma callfunction_run (d : jsexpose_args) (f : controller_function)
    (req : request) (args : list pyval) (kwargs : gmap string pyval) (w : world) :
  callfunction QUERY_PARAM_ATTRIBUTE_NAME d f req args kwargs w
  = match guarded_block d f req (request_info_of req) (controller_of args)
            args (strip_auth_token QUERY_PARAM_ATTRIBUTE_NAME req kwargs)
            (emit [LOG_info_request (request_info_of req) kwargs] w) with
    | (w1, Ok r) => (w1, Ok r)
    | (w1, Raise e) =>
        if is_Exception e
        then (with_response INTERNAL_SERVER_ERROR PNone
                (emit [LOG_exception_failed e] w1),
              Ok (json_encode (PDict {[ "faultstring" := message e ]})))
        else (w1, Raise e)
    end.
Proof.
  unfold callfunction. run_monad.
  change {| pecan_response := pecan_response w;
            LOG := LOG w ++ [LOG_info_request (request_info_of req) kwargs];
            invocations := invocations w |}
    with (emit [LOG_info_request (request_info_of req) kwargs] w).
  destruct (guarded_block _ _ _ _ _ _ _ _) as [w1 [r|e]]; [done|].
  destruct (is_Exception e); done.
Qed.

(** The wrapper invokes the controller at most once, with keyword arguments
    that have the keys left after the token was stripped. *)
Lemma callfunction_invocations (d : jsexpose_args) (f : controller_function)
    (req : request) (args : list pyval) (kwargs : gmap string pyval)
    (w w' : world) (r : result reply) :
  callfunction QUERY_PARAM_ATTRIBUTE_NAME d f req args kwargs w = (w', r) →
  invocations w' = invocations w ∨
  (noop_status d = None ∧
   ∃ args' kwargs',
     invocations w'
     = invocations w ++ [{| inv_args := args'; inv_kwargs := kwargs' |}] ∧
     dom kwargs' = dom (strip_auth_token QUERY_PARAM_ATTRIBUTE_NAME req kwargs)).
Proof.
  rewrite callfunction_run.
  destruct (guarded_block _ _ _ _ _ _ _ _) as [w1 rg] eqn:Hg.
  apply guarded_block_invocations in Hg. simpl in Hg.
  intros Hcall.
  assert (Hinv : invocations w' = invocations w1).
  { destruct rg as [a|e]; [by injection Hcall as <- _|].
    destruct (is_Exception e); by injection Hcall as <- _. }
  by rewrite Hinv.
Qed.

(** C9: when the auth-token parameter is both a query parameter of the
    request and a keyword argument, the wrapper removes it from the keyword
    arguments before the coercion, and no invocation of the controller made
    by the call has it among its keyword arguments. *)
Theorem callfunction_hides_auth_token (d : jsexpose_args)
    (f : controller_function) (req : request) (args : list pyval)
    (kwargs : gmap string pyval) (w w' : world) (r : result reply) :
  QUERY_PARAM_ATTRIBUTE_NAME ∈ dom (default ∅ (req_params req)) →
  QUERY_PARAM_ATTRIBUTE_NAME ∈ dom kwargs →
  callfunction QUERY_PARAM_ATTRIBUTE_NAME d f req args kwargs w = (w', r) →
  strip_auth_token QUERY_PARAM_ATTRIBUTE_NAME req kwargs
  = delete QUERY_PARAM_ATTRIBUTE_NAME kwargs ∧
  ∃ new, invocations w' = invocations w ++ new ∧
         ∀ i, i ∈ new → inv_kwargs i !! QUERY_PARAM_ATTRIBUTE_NAME = None.
Proof.
  intros Hparams Hkwargs Hcall.
  assert (Hstrip : strip_auth_token QUERY_PARAM_ATTRIBUTE_NAME req kwargs
                   = delete QUERY_PARAM_ATTRIBUTE_NAME kwargs).
  { unfold strip_auth_token.
    by rewrite !bool_decide_eq_true_2. }
  split; [done|].
  apply callfunction_invocations in Hcall
    as [Hsame|(_ & args' & kwargs' & Hone & Hdom)].
  - exists []. rewrite app_nil_r. split; [done|]. by intros i ?%elem_of_nil.
  - eexists. split; [exact Hone|].
    intros i ->%list_elem_of_singleton. simpl.
    apply (not_elem_of_dom (D := gset string)).
    rewrite Hdom, Hstrip. apply not_elem_of_dom, lookup_delete_eq.
Qed.

End jsexpose_properties.

Lemma callfunction_hides_auth_token_witness :
  strip_auth_token Samples.QUERY_PARAM_ATTRIBUTE_NAME Samples.token_request
    Samples.token_kwargs
  = delete Samples.QUERY_PARAM_ATTRIBUTE_NAME Samples.token_kwargs ∧
  ∃ new,
    invocations
      (callfunction Samples.QUERY_PARAM_ATTRIBUTE_NAME Samples.jsexpose_default
         Samples.get_one Samples.token_request [Samples.rules_controller]
         Samples.token_kwargs Samples.initial_world).1
    = invocations Samples.initial_world ++ new ∧
    ∀ i, i ∈ new → inv_kwargs i !! Samples.QUERY_PARAM_ATTRIBUTE_NAME = None.
Proof.
  apply (callfunction_hides_auth_token Samples.QUERY_PARAM_ATTRIBUTE_NAME
           Samples.jsexpose_default Samples.get_one Samples.token_request
           [Samples.rules_controller] Samples.token_kwargs Samples.initial_world
           _
           (callfunction Samples.QUERY_PARAM_ATTRIBUTE_NAME
              Samples.jsexpose_default Samples.get_one Samples.token_request
              [Samples.rules_controller] Samples.token_kwargs
              Samples.initial_world).2).
  - vm_compute. reflexivity.
  - vm_compute. reflexivity.
  - apply surjective_pairing.
Defined.

(** In that call the controller does run, and sees only [verbose]. *)
Example callfunction_token_call :
  invocations
    (callfunction Samples.QUERY_PARAM_ATTRIBUTE_NAME Samples.jsexpose_default
       Samples.get_one Samples.token_request [Samples.rules_controller]
       Samples.token_kwargs Samples.initial_world).1
  = [{| inv_args := [Samples.rules_controller];
        inv_kwargs := {[ "verbose" := PStr "1" ]} |}].
Proof. vm_compute. reflexivity. Qed.

Section guarded_block_properties.

Context (d : jsexpose_args) (f : controller_function) (req : request)
  (info : request_info) (controller : pyval).

(** The guarded block once the coercion has returned the locals [l]. *)
Lemma guarded_block_coerced (args : list pyval) (kwargs : gmap string pyval)
    (w w1 : world) (l : locals) :
  coerce_arguments d f args kwargs w = (w1, Ok l) →
  guarded_block d f req info controller args kwargs w
  = match body_cls d with
    | None => dispatch d f info controller (l_more l) l w1
    | Some cls =>
        match request_data req with
        | Ok data =>
            match construct cls data with
            | Ok obj => dispatch d f info controller (l_more l ++ [obj]) l w1
            | Raise e =>
                if is_ValidationError e
                then (with_response BAD_REQUEST PNone w1,
                      Ok (json_encode (PDict {[ "faultstring" := message e ]})))
                else (w1, Raise e)
            end
        | Raise e => (w1, Raise e)
        end
    end.
Proof.
  intros Hco. unfold guarded_block. unfold bind at 1. rewrite Hco.
  destruct (body_cls d) as [cls|]; [|done].
  unfold bind, lift. destruct (request_data req) as [data|e]; [|done].
  destruct (construct cls data) as [obj|e]; [done|].
  destruct (is_ValidationError e); [|done].
  by rewrite _handle_error_default.
Qed.

(** The guarded block once the arguments of the call are ready. *)
Lemma guarded_block_prepared (args : list pyval) (kwargs : gmap string pyval)
    (w w1 : world) (l : locals) (args' : list pyval) :
  coerce_arguments d f args kwargs w = (w1, Ok l) →
  call_arguments d req l = Ok args' →
  guarded_block d f req info controller args kwargs w
  = match noop_status d with
    | Some c => (with_response c PNone w1, Ok (json_encode PNone))
    | None => call_and_respond d f info controller args' (l_kwargs l) w1
    end.
Proof.
  intros Hco Hargs. rewrite (guarded_block_coerced _ _ _ _ _ Hco).
  unfold call_arguments in Hargs. unfold dispatch.
  destruct (body_cls d) as [cls|].
  - destruct (request_data req) as [data|e]; [|done].
    destruct (construct cls data) as [obj|e]; [|done].
    injection Hargs as <-. by destruct (noop_status d).
  - injection Hargs as <-. by destruct (noop_status d).
Qed.

End guarded_block_properties.

Section request_errors.

Context (QUERY_PARAM_ATTRIBUTE_NAME : string).


(** The wrapper once the coercion has returned the locals [l]: the outcome
    of the coercion may be read off in any world [w0]. *)
Lemma callfunction_coerced (d : jsexpose_args) (f : controller_function)
    (req : request) (args : list pyval) (kwargs : gmap string pyval)
    (w w0 : world) (l : locals) :
  (coerce_arguments d f args
     (strip_auth_token QUERY_PARAM_ATTRIBUTE_NAME req kwargs) w0).2
  = Ok l →
  ∃ logs,
    coerce_arguments d f args (strip_auth_token QUERY_PARAM_ATTRIBUTE_NAME req kwargs)
      (emit [LOG_info_request (request_info_of req) kwargs] w)
    = (emit (LOG_info_request (request_info_of req) kwargs :: logs) w, Ok l).
Proof.
  intros Hco. apply coerce_arguments_run in Hco as [logs Hco].
  exists logs. by rewrite Hco, emit_app.
Qed.

(** C2: when [body_cls] is given and building it from the request body
    raises a [ValidationError] (so the coercion before it has returned and
    the body was read), the wrapper returns the encoded error body
    [{'faultstring': e.message}], the response status is 400, and the
    controller has not been invoked. *)
Theorem body_validation_error_is_bad_request (d : jsexpose_args)
    (f : controller_function) (req : request) (args : list pyval)
    (kwargs : gmap string pyval) (w w0 : world) (l : locals)
    (cls : gmap string pyval → result pyval) (data : pyval) (e : exn) :
  body_cls d = Some cls →
  (coerce_arguments d f args
     (strip_auth_token QUERY_PARAM_ATTRIBUTE_NAME req kwargs) w0).2
  = Ok l →
  request_data req = Ok data →
  construct cls data = Raise e →
  is_ValidationError e = true →
  ∃ w',
    callfunction QUERY_PARAM_ATTRIBUTE_NAME d f req args kwargs w
    = (w', Ok (json_encode (PDict {[ "faultstring" := message e ]}))) ∧
    status (pecan_response w') = BAD_REQUEST ∧
    invocations w' = invocations w.
Proof.
  intros Hcls Hco Hdata Hcons Hval.
  destruct (callfunction_coerced d f req args kwargs w w0 l Hco) as [logs Hrun].
  rewrite callfunction_run.
  rewrite (guarded_block_coerced _ _ _ _ _ _ _ _ _ _ Hrun).
  rewrite Hcls, Hdata, Hcons, Hval.
  eexists. split; [reflexivity|]. done.
Qed.

End request_errors.

Lemma body_validation_error_is_bad_request_witness :
  ∃ w',
    callfunction Samples.QUERY_PARAM_ATTRIBUTE_NAME Samples.jsexpose_body
      Samples.post Samples.bad_post [Samples.rules_controller] ∅
      Samples.initial_world
    = (w', Ok (json_encode
                 (PDict {[ "faultstring" :=
                             message (PyExc ValidationError
                                        (PStr "'name' is a required property")) ]}))) ∧
    status (pecan_response w') = BAD_REQUEST ∧
    invocations w' = invocations Samples.initial_world.
Proof.
  apply (body_validation_error_is_bad_request
           Samples.QUERY_PARAM_ATTRIBUTE_NAME Samples.jsexpose_body
           Samples.post Samples.bad_post [Samples.rules_controller] ∅
           Samples.initial_world Samples.initial_world
           {| l_args := []; l_types := []; l_more := [Samples.rules_controller];
              l_kwargs := ∅ |}
           Samples.RuleLikeAPI_cls (PDict Samples.bad_kw)).
  - reflexivity.
  - reflexivity.
  - reflexivity.
  - reflexivity.
  - reflexivity.
Defined.

Lemma noop_status_Some (d : jsexpose_args) (c : Z) :
  status_code d = Some c → c ∈ noop_codes → noop_status d = Some c.
Proof.
  intros Hc Hin. unfold noop_status. rewrite Hc.
  rewrite (bool_decide_eq_true_2 _ Hin).
  destruct (Z.eqb_spec c 0) as [->|]; [|done].
  exfalso. revert Hin. unfold noop_codes.
  rewrite !elem_of_cons, elem_of_nil.
  unfold NOT_IMPLEMENTED, METHOD_NOT_ALLOWED, FORBIDDEN. lia.
Qed.

Section responses.

Context (QUERY_PARAM_ATTRIBUTE_NAME : string).


(** C8, as amended: with a [status_code] of 501, 405 or 403 the controller
    is never invoked, whatever else happens; and once the argument coercion
    and the construction of the body object (when [body_cls] is given) have
    completed, the wrapper sets the response status to that code and
    returns the JSON encoding of [None]. *)
Theorem noop_status_code_skips_controller (d : jsexpose_args)
    (f : controller_function) (req : request) (args : list pyval)
    (kwargs : gmap string pyval) (w : world) (c : Z) :
  status_code d = Some c →
  c ∈ noop_codes →
  invocations (callfunction QUERY_PARAM_ATTRIBUTE_NAME d f req args kwargs w).1
  = invocations w ∧
  ∀ (w0 : world) (l : locals) (args' : list pyval),
    (coerce_arguments d f args
       (strip_auth_token QUERY_PARAM_ATTRIBUTE_NAME req kwargs) w0).2
    = Ok l →
    call_arguments d req l = Ok args' →
    ∃ w', callfunction QUERY_PARAM_ATTRIBUTE_NAME d f req args kwargs w
          = (w', Ok (json_encode PNone)) ∧
          status (pecan_response w') = c ∧
          invocations w' = invocations w.
Proof.
  intros Hc Hin. pose proof (noop_status_Some d c Hc Hin) as Hnoop. split.
  - destruct (callfunction QUERY_PARAM_ATTRIBUTE_NAME d f req args kwargs w)
      as [w' r] eqn:Hcall.
    apply callfunction_invocations in Hcall as [Hsame|[Hnone _]]; [done|].
    congruence.
  - intros w0 l args' Hco Hargs.
    destruct (callfunction_coerced _ d f req args kwargs w w0 l Hco)
      as [logs Hrun].
    rewrite callfunction_run.
    rewrite (guarded_block_prepared _ _ _ _ _ _ _ _ _ _ _ Hrun Hargs).
    rewrite Hnoop. eexists. split; [reflexivity|]. done.
Qed.

(** An HTTP exception of the controller whose body is empty or a dict is
    answered with its own status code, with that body extended by
    [faultstring], and with its headers when it has any. *)
Lemma http_exception_passes_through (d : jsexpose_args)
    (f : controller_function) (req : request) (args : list pyval)
    (kwargs : gmap string pyval) (w w0 : world) (l : locals)
    (args' : list pyval) (resp : response) (u : bool) (m : pyval) (code : Z)
    (body hdrs : pyval) (bd : gmap string pyval) :
  (coerce_arguments d f args
     (strip_auth_token QUERY_PARAM_ATTRIBUTE_NAME req kwargs) w0).2
  = Ok l →
  call_arguments d req l = Ok args' →
  noop_status d = None →
  f_call f args' (l_kwargs l) (pecan_response w)
  = (resp, Raise (HTTPExc u m code body hdrs)) →
  error_body body = PDict bd →
  ∃ w', callfunction QUERY_PARAM_ATTRIBUTE_NAME d f req args kwargs w
        = (w', Ok (json_encode (PDict (<["faultstring" := m]> bd)))) ∧
        status (pecan_response w') = code ∧
        headers (pecan_response w')
        = (if truthy hdrs then hdrs else headers resp).
Proof.
  intros Hco Hargs Hnoop Hf Hbody.
  destruct (callfunction_coerced _ d f req args kwargs w w0 l Hco)
    as [logs Hrun].
  rewrite callfunction_run.
  rewrite (guarded_block_prepared _ _ _ _ _ _ _ _ _ _ _ Hrun Hargs).
  rewrite Hnoop.
  rewrite (call_and_respond_http _ _ _ _ _ _ (emit (_ :: logs) w) resp u m
             code body hdrs Hf).
  rewrite _handle_error_run, Hbody. eexists. split; [reflexivity|]. done.
Qed.

(** With any other body the assertion of [_handle_error] fails inside the
    handler, and the outer handler answers with status 500 and the (empty)
    message of the [AssertionError]. *)
Lemma http_exception_body_not_dict (d : jsexpose_args)
    (f : controller_function) (req : request) (args : list pyval)
    (kwargs : gmap string pyval) (w w0 : world) (l : locals)
    (args' : list pyval) (resp : response) (u : bool) (m : pyval) (code : Z)
    (body hdrs : pyval) :
  (coerce_arguments d f args
     (strip_auth_token QUERY_PARAM_ATTRIBUTE_NAME req kwargs) w0).2
  = Ok l →
  call_arguments d req l = Ok args' →
  noop_status d = None →
  f_call f args' (l_kwargs l) (pecan_response w)
  = (resp, Raise (HTTPExc u m code body hdrs)) →
  (∀ bd, error_body body ≠ PDict bd) →
  ∃ w', callfunction QUERY_PARAM_ATTRIBUTE_NAME d f req args kwargs w
        = (w', Ok (json_encode (PDict {[ "faultstring" := PStr "" ]}))) ∧
        status (pecan_response w') = INTERNAL_SERVER_ERROR.
Proof.
  intros Hco Hargs Hnoop Hf Hbody.
  destruct (callfunction_coerced _ d f req args kwargs w w0 l Hco)
    as [logs Hrun].
  rewrite callfunction_run.
  rewrite (guarded_block_prepared _ _ _ _ _ _ _ _ _ _ _ Hrun Hargs).
  rewrite Hnoop.
  rewrite (call_and_respond_http _ _ _ _ _ _ (emit (_ :: logs) w) resp u m
             code body hdrs Hf).
  rewrite _handle_error_run.
  destruct (error_body body) eqn:Hb;
    try (eexists; split; [reflexivity|done]).
  by destruct (Hbody d0).
Qed.

End responses.

Lemma noop_status_code_skips_controller_witness :
  invocations
    (callfunction Samples.QUERY_PARAM_ATTRIBUTE_NAME
       Samples.jsexpose_not_implemented Samples.get_one Samples.plain_request
       [Samples.rules_controller; PStr "1"] ∅ Samples.initial_world).1
  = invocations Samples.initial_world ∧
  ∀ (w0 : world) (l : locals) (args' : list pyval),
    (coerce_arguments Samples.jsexpose_not_implemented Samples.get_one
       [Samples.rules_controller; PStr "1"]
       (strip_auth_token Samples.QUERY_PARAM_ATTRIBUTE_NAME
          Samples.plain_request ∅) w0).2 = Ok l →
    call_arguments Samples.jsexpose_not_implemented Samples.plain_request l
    = Ok args' →
    ∃ w',
      callfunction Samples.QUERY_PARAM_ATTRIBUTE_NAME
        Samples.jsexpose_not_implemented Samples.get_one Samples.plain_request
        [Samples.rules_controller; PStr "1"] ∅ Samples.initial_world
      = (w', Ok (json_encode PNone)) ∧
      status (pecan_response w') = NOT_IMPLEMENTED ∧
      invocations w' = invocations Samples.initial_world.
Proof.
  apply (noop_status_code_skips_controller Samples.QUERY_PARAM_ATTRIBUTE_NAME
           Samples.jsexpose_not_implemented Samples.get_one
           Samples.plain_request [Samples.rules_controller; PStr "1"] ∅
           Samples.initial_world NOT_IMPLEMENTED).
  - reflexivity.
  - apply list_elem_of_here.
Defined.

(** The sample call above does end with 501 and the encoded [None]. *)
Example not_implemented_call :
  callfunction Samples.QUERY_PARAM_ATTRIBUTE_NAME
    Samples.jsexpose_not_implemented Samples.get_one Samples.plain_request
    [Samples.rules_controller; PStr "1"] ∅ Samples.initial_world
  = ({| pecan_response := {| status := 501; headers := PDict ∅ |};
        LOG := [LOG_info_request (request_info_of Samples.plain_request) ∅];
        invocations := [] |},
     Ok (json_encode PNone)).
Proof. vm_compute. reflexivity. Qed.

(** C8, counterexample: the decorator has [status_code=403] and a body
    class, and the request body fails validation. The 400 branch returns
    before the no-op codes are looked at: the status is 400, not 403, and
    the reply is an error body, not the encoding of [None]. *)
Lemma noop_status_code_counterexample :
  status_code Samples.jsexpose_body_forbidden = Some FORBIDDEN ∧
  FORBIDDEN ∈ noop_codes ∧
  callfunction Samples.QUERY_PARAM_ATTRIBUTE_NAME
    Samples.jsexpose_body_forbidden Samples.post Samples.bad_post
    [Samples.rules_controller] ∅ Samples.initial_world
  = ({| pecan_response := {| status := 400; headers := PDict ∅ |};
        LOG := [LOG_info_request (request_info_of Samples.bad_post) ∅];
        invocations := [] |},
     Ok (json_encode
           (PDict {[ "faultstring" := PStr "'name' is a required property" ]}))).
Proof.
  split; [reflexivity|]. split.
  - apply list_elem_of_further, list_elem_of_further, list_elem_of_here.
  - vm_compute. reflexivity.
Qed.

(** An exception of the controller that is not an HTTP exception: 500. *)
Example controller_exception_call :
  callfunction Samples.QUERY_PARAM_ATTRIBUTE_NAME Samples.jsexpose_default
    Samples.get_one_failing Samples.plain_request
    [Samples.rules_controller; PStr "x"] ∅ Samples.initial_world
  = ({| pecan_response := {| status := 500; headers := PDict ∅ |};
        LOG := [LOG_info_request (request_info_of Samples.plain_request) ∅;
                LOG_exception_failed
                  (PyExc (OtherException "ValueError") (PStr "bad id"))];
        invocations := [{| inv_args := [Samples.rules_controller; PStr "x"];
                           inv_kwargs := ∅ |}] |},
     Ok (json_encode (PDict {[ "faultstring" := PStr "bad id" ]}))).
Proof. vm_compute. reflexivity. Qed.

(** An HTTP exception with an empty body keeps its status and headers. *)
Example not_found_empty_body_call :
  callfunction Samples.QUERY_PARAM_ATTRIBUTE_NAME Samples.jsexpose_default
    Samples.get_one_not_found_empty_body Samples.plain_request
    [Samples.rules_controller; PStr "x"] ∅ Samples.initial_world
  = ({| pecan_response := {| status := 404;
                             headers := Samples.not_found_headers |};
        LOG := [LOG_info_request (request_info_of Samples.plain_request) ∅;
                LOG_exception_failed Samples.not_found_empty_body];
        invocations := [{| inv_args := [Samples.rules_controller; PStr "x"];
                           inv_kwargs := ∅ |}] |},
     Ok (json_encode (PDict {[ "faultstring" := PStr "Rule not found" ]}))).
Proof. vm_compute. reflexivity. Qed.

(** C4, at the failing input: the controller raises a 404 whose response
    body is a non-empty string. [_handle_error] sets status 404 and the
    headers, then its assertion fails on the string; the [AssertionError] is
    caught by the outer handler, which replaces the status by 500 and answers
    with the empty message of the [AssertionError]. *)
Theorem http_exception_with_body_becomes_500 :
  callfunction Samples.QUERY_PARAM_ATTRIBUTE_NAME Samples.jsexpose_default
    Samples.get_one_not_found_with_body Samples.plain_request
    [Samples.rules_controller; PStr "x"] ∅ Samples.initial_world
  = ({| pecan_response := {| status := 500;
                             headers := Samples.not_found_headers |};
        LOG := [LOG_info_request (request_info_of Samples.plain_request) ∅;
                LOG_exception_failed Samples.not_found_with_body;
                LOG_exception_failed (PyExc AssertionError (PStr ""))];
        invocations := [{| inv_args := [Samples.rules_controller; PStr "x"];
                           inv_kwargs := ∅ |}] |},
     Ok (json_encode (PDict {[ "faultstring" := PStr "" ]}))).
Proof. vm_compute. reflexivity. Qed.

(** ** Argument coercion *)

Section coercion.

Context (fname name : string) (more : list pyval) (kwargs : gmap string pyval).

(** A positional argument with a type: the converted value joins [more]. *)
Lemma coerce_step_positional (a : pyval) (args : list pyval)
    (t : pyval → result pyval) (types : list (pyval → result pyval))
    (v : pyval) (w : world) :
  t a = Ok v →
  coerce_step fname name
    {| l_args := a :: args; l_types := t :: types; l_more := more;
       l_kwargs := kwargs |} w
  = (w, Ok {| l_args := args; l_types := types; l_more := more ++ [v];
              l_kwargs := kwargs |}).
Proof. intros Ht. unfold coerce_step. simpl. by rewrite Ht. Qed.

(** No positional argument left, a type left and the keyword present: the
    keyword argument is replaced by its converted value. *)
Lemma coerce_step_keyword (t : pyval → result pyval)
    (types : list (pyval → result pyval)) (v v' : pyval) (w : world) :
  kwargs !! name = Some v →
  t v = Ok v' →
  coerce_step fname name
    {| l_args := []; l_types := t :: types; l_more := more;
       l_kwargs := kwargs |} w
  = (w, Ok {| l_args := []; l_types := types; l_more := more;
              l_kwargs := <[name := v']> kwargs |}).
Proof.
  intros Hk Ht. unfold coerce_step, coerce_keyword. simpl.
  by rewrite Hk, Ht.
Qed.

(** No positional argument left and the keyword absent: the type is used
    up and nothing else changes. *)
Lemma coerce_step_keyword_absent (t : pyval → result pyval)
    (types : list (pyval → result pyval)) (w : world) :
  kwargs !! name = None →
  coerce_step fname name
    {| l_args := []; l_types := t :: types; l_more := more;
       l_kwargs := kwargs |} w
  = (w, Ok {| l_args := []; l_types := types; l_more := more;
              l_kwargs := kwargs |}).
Proof.
  intros Hk. unfold coerce_step, coerce_keyword. simpl. by rewrite Hk.
Qed.

(** No positional argument and no type left: a warning, and the keyword
    arguments stay as they are. *)
Lemma coerce_step_keyword_no_type (w : world) :
  coerce_step fname name
    {| l_args := []; l_types := []; l_more := more; l_kwargs := kwargs |} w
  = (emit [LOG_warning_type_missing name fname] w,
     Ok {| l_args := []; l_types := []; l_more := more; l_kwargs := kwargs |}).
Proof. reflexivity. Qed.

(** A positional argument but no type left: the same warning, and the
    argument has been popped from [args] without reaching [more]. *)
Lemma coerce_step_positional_no_type (a : pyval) (args : list pyval)
    (w : world) :
  coerce_step fname name
    {| l_args := a :: args; l_types := []; l_more := more;
       l_kwargs := kwargs |} w
  = (emit [LOG_warning_type_missing name fname] w,
     Ok {| l_args := args; l_types := []; l_more := more; l_kwargs := kwargs |}).
Proof. reflexivity. Qed.

End coercion.

(** As long as positional arguments and types last, the arguments are
    converted by the types in order. *)
Lemma coerce_loop_positional (fname : string) (names : list string)
    (ts : list (pyval → result pyval)) (args vs : list pyval)
    (rest_args : list pyval) (rest_types : list (pyval → result pyval))
    (more : list pyval) (kwargs : gmap string pyval) (w : world) :
  length names = length vs →
  Forall3 (λ t a v, t a = Ok v) ts args vs →
  coerce_loop fname names
    {| l_args := args ++ rest_args; l_types := ts ++ rest_types;
       l_more := more; l_kwargs := kwargs |} w
  = (w, Ok {| l_args := rest_args; l_types := rest_types;
              l_more := more ++ vs; l_kwargs := kwargs |}).
Proof.
  intros Hlen Hconv. revert names more Hlen.
  induction Hconv as [|t a v ts args vs Ht _ IH]; intros names more Hlen.
  - destruct names; [|done]. simpl. by rewrite app_nil_r.
  - destruct names as [|name names]; [done|]. simpl.
    unfold bind. rewrite (coerce_step_positional _ _ _ _ _ _ _ _ v _ Ht).
    rewrite IH by (simpl in Hlen; lia).
    by rewrite <- app_assoc.
Qed.

(** C7, at the failing input: [arg_types=[bool]] decorates
    [get_one(self, id=None, verbose=None)] and the call passes both
    parameters positionally. The first is converted. For the second the argument is
    popped before [types.pop(0)] raises [IndexError]; the missing type is
    logged, and the argument is gone: the controller is invoked with the
    converted first argument only. *)
Theorem missing_type_drops_positional_argument :
  callfunction Samples.QUERY_PARAM_ATTRIBUTE_NAME Samples.jsexpose_one_type
    Samples.get_one Samples.plain_request
    [Samples.rules_controller; PStr "1"; PStr "yes"] ∅ Samples.initial_world
  = ({| pecan_response := {| status := 200; headers := PDict ∅ |};
        LOG := [LOG_info_request (request_info_of Samples.plain_request) ∅;
                LOG_warning_type_missing "verbose" "get_one";
                LOG_info_response (request_info_of Samples.plain_request) 200
                  (Some (PDict (<["args" := PList [Samples.rules_controller;
                                                   PBool true]]>
                                  {[ "kwargs" := PDict ∅ ]})))];
        invocations := [{| inv_args := [Samples.rules_controller; PBool true];
                           inv_kwargs := ∅ |}] |},
     Ok (json_encode (PDict (<["args" := PList [Samples.rules_controller;
                                                PBool true]]>
                               {[ "kwargs" := PDict ∅ ]})))).
Proof. vm_compute. reflexivity. Qed.

(** The same parameter passed by keyword is left in place, unconverted. *)
Example missing_type_keeps_keyword_argument :
  invocations
    (callfunction Samples.QUERY_PARAM_ATTRIBUTE_NAME Samples.jsexpose_one_type
       Samples.get_one Samples.plain_request
       [Samples.rules_controller; PStr "1"] {[ "verbose" := PStr "yes" ]}
       Samples.initial_world).1
  = [{| inv_args := [Samples.rules_controller; PBool true];
        inv_kwargs := {[ "verbose" := PStr "yes" ]} |}].
Proof. vm_compute. reflexivity. Qed.

(** ** Conversions from the document model *)

Lemma reads_only_ret {A} (a : A) : reads_only (ret a).
Proof. by intros σ. Qed.

Lemma reads_only_lift {A} (r : result A) : reads_only (lift r).
Proof. by intros σ. Qed.

Lemma reads_only_raise {A} (e : exn) : reads_only (@raise store A e).
Proof. by intros σ. Qed.

Lemma reads_only_bind {A B} (m : M store A) (k : A → M store B) :
  reads_only m → (∀ a, reads_only (k a)) → reads_only (bind m k).
Proof.
  intros Hm Hk σ. unfold bind. specialize (Hm σ).
  destruct (m σ) as [σ' [a|e]]; simpl in *; subst; [apply Hk|done].
Qed.

Lemma reads_only_to_mongo (model : nat) : reads_only (to_mongo model).
Proof. intros σ. unfold to_mongo. by destruct (σ !! model). Qed.

Create HintDb reads_only.

#[local] Hint Resolve reads_only_ret reads_only_lift reads_only_raise
  reads_only_to_mongo : reads_only.

Ltac reads_only_tac :=
  repeat first
    [ apply reads_only_bind; [|intros ?]
    | solve [auto with reads_only] ].

Section from_model_properties.

Context (VALIDATOR : pyval → gmap string pyval → option exn)
  (unescape_chars : gmap string pyval → gmap string pyval)
  (str : pyval → string)
  (isotime_format : pyval → result pyval)
  (imported : imported_schemas).

Lemma _from_model_reads_only (model : nat) :
  reads_only (_from_model unescape_chars str model).
Proof.
  unfold _from_model. apply reads_only_bind; [reads_only_tac|].
  intros son. destruct (unescape_chars son !! "_id"); reads_only_tac.
Qed.

(** What [_from_model] returns for a stored document. *)
Lemma _from_model_run (model : nat) (σ : store) (fields : gmap string pyval) :
  σ !! model = Some fields →
  _from_model unescape_chars str model σ
  = (σ, Ok match unescape_chars fields !! "_id" with
           | Some oid =>
               <["id" := PStr (str oid)]> (delete "_id" (unescape_chars fields))
           | None => unescape_chars fields
           end).
Proof.
  intros Hm. unfold _from_model, bind, to_mongo. rewrite Hm.
  by destruct (unescape_chars fields !! "_id").
Qed.

(** C6: the [from_model] conversions leave every document of the store,
    the converted one included, exactly as it was, whether they return or
    raise; and for a document whose mapping has an [_id], [_from_model]
    returns that mapping with [_id] removed and [id] bound to the string of
    its value, the other keys being untouched. *)
Theorem from_model_reads_the_model_only (cls : api_class) (model : nat)
    (σ : store) :
  (_from_model unescape_chars str model σ).1 = σ ∧
  (from_model VALIDATOR unescape_chars str cls model σ).1 = σ ∧
  (ActionExecutionAPI_from_model VALIDATOR unescape_chars str isotime_format
     imported model σ).1 = σ ∧
  ∀ fields oid,
    σ !! model = Some fields →
    unescape_chars fields !! "_id" = Some oid →
    ∃ doc, (_from_model unescape_chars str model σ).2 = Ok doc ∧
           doc !! "id" = Some (PStr (str oid)) ∧
           doc !! "_id" = None ∧
           ∀ key, key ≠ "id" → key ≠ "_id" →
                  doc !! key = unescape_chars fields !! key.
Proof.
  split; [|split; [|split]].
  - apply _from_model_reads_only.
  - unfold from_model.
    apply reads_only_bind; [apply _from_model_reads_only|].
    intros doc. reads_only_tac.
  - unfold ActionExecutionAPI_from_model.
    apply reads_only_bind; [apply _from_model_reads_only|]. intros doc.
    do 4 (apply reads_only_bind; [reads_only_tac|]; intros ?).
    apply reads_only_bind; [|intros ?; reads_only_tac].
    destruct (is_not_None _); reads_only_tac.
  - intros fields oid Hm Hid. rewrite (_from_model_run _ _ _ Hm), Hid.
    eexists. split; [reflexivity|]. split; [|split].
    + apply lookup_insert_eq.
    + rewrite lookup_insert_ne by done. apply lookup_delete_eq.
    + intros key Hk1 Hk2.
      rewrite lookup_insert_ne by done. by rewrite lookup_delete_ne.
Qed.

End from_model_properties.

(** On the sample record: the store is unchanged and [_id] became [id]. *)
Example _from_model_finished :
  _from_model Samples.nothing_to_unescape Samples.str_of_id 0%nat
    Samples.finished_store
  = (Samples.finished_store,
     Ok (<["id" := PStr "54c6bb640640fd5211edef0d"]>
           (<["action" := PDict {[ "name" := PStr "local" ]}]>
              (<["runner" := PDict {[ "name" := PStr "run-local" ]}]>
                 {[ "liveaction" := PDict Samples.finished_liveaction ]})))).
Proof. vm_compute. reflexivity. Qed.

(** ** [ActionExecutionAPI.to_model] *)

Lemma field_value_truthy (defaults : gmap string pyval) (attr : string)
    (value : pyval) :
  truthy value = true → field_value defaults attr value = value.
Proof. by destruct value. Qed.

Lemma model_setattr_run (defaults : gmap string pyval) (model : nat)
    (attr : string) (value : pyval) (σ : store) (fields : gmap string pyval) :
  σ !! model = Some fields →
  model_setattr defaults model attr value σ
  = (<[model := <[attr := field_value defaults attr value]> fields]> σ, Ok tt).
Proof.
  intros Hm. unfold model_setattr, modify. f_equal.
  apply map_eq. intros i. destruct (decide (i = model)) as [->|Hne].
  - by rewrite lookup_alter_eq, lookup_insert_eq, Hm.
  - by rewrite lookup_alter_ne, lookup_insert_ne.
Qed.

Lemma model_getattr_run (model : nat) (attr : string) (value : pyval)
    (σ : store) (fields : gmap string pyval) :
  σ !! model = Some fields →
  fields !! attr = Some value →
  model_getattr model attr σ = (σ, Ok value).
Proof.
  intros Hm Ha. unfold model_getattr. rewrite Hm. simpl. by rewrite Ha.
Qed.

Section to_model_properties.

Context (isotime_parse : pyval → result pyval)
  (imported : imported_schemas)
  (ActionExecutionDB_defaults : gmap string pyval)
  (ActionExecutionDB_required : string → option bool).

Lemma properties_liveaction :
  ActionExecutionAPI_properties imported !! "liveaction"
  = Some (PDict (<["required" := PBool true]> (LiveActionAPI_schema imported))).
Proof. reflexivity. Qed.

(** Every property of the schema is described by a dict. *)
Lemma properties_are_dicts (attr : string) (meta : pyval) :
  ActionExecutionAPI_properties imported !! attr = Some meta →
  ∃ d, meta = PDict d.
Proof.
  revert attr meta. apply map_Forall_lookup.
  unfold ActionExecutionAPI_properties. simpl.
  repeat (apply map_Forall_insert_2; [by eexists|]).
  apply map_Forall_empty.
Qed.

(** A step of the loop that returns keeps the new document in the store,
    and binds [attr] when the instance has a truthy value for it. *)
Lemma to_model_step_binds (cls : string) (attrs : gmap string pyval)
    (model : nat) (attr : string) (v : pyval) (item : string * pyval)
    (σ σ' : store) (fields : gmap string pyval) :
  attrs !! attr = Some v →
  truthy v = true →
  σ !! model = Some fields →
  to_model_step ActionExecutionDB_defaults ActionExecutionDB_required
    (PObject cls attrs) model item σ
  = (σ', Ok tt) →
  ∃ fields', σ' !! model = Some fields' ∧
             (item.1 = attr ∨ fields !! attr = Some v →
              fields' !! attr = Some v).
Proof.
  intros Hattr Hv Hm. destruct item as [a meta]. unfold to_model_step.
  unfold bind, lift. destruct (dict_get meta "default" PNone) as [dflt|e];
    [|done].
  set (value := getattr_default (PObject cls attrs) a dflt).
  assert (Hvalue : a = attr → value = v).
  { intros ->. unfold value. simpl. by rewrite Hattr. }
  assert (Hset : ∀ σ1,
    model_setattr ActionExecutionDB_defaults model a value σ = (σ1, Ok tt) →
    ∃ fields', σ1 !! model = Some fields' ∧
               ((a, meta).1 = attr ∨ fields !! attr = Some v →
                fields' !! attr = Some v)).
  { intros σ1. rewrite (model_setattr_run _ _ _ _ _ _ Hm). intros [= <-].
    eexists. split; [apply lookup_insert_eq|]. simpl.
    destruct (decide (a = attr)) as [Heq|Hne].
    - intros _. rewrite (Hvalue Heq), Heq, (field_value_truthy _ _ _ Hv).
      apply lookup_insert_eq.
    - intros [?|Hf]; [done|]. by rewrite lookup_insert_ne. }
  destruct (truthy value) eqn:Htruthy; [apply Hset|].
  destruct (ActionExecutionDB_required a) as [[|]|]; [apply Hset| |done].
  intros [= <-]. exists fields. split; [done|]. simpl.
  intros [Heq|Hf]; [|done].
  rewrite (Hvalue Heq) in Htruthy. congruence.
Qed.

Lemma to_model_loop_binds (cls : string) (attrs : gmap string pyval)
    (model : nat) (attr : string) (v : pyval) (items : list (string * pyval))
    (σ σ' : store) (fields : gmap string pyval) :
  attrs !! attr = Some v →
  truthy v = true →
  σ !! model = Some fields →
  to_model_loop ActionExecutionDB_defaults ActionExecutionDB_required
    (PObject cls attrs) model items σ
  = (σ', Ok tt) →
  ∃ fields', σ' !! model = Some fields' ∧
             (attr ∈ items.*1 ∨ fields !! attr = Some v →
              fields' !! attr = Some v).
Proof.
  intros Hattr Hv. revert σ fields.
  induction items as [|item items IH]; intros σ fields Hm; simpl.
  - intros [= <-]. exists fields. split; [done|].
    intros [?%elem_of_nil|?]; done.
  - unfold bind at 1.
    destruct (to_model_step _ _ _ _ item σ) as [σ1 [[]|e]] eqn:Hstep; [|done].
    destruct (to_model_step_binds _ _ _ _ _ _ _ _ _ Hattr Hv Hm Hstep)
      as (fields1 & Hm1 & Hbound).
    intros Hloop. destruct (IH _ _ Hm1 Hloop) as (fields' & Hm' & Hbound').
    exists fields'. split; [done|].
    intros [Hin|Hf].
    + apply elem_of_cons in Hin as [Heq|Hin]; [|by apply Hbound'; left].
      apply Hbound'. right. apply Hbound. by left.
    + apply Hbound'. right. apply Hbound. by right.
Qed.

(** The loop returns when every property is described by a dict and names
    a field of the document class. *)
Lemma to_model_loop_returns (instance : pyval) (model : nat)
    (items : list (string * pyval)) (σ : store) (fields : gmap string pyval) :
  σ !! model = Some fields →
  (∀ attr meta, (attr, meta) ∈ items →
     (∃ d, meta = PDict d) ∧ is_Some (ActionExecutionDB_required attr)) →
  ∃ σ', to_model_loop ActionExecutionDB_defaults ActionExecutionDB_required
        instance model items σ
        = (σ', Ok tt).
Proof.
  revert σ fields. induction items as [|[a meta] items IH];
    intros σ fields Hm Hitems; cbn [to_model_loop].
  - by eexists.
  - destruct (Hitems a meta) as [[d ->] [b Hreq]]; [apply list_elem_of_here|].
    assert (Hstep : ∃ σ1 fields1,
      to_model_step ActionExecutionDB_defaults ActionExecutionDB_required
        instance model (a, PDict d) σ
      = (σ1, Ok tt) ∧ σ1 !! model = Some fields1).
    { unfold to_model_step, bind, lift, dict_get.
      destruct (d !! "default") as [dflt|];
        (destruct (truthy (getattr_default instance a _));
         [rewrite (model_setattr_run _ _ _ _ _ _ Hm);
          eexists _, _; split; [done|apply lookup_insert_eq]|];
         rewrite Hreq; destruct b;
         [rewrite (model_setattr_run _ _ _ _ _ _ Hm);
          eexists _, _; split; [done|apply lookup_insert_eq]
         |by eexists _, _]). }
    destruct Hstep as (σ1 & fields1 & Hstep & Hm1).
    destruct (IH σ1 fields1 Hm1) as [σ' Hloop].
    { intros attr meta Hin. apply Hitems. by apply list_elem_of_further. }
    exists σ'. unfold bind. by rewrite Hstep.
Qed.

(** [model.liveaction[key] = isotime.parse(model.liveaction[key])] on a
    document whose [liveaction] is the dict [lv]. *)
Lemma parse_timestamp_run (model : nat) (key : string) (σ : store)
    (fields lv : gmap string pyval) :
  σ !! model = Some fields →
  fields !! "liveaction" = Some (PDict lv) →
  parse_timestamp isotime_parse ActionExecutionDB_defaults model key σ
  = match lv !! key with
    | None => (σ, Raise (PyExc KeyError (PStr key)))
    | Some ts =>
        match isotime_parse ts with
        | Ok parsed =>
            (<[model := <["liveaction" := PDict (<[key := parsed]> lv)]> fields]> σ,
             Ok tt)
        | Raise e => (σ, Raise e)
        end
    end.
Proof.
  intros Hm Hlv. unfold parse_timestamp. unfold bind at 1.
  rewrite (model_getattr_run _ _ _ _ _ Hm Hlv). unfold bind at 1, lift.
  simpl. destruct (lv !! key) as [ts|]; [|done].
  unfold bind at 1. destruct (isotime_parse ts) as [parsed|e]; [|done].
  unfold bind at 1. rewrite (model_getattr_run _ _ _ _ _ Hm Hlv).
  unfold bind. simpl. by rewrite (model_setattr_run _ _ _ _ _ _ Hm).
Qed.

(** An API object whose [liveaction] has no [end_timestamp] cannot be
    converted: [to_model] raises, at the latest with the [KeyError] of
    [model.liveaction['end_timestamp']]. *)
Lemma to_model_without_end_timestamp (cls : string)
    (attrs lv : gmap string pyval) (σ : store) :
  attrs !! "liveaction" = Some (PDict lv) →
  truthy (PDict lv) = true →
  lv !! "end_timestamp" = None →
  ∃ σ' e,
    ActionExecutionAPI_to_model isotime_parse imported
      ActionExecutionDB_defaults ActionExecutionDB_required
      (PObject cls attrs) σ
    = (σ', Raise e).
Proof.
  intros Hattr Htruthy Hend. unfold ActionExecutionAPI_to_model.
  unfold bind at 1. unfold model_new. set (model := fresh (dom σ)).
  assert (Hm0 : <[model := ActionExecutionDB_defaults]> σ !! model
                = Some ActionExecutionDB_defaults) by apply lookup_insert_eq.
  unfold bind at 1.
  destruct (to_model_loop _ _ _ model _ _) as [σ1 [[]|e]] eqn:Hloop;
    [|by eexists _, _].
  destruct (to_model_loop_binds _ _ _ _ _ _ _ _ _ Hattr Htruthy Hm0 Hloop)
    as (fields1 & Hm1 & Hbound).
  assert (Hlv1 : fields1 !! "liveaction" = Some (PDict lv)).
  { apply Hbound. left. apply list_elem_of_fmap.
    eexists (_, _). split; [done|].
    apply elem_of_map_to_list, properties_liveaction. }
  unfold bind at 1. rewrite (parse_timestamp_run _ _ _ _ _ Hm1 Hlv1).
  destruct (lv !! "start_timestamp") as [ts|]; [|by eexists _, _].
  destruct (isotime_parse ts) as [parsed|e]; [|by eexists _, _].
  unfold bind at 1.
  erewrite parse_timestamp_run;
    [|apply lookup_insert_eq|apply lookup_insert_eq].
  rewrite lookup_insert_ne by done. rewrite Hend. by eexists _, _.
Qed.

End to_model_properties.

(** ** From the document to the API object and back *)

Lemma truthy_insert (key : string) (v : pyval) (d : gmap string pyval) :
  truthy (PDict (<[key := v]> d)) = true.
Proof.
  simpl. apply negb_true_iff, bool_decide_eq_false_2.
  rewrite dom_insert_L. intros Hempty.
  apply (not_elem_of_empty (C := gset string) key). rewrite <- Hempty.
  apply elem_of_union_l, elem_of_singleton_2. done.
Qed.

Section round_trip.

Context (VALIDATOR : pyval → gmap string pyval → option exn)
  (unescape_chars : gmap string pyval → gmap string pyval)
  (str : pyval → string)
  (isotime_format isotime_parse : pyval → result pyval)
  (imported : imported_schemas)
  (ActionExecutionDB_defaults : gmap string pyval)
  (ActionExecutionDB_required : string → option bool).

(** The attributes [from_model] passes to the constructor when the
    formatted [liveaction] is [lv']. *)
Lemma api_attrs_liveaction (doc lv' : gmap string pyval) (key : string)
    (v : pyval) :
  filter (λ kv : string * pyval, truthy kv.2 = true)
    (<["liveaction" := PDict (<[key := v]> lv')]> doc) !! "liveaction"
  = Some (PDict (<[key := v]> lv')).
Proof.
  apply map_lookup_filter_Some. split; [apply lookup_insert_eq|].
  apply truthy_insert.
Qed.

(** [from_model] on a record that is still running: only
    [start_timestamp] is formatted. *)
Lemma from_model_running (model : nat) (σ : store)
    (doc lv : gmap string pyval) (start formatted : pyval) :
  _from_model unescape_chars str model σ = (σ, Ok doc) →
  doc !! "liveaction" = Some (PDict lv) →
  lv !! "start_timestamp" = Some start →
  isotime_format start = Ok formatted →
  lv !! "end_timestamp" = None →
  ActionExecutionAPI_from_model VALIDATOR unescape_chars str isotime_format
    imported model σ
  = (σ, BaseAPI_new VALIDATOR (ActionExecutionAPI imported)
          (filter (λ kv : string * pyval, truthy kv.2 = true)
             (<["liveaction" :=
                  PDict (<["start_timestamp" := formatted]> lv)]> doc))).
Proof.
  intros Hdoc Hlv Hstart Hfmt Hend. unfold ActionExecutionAPI_from_model.
  unfold bind at 1. rewrite Hdoc. unfold bind, lift. simpl.
  rewrite Hlv. simpl. rewrite Hstart, Hfmt, Hend. reflexivity.
Qed.

(** [from_model] on a finished record: both timestamps are formatted. *)
Lemma from_model_finished (model : nat) (σ : store)
    (doc lv : gmap string pyval) (start finish formatted_start
       formatted_finish : pyval) :
  _from_model unescape_chars str model σ = (σ, Ok doc) →
  doc !! "liveaction" = Some (PDict lv) →
  lv !! "start_timestamp" = Some start →
  isotime_format start = Ok formatted_start →
  lv !! "end_timestamp" = Some finish →
  is_not_None finish = true →
  isotime_format finish = Ok formatted_finish →
  ActionExecutionAPI_from_model VALIDATOR unescape_chars str isotime_format
    imported model σ
  = (σ, BaseAPI_new VALIDATOR (ActionExecutionAPI imported)
          (filter (λ kv : string * pyval, truthy kv.2 = true)
             (<["liveaction" :=
                  PDict (<["start_timestamp" := formatted_start]>
                           (<["end_timestamp" := formatted_finish]> lv))]> doc))).
Proof.
  intros Hdoc Hlv Hstart Hfmt Hend Hnone Hfmt2.
  unfold ActionExecutionAPI_from_model.
  unfold bind at 1. rewrite Hdoc. unfold bind, lift. simpl.
  rewrite Hlv. simpl. rewrite Hstart, Hfmt, Hend, Hnone, Hfmt2. reflexivity.
Qed.

(** A record without [end_timestamp] converts to an API object, and that
    object does not convert back: [to_model] raises. *)
Lemma round_trip_fails_for_running_execution (model : nat) (σ : store)
    (doc lv : gmap string pyval) (start formatted : pyval) :
  _from_model unescape_chars str model σ = (σ, Ok doc) →
  doc !! "liveaction" = Some (PDict lv) →
  lv !! "start_timestamp" = Some start →
  isotime_format start = Ok formatted →
  lv !! "end_timestamp" = None →
  VALIDATOR (ActionExecutionAPI_schema imported)
    (filter (λ kv : string * pyval, truthy kv.2 = true)
       (<["liveaction" := PDict (<["start_timestamp" := formatted]> lv)]> doc))
  = None →
  ∃ instance,
    ActionExecutionAPI_from_model VALIDATOR unescape_chars str isotime_format
      imported model σ = (σ, Ok instance) ∧
    ∃ σ' e,
      ActionExecutionAPI_to_model isotime_parse imported
        ActionExecutionDB_defaults ActionExecutionDB_required instance σ
      = (σ', Raise e).
Proof.
  intros Hdoc Hlv Hstart Hfmt Hend Hvalid.
  rewrite (from_model_running _ _ _ _ _ _ Hdoc Hlv Hstart Hfmt Hend).
  rewrite BaseAPI_new_spec. simpl. rewrite Hvalid.
  eexists. split; [reflexivity|].
  eapply to_model_without_end_timestamp.
  - apply api_attrs_liveaction.
  - apply truthy_insert.
  - by rewrite lookup_insert_ne.
Qed.

(** A finished record converts to an API object and back to a new document
    whose [liveaction] is the original one, both timestamps included,
    provided [isotime.parse] inverts [isotime.format] on the two timestamps,
    the API object passes validation and every property names a field of the
    document class. *)
Lemma round_trip_restores_finished_execution (model : nat) (σ : store)
    (doc lv : gmap string pyval) (start finish formatted_start
       formatted_finish : pyval) :
  _from_model unescape_chars str model σ = (σ, Ok doc) →
  doc !! "liveaction" = Some (PDict lv) →
  lv !! "start_timestamp" = Some start →
  isotime_format start = Ok formatted_start →
  isotime_parse formatted_start = Ok start →
  lv !! "end_timestamp" = Some finish →
  is_not_None finish = true →
  isotime_format finish = Ok formatted_finish →
  isotime_parse formatted_finish = Ok finish →
  VALIDATOR (ActionExecutionAPI_schema imported)
    (filter (λ kv : string * pyval, truthy kv.2 = true)
       (<["liveaction" :=
            PDict (<["start_timestamp" := formatted_start]>
                     (<["end_timestamp" := formatted_finish]> lv))]> doc))
  = None →
  (∀ attr, is_Some (ActionExecutionDB_required attr)) →
  ∃ instance σ' model',
    ActionExecutionAPI_from_model VALIDATOR unescape_chars str isotime_format
      imported model σ = (σ, Ok instance) ∧
    ActionExecutionAPI_to_model isotime_parse imported
      ActionExecutionDB_defaults ActionExecutionDB_required instance σ
    = (σ', Ok model') ∧
    σ !! model' = None ∧
    σ' !! model' ≫= (.!! "liveaction") = Some (PDict lv).
Proof.
  intros Hdoc Hlv Hstart Hfmt Hparse Hend Hnone Hfmt2 Hparse2 Hvalid Hreq.
  rewrite (from_model_finished _ _ _ _ _ _ _ _ Hdoc Hlv Hstart Hfmt Hend
             Hnone Hfmt2).
  rewrite BaseAPI_new_spec. simpl. rewrite Hvalid.
  set (instance := PObject "ActionExecutionAPI" _).
  set (model' := fresh (dom σ)).
  assert (Hm0 : <[model' := ActionExecutionDB_defaults]> σ !! model'
                = Some ActionExecutionDB_defaults) by apply lookup_insert_eq.
  edestruct (to_model_loop_returns ActionExecutionDB_defaults
               ActionExecutionDB_required instance)
    as [σ1 Hloop]; [exact Hm0| |].
  { intros attr meta Hin%elem_of_map_to_list. split; [|apply Hreq].
    by eapply properties_are_dicts. }
  edestruct (to_model_loop_binds ActionExecutionDB_defaults
               ActionExecutionDB_required)
    as (fields1 & Hm1 & Hbound);
    [apply api_attrs_liveaction|apply truthy_insert|exact Hm0|exact Hloop|].
  assert (Hlv1 := Hbound
    (or_introl (proj2 (list_elem_of_fmap fst _ "liveaction")
       (ex_intro _ ("liveaction", _)
          (conj eq_refl
             (proj2 (elem_of_map_to_list _ _ _)
                (properties_liveaction imported))))))).
  clear Hbound.
  eexists instance, _, model'. split; [reflexivity|].
  unfold ActionExecutionAPI_to_model.
  unfold bind at 1. unfold model_new. fold model'.
  unfold bind at 1. rewrite Hloop.
  unfold bind at 1. rewrite (parse_timestamp_run _ _ _ _ _ _ _ Hm1 Hlv1).
  rewrite lookup_insert_eq, Hparse.
  unfold bind at 1.
  erewrite parse_timestamp_run;
    [|apply lookup_insert_eq|apply lookup_insert_eq].
  rewrite lookup_insert_ne by done. rewrite lookup_insert_ne by done.
  rewrite lookup_insert_eq, Hparse2.
  unfold bind, ret. split; [reflexivity|]. split.
  - apply (not_elem_of_dom (D := gset nat)). apply is_fresh.
  - rewrite lookup_insert_eq. simpl. rewrite lookup_insert_eq.
    f_equal. f_equal. apply map_eq. intros key.
    destruct (decide (key = "end_timestamp")) as [->|Hk1].
    { by rewrite lookup_insert_eq. }
    rewrite lookup_insert_ne by done.
    destruct (decide (key = "start_timestamp")) as [->|Hk2].
    { by rewrite lookup_insert_eq. }
    rewrite !lookup_insert_ne by done. done.
Qed.

End round_trip.

(** C3, at the failing input: the record of an execution that is still
    running has a [start_timestamp] and no [end_timestamp]. [from_model]
    accepts it and formats the start; [to_model] on the resulting API object
    stops with the [KeyError] of [model.liveaction['end_timestamp']], so no
    document comes back and no timestamp is restored. *)
Theorem running_execution_does_not_round_trip :
  ∃ attrs,
    ActionExecutionAPI_from_model Samples.accept_all
      Samples.nothing_to_unescape Samples.str_of_id Samples.sample_format
      Samples.no_imported_schemas 0%nat Samples.running_store
    = (Samples.running_store, Ok (PObject "ActionExecutionAPI" attrs)) ∧
    attrs !! "liveaction"
    = Some (PDict (<["start_timestamp" := PStr "2015-01-01T00:00:00.000000Z"]>
                     {[ "status" := PStr "running" ]})) ∧
    ∃ σ',
      ActionExecutionAPI_to_model Samples.sample_parse
        Samples.no_imported_schemas Samples.sample_defaults
        Samples.sample_required (PObject "ActionExecutionAPI" attrs)
        Samples.running_store
      = (σ', Raise (PyExc KeyError (PStr "end_timestamp"))).
Proof.
  eexists. split; [vm_compute; reflexivity|].
  split; [vm_compute; reflexivity|].
  eexists. vm_compute. reflexivity.
Qed.

(** The finished sample record does come back with both timestamps. *)
Example finished_execution_round_trips :
  ∃ instance σ' model',
    ActionExecutionAPI_from_model Samples.accept_all
      Samples.nothing_to_unescape Samples.str_of_id Samples.sample_format
      Samples.no_imported_schemas 0%nat Samples.finished_store
    = (Samples.finished_store, Ok instance) ∧
    ActionExecutionAPI_to_model Samples.sample_parse
      Samples.no_imported_schemas Samples.sample_defaults
      Samples.sample_required instance Samples.finished_store
    = (σ', Ok model') ∧
    Samples.finished_store !! model' = None ∧
    σ' !! model' ≫= (.!! "liveaction")
    = Some (PDict Samples.finished_liveaction).
Proof.
  eapply (round_trip_restores_finished_execution Samples.accept_all
            Samples.nothing_to_unescape Samples.str_of_id
            Samples.sample_format Samples.sample_parse
            Samples.no_imported_schemas Samples.sample_defaults
            Samples.sample_required 0%nat Samples.finished_store
            _ Samples.finished_liveaction
            (PDatetime 1420070400) (PDatetime 1420070460)).
  - vm_compute. reflexivity.
  - vm_compute. reflexivity.
  - reflexivity.
  - reflexivity.
  - reflexivity.
  - reflexivity.
  - reflexivity.
  - reflexivity.
  - reflexivity.
  - reflexivity.
  - intros attr. by eexists.
Qed.

(** ** The statements above on the sample inputs *)


Lemma from_model_reads_the_model_only_witness :
  (from_model Samples.accept_all Samples.nothing_to_unescape
     Samples.str_of_id Samples.RuleLikeAPI 0%nat Samples.finished_store).1
  = Samples.finished_store ∧
  (ActionExecutionAPI_from_model Samples.accept_all
     Samples.nothing_to_unescape Samples.str_of_id Samples.sample_format
     Samples.no_imported_schemas 0%nat Samples.finished_store).1
  = Samples.finished_store ∧
  ∃ doc,
    (_from_model Samples.nothing_to_unescape Samples.str_of_id 0%nat
       Samples.finished_store).2 = Ok doc ∧
    doc !! "id" = Some (PStr "54c6bb640640fd5211edef0d") ∧
    doc !! "_id" = None ∧
    ∀ key, key ≠ "id" → key ≠ "_id" →
      doc !! key
      = Samples.execution_fields Samples.finished_liveaction !! key.
Proof.
  destruct (from_model_reads_the_model_only Samples.accept_all
              Samples.nothing_to_unescape Samples.str_of_id
              Samples.sample_format Samples.no_imported_schemas
              Samples.RuleLikeAPI 0%nat Samples.finished_store)
    as (_ & Hbase & Hexecution & Hid).
  split; [exact Hbase|]. split; [exact Hexecution|].
  apply (Hid (Samples.execution_fields Samples.finished_liveaction)
             (PStr "54c6bb640640fd5211edef0d")).
  - reflexivity.
  - reflexivity.
Defined.

(** ** The wrapper when [str] and [json_encode] raise *)

(** With a [str] and a [json_encode] that always return, the wrapper of
    [Raising] is [callfunction]. *)
Lemma Raising_callfunction_always_returns (QUERY_PARAM_ATTRIBUTE_NAME : string)
    (d : jsexpose_args) (f : controller_function) (req : request)
    (args : list pyval) (kwargs : gmap string pyval) (w : world) :
  Raising.callfunction always_returns always_returns
    QUERY_PARAM_ATTRIBUTE_NAME d f req args kwargs w
  = callfunction QUERY_PARAM_ATTRIBUTE_NAME d f req args kwargs w.
Proof. reflexivity. Qed.

(** [_handle_error]: the status and the headers are set before the
    assertion and the encoding, which may both raise. *)
Lemma Raising_handle_error_run (json_raises : pyval → option exn) (e : exn)
    (code : Z) (body hdrs : pyval) (w : world) :
  Raising._handle_error json_raises e code body hdrs w
  = (with_response code hdrs w,
     match error_body body with
     | PDict bd =>
         match json_raises (PDict (<["faultstring" := message e]> bd)) with
         | Some e' => Raise e'
         | None => Ok (json_encode (PDict (<["faultstring" := message e]> bd)))
         end
     | _ => Raise (PyExc AssertionError (PStr ""))
     end).
Proof.
  unfold Raising._handle_error, Raising.encode, with_response, error_body.
  run_monad.
  destruct (truthy hdrs); simpl;
    destruct (if truthy body then body else PDict ∅); try reflexivity;
    destruct (json_raises _); reflexivity.
Qed.

(** The handlers of the inner [try] on an HTTP exception. *)
Lemma Raising_handle_http_exception_run (str_raises : exn → option exn)
    (json_raises : pyval → option exn) (u : bool) (m : pyval) (code : Z)
    (body hdrs : pyval) (w : world) :
  Raising.handle_http_exception str_raises json_raises
    (HTTPExc u m code body hdrs) w
  = match str_raises (HTTPExc u m code body hdrs) with
    | Some e' => (w, Raise e')
    | None =>
        Raising._handle_error json_raises (HTTPExc u m code body hdrs)
          code body hdrs
          (emit [if u then LOG_debug_failed (HTTPExc u m code body hdrs)
                 else LOG_exception_failed (HTTPExc u m code body hdrs)] w)
    end.
Proof.
  unfold Raising.handle_http_exception, Raising.failure_message.
  destruct (str_raises _); reflexivity.
Qed.

(** The inner [try], spelled out. *)
Lemma Raising_call_and_respond_run (str_raises : exn → option exn)
    (json_raises : pyval → option exn) (d : jsexpose_args)
    (f : controller_function) (info : request_info) (controller : pyval)
    (args : list pyval) (kwargs : gmap string pyval) (w : world) :
  Raising.call_and_respond str_raises json_raises d f info controller args
    kwargs w
  = match f_call f args kwargs (pecan_response w) with
    | (resp, Ok result) =>
        let w1 := returned d f info controller args kwargs resp result w in
        if String.eqb (content_type d) "application/json"
        then match json_raises result with
             | Some e => inner_except str_raises json_raises e w1
             | None => (w1, Ok (json_encode result))
             end
        else (w1, Ok (raw result))
    | (resp, Raise e) =>
        inner_except str_raises json_raises e (failed args kwargs resp w)
    end.
Proof.
  unfold Raising.call_and_respond, inner_except, returned, failed,
    reported_status, log_result, Raising.encode.
  run_monad.
  destruct (f_call f args kwargs (pecan_response w)) as [resp [result|e]];
    [|reflexivity].
  simpl. destruct resp as [st hd]. simpl.
  destruct (status_code d) as [c|]; [destruct (c =? 0)|];
    destruct (String.eqb (content_type d) "application/json");
    try reflexivity; simpl; destruct (json_raises result); reflexivity.
Qed.

Section Raising_properties.

Context (str_raises : exn → option exn) (json_raises : pyval → option exn)
  (QUERY_PARAM_ATTRIBUTE_NAME : string).

Lemma Raising_dispatch_run (d : jsexpose_args) (f : controller_function)
    (info : request_info) (controller : pyval) (more : list pyval)
    (l : locals) (w : world) :
  Raising.dispatch str_raises json_raises d f info controller more l w
  = match noop_status d with
    | Some c =>
        (with_response c PNone w,
         match json_raises PNone with
         | Some e' => Raise e'
         | None => Ok (json_encode PNone)
         end)
    | None =>
        Raising.call_and_respond str_raises json_raises d f info controller
          (more ++ l_args l) (l_kwargs l) w
    end.
Proof.
  unfold Raising.dispatch. destruct (noop_status d) as [c|]; [|done].
  unfold Raising.encode, with_response. run_monad.
  destruct (json_raises PNone); reflexivity.
Qed.

(** The guarded block once the coercion has returned the locals [l]. *)
Lemma Raising_guarded_block_coerced (d : jsexpose_args)
    (f : controller_function) (req : request) (info : request_info)
    (controller : pyval) (args : list pyval) (kwargs : gmap string pyval)
    (w w1 : world) (l : locals) :
  coerce_arguments d f args kwargs w = (w1, Ok l) →
  Raising.guarded_block str_raises json_raises d f req info controller args
    kwargs w
  = match body_cls d with
    | None =>
        Raising.dispatch str_raises json_raises d f info controller
          (l_more l) l w1
    | Some cls =>
        match request_data req with
        | Ok data =>
            match construct cls data with
            | Ok obj =>
                Raising.dispatch str_raises json_raises d f info controller
                  (l_more l ++ [obj]) l w1
            | Raise e =>
                if is_ValidationError e
                then (with_response BAD_REQUEST PNone w1,
                      match json_raises
                              (PDict {[ "faultstring" := message e ]}) with
                      | Some e' => Raise e'
                      | None =>
                          Ok (json_encode
                                (PDict {[ "faultstring" := message e ]}))
                      end)
                else (w1, Raise e)
            end
        | Raise e => (w1, Raise e)
        end
    end.
Proof.
  intros Hco. unfold Raising.guarded_block. unfold bind at 1. rewrite Hco.
  destruct (body_cls d) as [cls|]; [|done].
  unfold bind, lift. destruct (request_data req) as [data|e]; [|done].
  destruct (construct cls data) as [obj|e]; [done|].
  destruct (is_ValidationError e); [|done].
  by rewrite Raising_handle_error_run.
Qed.

(** The guarded block once the arguments of the call are ready. *)
Lemma Raising_guarded_block_prepared (d : jsexpose_args)
    (f : controller_function) (req : request) (info : request_info)
    (controller : pyval) (args : list pyval) (kwargs : gmap string pyval)
    (w w1 : world) (l : locals) (args' : list pyval) :
  coerce_arguments d f args kwargs w = (w1, Ok l) →
  call_arguments d req l = Ok args' →
  Raising.guarded_block str_raises json_raises d f req info controller args
    kwargs w
  = match noop_status d with
    | Some c =>
        (with_response c PNone w1,
         match json_raises PNone with
         | Some e' => Raise e'
         | None => Ok (json_encode PNone)
         end)
    | None =>
        Raising.call_and_respond str_raises json_raises d f info controller
          args' (l_kwargs l) w1
    end.
Proof.
  intros Hco Hargs. rewrite (Raising_guarded_block_coerced _ _ _ _ _ _ _ _ _ _ Hco).
  unfold call_arguments in Hargs.
  destruct (body_cls d) as [cls|].
  - destruct (request_data req) as [data|e]; [|done].
    destruct (construct cls data) as [obj|e]; [|done].
    injection Hargs as <-. apply Raising_dispatch_run.
  - injection Hargs as <-. apply Raising_dispatch_run.
Qed.

(** The outer [try], spelled out: an [Exception] that leaves the guarded
    block is rendered, logged and answered by [_handle_error] with status
    500, and what [str] or [json_encode] raise on the way leaves the
    wrapper. *)
Lemma Raising_callfunction_run (d : jsexpose_args) (f : controller_function)
    (req : request) (args : list pyval) (kwargs : gmap string pyval) (w : world) :
  Raising.callfunction str_raises json_raises QUERY_PARAM_ATTRIBUTE_NAME d f
    req args kwargs w
  = match Raising.guarded_block str_raises json_raises d f req
            (request_info_of req) (controller_of args) args
            (strip_auth_token QUERY_PARAM_ATTRIBUTE_NAME req kwargs)
            (emit [LOG_info_request (request_info_of req) kwargs] w) with
    | (w1, Ok r) => (w1, Ok r)
    | (w1, Raise e) =>
        if is_Exception e
        then match str_raises e with
             | Some e' => (w1, Raise e')
             | None =>
                 (with_response INTERNAL_SERVER_ERROR PNone
                    (emit [LOG_exception_failed e] w1),
                  match json_raises
                          (PDict {[ "faultstring" := message e ]}) with
                  | Some e' => Raise e'
                  | None =>
                      Ok (json_encode (PDict {[ "faultstring" := message e ]}))
                  end)
             end
        else (w1, Raise e)
    end.
Proof.
  unfold Raising.callfunction. unfold bind at 1. unfold log_emit at 1, modify.
  change {| pecan_response := pecan_response w;
            LOG := LOG w ++ [LOG_info_request (request_info_of req) kwargs];
            invocations := invocations w |}
    with (emit [LOG_info_request (request_info_of req) kwargs] w).
  unfold try_except.
  destruct (Raising.guarded_block _ _ _ _ _ _ _ _ _ _) as [w1 [r|e]]; [done|].
  destruct (is_Exception e); [|done].
  unfold Raising.failure_message. unfold bind at 1.
  destruct (str_raises e); [done|]. unfold ret.
  unfold bind, log_emit, modify.
  apply Raising_handle_error_run.
Qed.

Section one_call.

Context (d : jsexpose_args) (f : controller_function) (req : request)
  (args : list pyval) (kwargs : gmap string pyval) (w : world).

Local Abbreviation raised :=
  (raised_during_handling str_raises json_raises QUERY_PARAM_ATTRIBUTE_NAME
     d f req args kwargs w).
Local Abbreviation raised_in_the_call :=
  (raised_in_call json_raises QUERY_PARAM_ATTRIBUTE_NAME d f req args kwargs w).
Local Abbreviation the_guarded_block :=
  (Raising.guarded_block str_raises json_raises d f req
     (request_info_of req) (controller_of args) args
     (strip_auth_token QUERY_PARAM_ATTRIBUTE_NAME req kwargs)
     (emit [LOG_info_request (request_info_of req) kwargs] w)).

(** An exception raised in the inner [try] meets the handlers of that
    [try]. *)
Lemma raised_in_call_run (e : exn) :
  raised_in_the_call e →
  ∃ w1, the_guarded_block = inner_except str_raises json_raises e w1.
Proof.
  intros [l args' resp e0 [w0 Hco] Hargs Hnoop Hf
         |l args' resp result e0 [w0 Hco] Hargs Hnoop Hf Hjson Hraises];
    destruct (callfunction_coerced QUERY_PARAM_ATTRIBUTE_NAME d f req args
                kwargs w w0 l Hco) as [logs Hrun];
    rewrite (Raising_guarded_block_prepared _ _ _ _ _ _ _ _ _ _ _ Hrun Hargs),
      Hnoop, Raising_call_and_respond_run;
    change (pecan_response (emit _ w)) with (pecan_response w);
    rewrite Hf.
  - by eexists.
  - simpl. rewrite Hjson. simpl. rewrite Hraises. by eexists.
Qed.

(** Every exception of the list leaves the guarded block. *)
Lemma raised_leaves_the_guarded_block (e : exn) :
  raised e → ∃ w1, the_guarded_block = (w1, Raise e).
Proof.
  intros [w0 e0 Hco
         |l cls e0 [w0 Hco] Hcls Hdata
         |l cls data e0 [w0 Hco] Hcls Hdata Hcons Hval
         |l cls data ev e0 [w0 Hco] Hcls Hdata Hcons Hval Hraises
         |l args' c e0 [w0 Hco] Hargs Hnoop Hraises
         |e0 Hcall Hhttp
         |e0 e1 Hcall Hhttp Hstr
         |u m code body hdrs Hcall Hstr Hbody
         |u m code body hdrs bd e1 Hcall Hstr Hbody Hraises].
  - apply coerce_arguments_run in Hco as [logs Hco].
    unfold Raising.guarded_block. unfold bind at 1. rewrite Hco.
    by eexists.
  - destruct (callfunction_coerced QUERY_PARAM_ATTRIBUTE_NAME d f req args
                kwargs w w0 l Hco) as [logs Hrun].
    rewrite (Raising_guarded_block_coerced _ _ _ _ _ _ _ _ _ _ Hrun).
    rewrite Hcls, Hdata. by eexists.
  - destruct (callfunction_coerced QUERY_PARAM_ATTRIBUTE_NAME d f req args
                kwargs w w0 l Hco) as [logs Hrun].
    rewrite (Raising_guarded_block_coerced _ _ _ _ _ _ _ _ _ _ Hrun).
    rewrite Hcls, Hdata, Hcons, Hval. by eexists.
  - destruct (callfunction_coerced QUERY_PARAM_ATTRIBUTE_NAME d f req args
                kwargs w w0 l Hco) as [logs Hrun].
    rewrite (Raising_guarded_block_coerced _ _ _ _ _ _ _ _ _ _ Hrun).
    rewrite Hcls, Hdata, Hcons, Hval, Hraises. by eexists.
  - destruct (callfunction_coerced QUERY_PARAM_ATTRIBUTE_NAME d f req args
                kwargs w w0 l Hco) as [logs Hrun].
    rewrite (Raising_guarded_block_prepared _ _ _ _ _ _ _ _ _ _ _ Hrun Hargs).
    rewrite Hnoop, Hraises. by eexists.
  - destruct (raised_in_call_run e0 Hcall) as [w1 ->].
    unfold inner_except. rewrite Hhttp. by eexists.
  - destruct (raised_in_call_run e0 Hcall) as [w1 ->].
    unfold inner_except. rewrite Hhttp.
    destruct e0 as [cls m|u m code body hdrs]; [done|].
    rewrite Raising_handle_http_exception_run, Hstr. by eexists.
  - destruct (raised_in_call_run _ Hcall) as [w1 ->].
    unfold inner_except. cbn [is_HTTPException].
    rewrite Raising_handle_http_exception_run, Hstr.
    rewrite Raising_handle_error_run.
    destruct (error_body body) eqn:Hb; try by eexists.
    by destruct (Hbody d0).
  - destruct (raised_in_call_run _ Hcall) as [w1 ->].
    unfold inner_except. cbn [is_HTTPException].
    rewrite Raising_handle_http_exception_run, Hstr.
    rewrite Raising_handle_error_run, Hbody. simpl. rewrite Hraises.
    by eexists.
Qed.

(** What the handlers of the inner [try] raise is on the list. *)
Lemma inner_except_raises (e0 e : exn) (w0 w1 : world) :
  raised_in_the_call e0 →
  inner_except str_raises json_raises e0 w0 = (w1, Raise e) →
  raised e.
Proof.
  intros Hcall. unfold inner_except.
  destruct (is_HTTPException e0) eqn:Hhttp.
  2:{ intros [= _ <-]. by apply raised_by_call. }
  destruct e0 as [cls m|u m code body hdrs]; [done|].
  rewrite Raising_handle_http_exception_run.
  destruct (str_raises _) as [e'|] eqn:Hstr.
  { intros [= _ <-]. by eapply raised_by_str_in_handler. }
  rewrite Raising_handle_error_run.
  destruct (error_body body) as [| | | | | |bd|] eqn:Hb;
    try (intros [= _ <-]; eapply raised_by_assertion; [done..|];
         intros bd; rewrite Hb; discriminate).
  simpl. destruct (json_raises _) as [e'|] eqn:Hraises; [|done].
  intros [= _ <-]. by eapply raised_by_encoding_in_handler.
Qed.

(** Conversely, an exception that leaves the guarded block is on the list:
    the list leaves out no statement of the block. *)
Lemma guarded_block_raises_what_was_raised (w1 : world) (e : exn) :
  the_guarded_block = (w1, Raise e) → raised e.
Proof.
  destruct (coerce_arguments_log_only d f args
              (strip_auth_token QUERY_PARAM_ATTRIBUTE_NAME req kwargs))
    as (logs & rl & Hco).
  destruct rl as [l|e0].
  2:{ unfold Raising.guarded_block. unfold bind at 1. rewrite Hco.
      intros [= _ <-]. apply (raised_by_coercion _ _ _ _ _ _ _ _ _ w).
      by rewrite Hco. }
  assert (Hl : coerced QUERY_PARAM_ATTRIBUTE_NAME d f req args kwargs l).
  { exists w. by rewrite Hco. }
  rewrite (Raising_guarded_block_coerced _ _ _ _ _ _ _ _ _ _ (Hco _)).
  assert (Hdisp : ∀ more,
    call_arguments d req l = Ok (more ++ l_args l) →
    Raising.dispatch str_raises json_raises d f (request_info_of req)
      (controller_of args) more l
      (emit logs (emit [LOG_info_request (request_info_of req) kwargs] w))
    = (w1, Raise e) →
    raised e).
  { intros more Hargs. rewrite Raising_dispatch_run.
    destruct (noop_status d) as [c|] eqn:Hnoop.
    { destruct (json_raises PNone) as [e'|] eqn:Hraises; [|done].
      intros [= _ <-]. by eapply raised_by_encoding_None. }
    rewrite Raising_call_and_respond_run.
    change (pecan_response (emit _ (emit _ w))) with (pecan_response w).
    destruct (f_call f (more ++ l_args l) (l_kwargs l) (pecan_response w))
      as [resp [result|e0]] eqn:Hf.
    - simpl.
      destruct (String.eqb (content_type d) "application/json") eqn:Hjson;
        [|done].
      apply String.eqb_eq in Hjson.
      destruct (json_raises result) as [e0|] eqn:Hraises; [|done].
      apply inner_except_raises.
      by eapply raised_by_encoding_the_result.
    - apply inner_except_raises. by eapply raised_by_controller. }
  unfold call_arguments in Hdisp.
  destruct (body_cls d) as [cls|] eqn:Hcls; [|by apply Hdisp].
  destruct (request_data req) as [data|e0] eqn:Hdata.
  2:{ intros [= _ <-]. by eapply raised_by_request_json. }
  destruct (construct cls data) as [obj|e0] eqn:Hcons; [by apply Hdisp|].
  destruct (is_ValidationError e0) eqn:Hval.
  - destruct (json_raises _) as [e'|] eqn:Hraises; [|done].
    intros [= _ <-]. by eapply raised_by_encoding_the_validation_error.
  - intros [= _ <-]. by eapply raised_by_body_cls.
Qed.

(** What the wrapper propagates: an exception of the list that is not an
    instance of [Exception], or what [str] or [json_encode] raised in the
    outer handler on one that is. *)
Lemma callfunction_propagates (w' : world) (e' : exn) :
  Raising.callfunction str_raises json_raises QUERY_PARAM_ATTRIBUTE_NAME d f
    req args kwargs w = (w', Raise e') →
  ∃ e, raised e ∧
       (is_Exception e = false ∧ e' = e ∨
        is_Exception e = true ∧
        (str_raises e = Some e' ∨
         str_raises e = None ∧
         json_raises (PDict {[ "faultstring" := message e ]}) = Some e')).
Proof.
  rewrite Raising_callfunction_run.
  destruct the_guarded_block as [w1 [r|e]] eqn:Hg; [done|].
  apply guarded_block_raises_what_was_raised in Hg.
  destruct (is_Exception e) eqn:He.
  - destruct (str_raises e) as [e1|] eqn:Hstr.
    + intros [= _ <-]. exists e. split; [done|]. right. split; [done|]. by left.
    + destruct (json_raises _) as [e1|] eqn:Hraises; [|done].
      intros [= _ <-]. exists e. split; [done|]. right. split; [done|].
      by right.
  - intros [= _ <-]. exists e. split; [done|]. by left.
Qed.

(** C1, as amended: take any exception raised while the request is
    handled and not caught before the outer handler: by the coercion of the
    arguments, by reading the request body, by the body class (other than
    its [ValidationError], which is answered with 400), by the controller
    (other than an HTTP exception, which has handlers of its own), by
    [json_encode] (of the result, of [None] for a no-op status code, or of
    the 400 body), or by one of the handlers of the inner [try]. If it is
    an instance of [Exception], and the outer handler can render it with
    [str] and encode its message, the wrapper logs it with [LOG.exception]
    and returns the encoded [{'faultstring': e.message}] with the response
    status set to 500: the exception does not propagate. *)
Theorem uncaught_exception_is_internal_server_error (e : exn) :
  raised e →
  is_Exception e = true →
  str_raises e = None →
  json_raises (PDict {[ "faultstring" := message e ]}) = None →
  ∃ w',
    Raising.callfunction str_raises json_raises QUERY_PARAM_ATTRIBUTE_NAME d f
      req args kwargs w
    = (w', Ok (json_encode (PDict {[ "faultstring" := message e ]}))) ∧
    status (pecan_response w') = INTERNAL_SERVER_ERROR ∧
    last (LOG w') = Some (LOG_exception_failed e).
Proof.
  intros Hraised He Hstr Hjson.
  destruct (raised_leaves_the_guarded_block e Hraised) as [w1 Hg].
  rewrite Raising_callfunction_run, Hg, He, Hstr, Hjson.
  eexists. split; [reflexivity|]. split; [reflexivity|].
  simpl. apply last_snoc.
Qed.

End one_call.

End Raising_properties.

Lemma uncaught_exception_is_internal_server_error_witness :
  ∃ w',
    Raising.callfunction Samples.ascii_str Samples.no_objects
      Samples.QUERY_PARAM_ATTRIBUTE_NAME Samples.jsexpose_default
      Samples.get_one_failing Samples.plain_request
      [Samples.rules_controller; PStr "x"] ∅ Samples.initial_world
    = (w', Ok (json_encode
                 (PDict {[ "faultstring" :=
                             message (PyExc (OtherException "ValueError")
                                        (PStr "bad id")) ]}))) ∧
    status (pecan_response w') = INTERNAL_SERVER_ERROR ∧
    last (LOG w')
    = Some (LOG_exception_failed
              (PyExc (OtherException "ValueError") (PStr "bad id"))).
Proof.
  apply (uncaught_exception_is_internal_server_error
           Samples.ascii_str Samples.no_objects
           Samples.QUERY_PARAM_ATTRIBUTE_NAME Samples.jsexpose_default
           Samples.get_one_failing Samples.plain_request
           [Samples.rules_controller; PStr "x"] ∅ Samples.initial_world).
  - apply raised_by_call; [|reflexivity].
    apply (raised_by_controller _ _ _ _ _ _ _ _
             {| l_args := [PStr "x"]; l_types := [];
                l_more := [Samples.rules_controller]; l_kwargs := ∅ |}
             [Samples.rules_controller; PStr "x"]
             (pecan_response Samples.initial_world)).
    + exists Samples.initial_world. reflexivity.
    + reflexivity.
    + reflexivity.
    + reflexivity.
  - reflexivity.
  - reflexivity.
  - vm_compute. reflexivity.
Defined.

(** C1, counterexample. Building the body class raises a
    [ValidationError], which is not an HTTP exception: the wrapper answers
    with status 400, not 500. And a controller that is interrupted raises
    [KeyboardInterrupt], which is not an HTTP exception either and not an
    instance of [Exception]: it propagates. *)
Lemma validation_error_is_not_500_counterexample :
  (construct Samples.RuleLikeAPI_cls (PDict Samples.bad_kw)
   = Raise (PyExc ValidationError (PStr "'name' is a required property")) ∧
   is_HTTPException
     (PyExc ValidationError (PStr "'name' is a required property")) = false ∧
   Raising.callfunction Samples.ascii_str Samples.no_objects
     Samples.QUERY_PARAM_ATTRIBUTE_NAME Samples.jsexpose_body
     Samples.post Samples.bad_post [Samples.rules_controller] ∅
     Samples.initial_world
   = ({| pecan_response := {| status := 400; headers := PDict ∅ |};
         LOG := [LOG_info_request (request_info_of Samples.bad_post) ∅];
         invocations := [] |},
      Ok (json_encode
            (PDict {[ "faultstring" := PStr "'name' is a required property" ]}))))
  ∧
  (is_HTTPException (PyExc (NonException "KeyboardInterrupt") (PStr "")) = false ∧
   Raising.callfunction Samples.ascii_str Samples.no_objects
     Samples.QUERY_PARAM_ATTRIBUTE_NAME Samples.jsexpose_default
     Samples.get_one_interrupted Samples.plain_request
     [Samples.rules_controller; PStr "x"] ∅ Samples.initial_world
   = ({| pecan_response := {| status := 200; headers := PDict ∅ |};
         LOG := [LOG_info_request (request_info_of Samples.plain_request) ∅];
         invocations := [{| inv_args := [Samples.rules_controller; PStr "x"];
                            inv_kwargs := ∅ |}] |},
      Raise (PyExc (NonException "KeyboardInterrupt") (PStr "")))).
Proof.
  split.
  - split; [reflexivity|]. split; [reflexivity|]. vm_compute. reflexivity.
  - split; [reflexivity|]. vm_compute. reflexivity.
Qed.

(** An argument type that rejects its argument: 500, and the controller is
    not invoked. *)
Example rejected_argument_call :
  Raising.callfunction Samples.ascii_str Samples.no_objects
    Samples.QUERY_PARAM_ATTRIBUTE_NAME Samples.jsexpose_int
    Samples.get_one_failing Samples.plain_request
    [Samples.rules_controller; PStr "abc"] ∅ Samples.initial_world
  = ({| pecan_response := {| status := 500; headers := PDict ∅ |};
        LOG := [LOG_info_request (request_info_of Samples.plain_request) ∅;
                LOG_exception_failed
                  (PyExc (OtherException "ValueError")
                     (PStr "invalid literal for int() with base 10"))];
        invocations := [] |},
     Ok (json_encode
           (PDict {[ "faultstring" :=
                       PStr "invalid literal for int() with base 10" ]}))).
Proof. vm_compute. reflexivity. Qed.

(** A result that [json_encode] cannot serialise: the [TypeError] is raised
    inside the inner [try], after the response was logged, and is answered
    with 500. *)
Example unserialisable_result_call :
  Raising.callfunction Samples.ascii_str Samples.no_objects
    Samples.QUERY_PARAM_ATTRIBUTE_NAME Samples.jsexpose_default
    Samples.get_one_object Samples.plain_request
    [Samples.rules_controller; PStr "1"] ∅ Samples.initial_world
  = ({| pecan_response := {| status := 500; headers := PDict ∅ |};
        LOG := [LOG_info_request (request_info_of Samples.plain_request) ∅;
                LOG_info_response (request_info_of Samples.plain_request) 200
                  (Some (PObject "RuleDB" ∅));
                LOG_exception_failed
                  (PyExc TypeError (PStr "is not JSON serializable"))];
        invocations := [{| inv_args := [Samples.rules_controller; PStr "1"];
                           inv_kwargs := ∅ |}] |},
     Ok (json_encode
           (PDict {[ "faultstring" := PStr "is not JSON serializable" ]}))).
Proof. vm_compute. reflexivity. Qed.

(** An exception whose message [str] cannot render: the outer handler
    raises while it builds the log message, before the status is set, and
    the [UnicodeEncodeError] leaves the wrapper. *)
Example unprintable_exception_call :
  Raising.callfunction Samples.ascii_str Samples.no_objects
    Samples.QUERY_PARAM_ATTRIBUTE_NAME Samples.jsexpose_default
    Samples.get_one_failing_unicode Samples.plain_request
    [Samples.rules_controller; PStr "1"] ∅ Samples.initial_world
  = ({| pecan_response := {| status := 200; headers := PDict ∅ |};
        LOG := [LOG_info_request (request_info_of Samples.plain_request) ∅];
        invocations := [{| inv_args := [Samples.rules_controller; PStr "1"];
                           inv_kwargs := ∅ |}] |},
     Raise (PyExc (OtherException "UnicodeEncodeError")
              (PStr "'ascii' codec can't encode character"))).
Proof. vm_compute. reflexivity. Qed.

(** ** Further properties of the wrapper

    They are stated on the wrapper of [Raising], for every [str] and
    [json_encode]. *)

(** The loop over a list of names that is split in two. *)
Lemma coerce_loop_app (fname : string) (names1 names2 : list string)
    (l : locals) (w : world) :
  coerce_loop fname (names1 ++ names2) l w
  = (let! l1 := coerce_loop fname names1 l in coerce_loop fname names2 l1)%py w.
Proof.
  revert l w. induction names1 as [|n ns IH]; intros l w; simpl.
  - reflexivity.
  - unfold bind.
    destruct (coerce_step fname n l w) as [w1 [l1|e1]]; [|done].
    rewrite IH. reflexivity.
Qed.

Section Raising_invocations.

Context (str_raises : exn → option exn) (json_raises : pyval → option exn)
  (QUERY_PARAM_ATTRIBUTE_NAME : string).

(** The handlers of the inner [try] leave the record of invocations as it
    is, and only add to the log. *)
Lemma inner_except_invocations (e : exn) (w w' : world) (r : result reply) :
  inner_except str_raises json_raises e w = (w', r) →
  invocations w' = invocations w ∧ ∃ rest, LOG w' = LOG w ++ rest.
Proof.
  unfold inner_except. destruct (is_HTTPException e).
  2:{ intros [= <- _]. split; [done|]. exists []. by rewrite app_nil_r. }
  destruct e as [cls m|u m code body hdrs].
  { intros [= <- _]. split; [done|]. exists []. by rewrite app_nil_r. }
  rewrite Raising_handle_http_exception_run.
  destruct (str_raises _).
  { intros [= <- _]. split; [done|]. exists []. by rewrite app_nil_r. }
  rewrite Raising_handle_error_run. intros [= <- _]. split; [done|].
  by eexists.
Qed.

(** The inner [try]: the controller is invoked exactly once, with the given
    arguments. *)
Lemma Raising_call_and_respond_invocations (d : jsexpose_args)
    (f : controller_function) (info : request_info) (controller : pyval)
    (args : list pyval) (kwargs : gmap string pyval) (w w' : world)
    (r : result reply) :
  Raising.call_and_respond str_raises json_raises d f info controller args
    kwargs w = (w', r) →
  invocations w'
  = invocations w ++ [{| inv_args := args; inv_kwargs := kwargs |}] ∧
  ∃ rest, LOG w' = LOG w ++ rest.
Proof.
  rewrite Raising_call_and_respond_run.
  destruct (f_call f args kwargs (pecan_response w)) as [resp [result|e]].
  - simpl. destruct (String.eqb (content_type d) "application/json");
      [destruct (json_raises result)|].
    + intros [Hinv [rest Hlog]]%inner_except_invocations.
      split; [by rewrite Hinv|]. rewrite Hlog. simpl.
      rewrite <- app_assoc. by eexists.
    + intros [= <- _]. split; [done|]. by eexists.
    + intros [= <- _]. split; [done|]. by eexists.
  - intros [Hinv [rest Hlog]]%inner_except_invocations.
    split; [by rewrite Hinv|]. rewrite Hlog. by eexists.
Qed.

(** The guarded block invokes the controller at most once, and then with
    keyword arguments that have the keys it was given; and it only adds to
    the log. *)
Lemma Raising_guarded_block_invocations (d : jsexpose_args)
    (f : controller_function) (req : request) (info : request_info)
    (controller : pyval) (args : list pyval) (kwargs : gmap string pyval)
    (w w' : world) (r : result reply) :
  Raising.guarded_block str_raises json_raises d f req info controller args
    kwargs w = (w', r) →
  (invocations w' = invocations w ∨
   (noop_status d = None ∧
    ∃ args' kwargs',
      invocations w'
      = invocations w ++ [{| inv_args := args'; inv_kwargs := kwargs' |}] ∧
      dom kwargs' = dom kwargs)) ∧
  ∃ rest, LOG w' = LOG w ++ rest.
Proof.
  destruct (coerce_arguments_log_only d f args kwargs) as (logs & rl & Hco).
  destruct rl as [l|e].
  2:{ unfold Raising.guarded_block. unfold bind at 1. rewrite Hco.
      intros [= <- _]. split; [by left|]. by eexists. }
  assert (Hdom : dom (l_kwargs l) = dom kwargs).
  { eapply (coerce_arguments_dom d f args kwargs l w). apply Hco. }
  rewrite (Raising_guarded_block_coerced _ _ _ _ _ _ _ _ _ _ _ _ (Hco w)).
  assert (Hdisp : ∀ more,
    Raising.dispatch str_raises json_raises d f info controller more l
      (emit logs w) = (w', r) →
    (invocations w' = invocations w ∨
     (noop_status d = None ∧
      ∃ args' kwargs',
        invocations w'
        = invocations w ++ [{| inv_args := args'; inv_kwargs := kwargs' |}] ∧
        dom kwargs' = dom kwargs)) ∧
    ∃ rest, LOG w' = LOG w ++ rest).
  { intros more. rewrite Raising_dispatch_run.
    destruct (noop_status d) as [c|].
    - intros [= <- _]. split; [by left|]. by eexists.
    - intros [Hinv [rest Hlog]]%Raising_call_and_respond_invocations.
      split.
      + right. split; [done|]. eexists _, _. split; [exact Hinv|done].
      + rewrite Hlog. simpl. rewrite <- app_assoc. by eexists. }
  destruct (body_cls d) as [cls|]; [|apply Hdisp].
  destruct (request_data req) as [data|e].
  2:{ intros [= <- _]. split; [by left|]. by eexists. }
  destruct (construct cls data) as [obj|e]; [apply Hdisp|].
  destruct (is_ValidationError e); intros [= <- _];
    (split; [by left|]; by eexists).
Qed.

(** The wrapper after its guarded block: the record of invocations and the
    headers are those that the block left, and the log only grew. *)
Lemma Raising_callfunction_after_guarded_block (d : jsexpose_args)
    (f : controller_function) (req : request) (args : list pyval)
    (kwargs : gmap string pyval) (w w1 : world) (rg : result reply) :
  Raising.guarded_block str_raises json_raises d f req (request_info_of req)
    (controller_of args) args
    (strip_auth_token QUERY_PARAM_ATTRIBUTE_NAME req kwargs)
    (emit [LOG_info_request (request_info_of req) kwargs] w) = (w1, rg) →
  ∃ w' r,
    Raising.callfunction str_raises json_raises QUERY_PARAM_ATTRIBUTE_NAME d f
      req args kwargs w = (w', r) ∧
    invocations w' = invocations w1 ∧
    headers (pecan_response w') = headers (pecan_response w1) ∧
    (∃ rest, LOG w' = LOG w1 ++ rest) ∧
    match rg with
    | Ok a => w' = w1 ∧ r = Ok a
    | Raise _ => True
    end.
Proof.
  intros Hg. rewrite Raising_callfunction_run, Hg. destruct rg as [a|e].
  - eexists _, _. split; [reflexivity|]. repeat split.
    exists []. by rewrite app_nil_r.
  - destruct (is_Exception e); [destruct (str_raises e)|];
      (eexists _, _; split; [reflexivity|]; repeat split;
       first [by eexists | exists []; by rewrite app_nil_r]).
Qed.

(** Once the arguments of the call are ready and the status code is not a
    no-op code, the controller is invoked with them, once. *)
Lemma Raising_callfunction_invokes (d : jsexpose_args)
    (f : controller_function) (req : request) (args : list pyval)
    (kwargs : gmap string pyval) (w : world) (l : locals)
    (args' : list pyval) :
  coerced QUERY_PARAM_ATTRIBUTE_NAME d f req args kwargs l →
  call_arguments d req l = Ok args' →
  noop_status d = None →
  invocations
    (Raising.callfunction str_raises json_raises QUERY_PARAM_ATTRIBUTE_NAME d
       f req args kwargs w).1
  = invocations w ++ [{| inv_args := args'; inv_kwargs := l_kwargs l |}].
Proof.
  intros [w0 Hco] Hargs Hnoop.
  destruct (callfunction_coerced _ d f req args kwargs w w0 l Hco)
    as [logs Hrun].
  pose proof (Raising_guarded_block_prepared str_raises json_raises d f req
                (request_info_of req) (controller_of args) _ _ _ _ _ _
                Hrun Hargs) as Hg.
  rewrite Hnoop in Hg.
  destruct (Raising.call_and_respond str_raises json_raises d f
              (request_info_of req) (controller_of args) args' (l_kwargs l) _)
    as [w1 rg] eqn:Hcall.
  apply Raising_call_and_respond_invocations in Hcall as [Hcall _].
  destruct (Raising_callfunction_after_guarded_block _ _ _ _ _ _ _ _ Hg)
    as (w' & r & -> & Hinv & _). simpl. by rewrite Hinv, Hcall.
Qed.

(** A call invokes the controller at most once, and then with keyword
    arguments that have exactly the keys left after the token was stripped:
    the coercion neither adds nor drops a keyword. *)
Theorem controller_is_invoked_at_most_once (d : jsexpose_args)
    (f : controller_function) (req : request) (args : list pyval)
    (kwargs : gmap string pyval) (w : world) :
  invocations
    (Raising.callfunction str_raises json_raises QUERY_PARAM_ATTRIBUTE_NAME d
       f req args kwargs w).1
  = invocations w ∨
  ∃ args' kwargs',
    invocations
      (Raising.callfunction str_raises json_raises QUERY_PARAM_ATTRIBUTE_NAME
         d f req args kwargs w).1
    = invocations w ++ [{| inv_args := args'; inv_kwargs := kwargs' |}] ∧
    dom kwargs'
    = dom (strip_auth_token QUERY_PARAM_ATTRIBUTE_NAME req kwargs).
Proof.
  destruct (Raising.guarded_block str_raises json_raises d f req
              (request_info_of req) (controller_of args) args
              (strip_auth_token QUERY_PARAM_ATTRIBUTE_NAME req kwargs)
              (emit [LOG_info_request (request_info_of req) kwargs] w))
    as [w1 rg] eqn:Hg.
  destruct (Raising_callfunction_after_guarded_block _ _ _ _ _ _ _ _ Hg)
    as (w' & r & -> & Hinv & _).
  apply Raising_guarded_block_invocations in Hg as [Hg _].
  simpl. rewrite Hinv. destruct Hg as [Hsame|(_ & Hone)].
  - by left.
  - by right.
Qed.

(** The log only grows, and the first record that a call adds is the
    request record with the keyword arguments as they arrived: an auth token
    passed as a keyword argument is written to the log before it is
    stripped. *)
Theorem request_is_logged_before_the_token_is_stripped (d : jsexpose_args)
    (f : controller_function) (req : request) (args : list pyval)
    (kwargs : gmap string pyval) (w : world) :
  ∃ rest,
    LOG (Raising.callfunction str_raises json_raises
           QUERY_PARAM_ATTRIBUTE_NAME d f req args kwargs w).1
    = LOG w ++ LOG_info_request (request_info_of req) kwargs :: rest.
Proof.
  destruct (Raising.guarded_block str_raises json_raises d f req
              (request_info_of req) (controller_of args) args
              (strip_auth_token QUERY_PARAM_ATTRIBUTE_NAME req kwargs)
              (emit [LOG_info_request (request_info_of req) kwargs] w))
    as [w1 rg] eqn:Hg.
  destruct (Raising_callfunction_after_guarded_block _ _ _ _ _ _ _ _ Hg)
    as (w' & r & -> & _ & _ & [rest2 Hlog2] & _).
  apply Raising_guarded_block_invocations in Hg as [_ [rest1 Hlog1]].
  exists (rest1 ++ rest2). simpl. rewrite Hlog2, Hlog1. simpl.
  by rewrite <- !app_assoc.
Qed.

(** Without [arg_types] and [body_cls], and with a status code that is not
    a no-op code, the controller is invoked once, with the positional
    arguments as they came and the keyword arguments left after the token
    was stripped. *)
Theorem callfunction_passes_arguments_through (d : jsexpose_args)
    (f : controller_function) (req : request) (self : pyval)
    (rest : list pyval) (kwargs : gmap string pyval) (w : world) :
  arg_types d = None ∨ arg_types d = Some [] →
  body_cls d = None →
  noop_status d = None →
  invocations
    (Raising.callfunction str_raises json_raises QUERY_PARAM_ATTRIBUTE_NAME d
       f req (self :: rest) kwargs w).1
  = invocations w ++
      [{| inv_args := self :: rest;
          inv_kwargs := strip_auth_token QUERY_PARAM_ATTRIBUTE_NAME req kwargs |}].
Proof.
  intros Htypes Hbody Hnoop.
  apply (Raising_callfunction_invokes d f req (self :: rest) kwargs w
           {| l_args := rest; l_types := []; l_more := [self];
              l_kwargs := strip_auth_token QUERY_PARAM_ATTRIBUTE_NAME req kwargs |}).
  - exists w. unfold coerce_arguments. by destruct Htypes as [-> | ->].
  - unfold call_arguments. by rewrite Hbody.
  - done.
Qed.

(** With [body_cls] and no [arg_types], the object built from the request
    body is passed right after the controller, before the other positional
    arguments. *)
Theorem callfunction_passes_body_after_self (d : jsexpose_args)
    (f : controller_function) (req : request) (self : pyval)
    (rest : list pyval) (kwargs : gmap string pyval) (w : world)
    (cls : gmap string pyval → result pyval) (data obj : pyval) :
  arg_types d = None ∨ arg_types d = Some [] →
  body_cls d = Some cls →
  request_data req = Ok data →
  construct cls data = Ok obj →
  noop_status d = None →
  invocations
    (Raising.callfunction str_raises json_raises QUERY_PARAM_ATTRIBUTE_NAME d
       f req (self :: rest) kwargs w).1
  = invocations w ++
      [{| inv_args := self :: obj :: rest;
          inv_kwargs := strip_auth_token QUERY_PARAM_ATTRIBUTE_NAME req kwargs |}].
Proof.
  intros Htypes Hbody Hdata Hcons Hnoop.
  apply (Raising_callfunction_invokes d f req (self :: rest) kwargs w
           {| l_args := rest; l_types := []; l_more := [self];
              l_kwargs := strip_auth_token QUERY_PARAM_ATTRIBUTE_NAME req kwargs |}).
  - exists w. unfold coerce_arguments. by destruct Htypes as [-> | ->].
  - unfold call_arguments. by rewrite Hbody, Hdata, Hcons.
  - done.
Qed.

(** When there are as many positional arguments after the controller as
    types and as parameters, and every type accepts its argument, the
    controller is invoked with the converted values, in order, and with the
    keyword arguments untouched. *)
Theorem positional_arguments_are_converted_in_order (d : jsexpose_args)
    (f : controller_function) (req : request) (self : pyval)
    (rest vs : list pyval) (kwargs : gmap string pyval) (w : world)
    (t : pyval → result pyval) (ts : list (pyval → result pyval)) :
  arg_types d = Some (t :: ts) →
  length (tail (f_argspec_args f)) = length vs →
  Forall3 (λ t a v, t a = Ok v) (t :: ts) rest vs →
  body_cls d = None →
  noop_status d = None →
  invocations
    (Raising.callfunction str_raises json_raises QUERY_PARAM_ATTRIBUTE_NAME d
       f req (self :: rest) kwargs w).1
  = invocations w ++
      [{| inv_args := self :: vs;
          inv_kwargs := strip_auth_token QUERY_PARAM_ATTRIBUTE_NAME req kwargs |}].
Proof.
  intros Htypes Hlen Hconv Hbody Hnoop.
  apply (Raising_callfunction_invokes d f req (self :: rest) kwargs w
           {| l_args := []; l_types := []; l_more := [self] ++ vs;
              l_kwargs := strip_auth_token QUERY_PARAM_ATTRIBUTE_NAME req kwargs |}).
  - exists w. unfold coerce_arguments. rewrite Htypes. simpl.
    pose proof (coerce_loop_positional (f_name f) (tail (f_argspec_args f))
                  (t :: ts) rest vs [] [] [self]
                  (strip_auth_token QUERY_PARAM_ATTRIBUTE_NAME req kwargs) w
                  Hlen Hconv) as Hloop.
    rewrite !app_nil_r in Hloop. simpl in Hloop. by rewrite Hloop.
  - unfold call_arguments. rewrite Hbody. simpl. by rewrite app_nil_r.
  - done.
Qed.

(** A [KeyError] or an [IndexError] raised by the type itself while it
    converts a keyword argument is caught by the handlers meant for a missing
    keyword or a missing type: the call goes on and the controller receives
    the keyword argument unconverted. *)
Theorem lookup_error_of_a_type_is_swallowed (d : jsexpose_args)
    (f : controller_function) (req : request) (self : pyval)
    (kwargs : gmap string pyval) (w : world) (t : pyval → result pyval)
    (s name : string) (v : pyval) (e : exn) :
  arg_types d = Some [t] →
  f_argspec_args f = [s; name] →
  body_cls d = None →
  noop_status d = None →
  strip_auth_token QUERY_PARAM_ATTRIBUTE_NAME req kwargs !! name = Some v →
  t v = Raise e →
  is_IndexError e = true ∨ is_KeyError e = true →
  invocations
    (Raising.callfunction str_raises json_raises QUERY_PARAM_ATTRIBUTE_NAME d
       f req [self] kwargs w).1
  = invocations w ++
      [{| inv_args := [self];
          inv_kwargs := strip_auth_token QUERY_PARAM_ATTRIBUTE_NAME req kwargs |}].
Proof.
  intros Htypes Hnames Hbody Hnoop Hv Ht He.
  apply (Raising_callfunction_invokes d f req [self] kwargs w
           {| l_args := []; l_types := []; l_more := [self];
              l_kwargs := strip_auth_token QUERY_PARAM_ATTRIBUTE_NAME req kwargs |}).
  - exists w. unfold coerce_arguments. rewrite Htypes, Hnames. simpl.
    unfold bind, coerce_step, coerce_keyword. simpl. rewrite Hv, Ht.
    destruct (is_IndexError e); [done|].
    destruct He as [? | ->]; done.
  - unfold call_arguments. by rewrite Hbody.
  - done.
Qed.

(** With an empty request body the JSON of the request is never read: two
    requests that differ only in what [pecan.request.json] would give are
    handled alike. *)
Theorem empty_body_never_reads_json (d : jsexpose_args)
    (f : controller_function) (req req' : request) (args : list pyval)
    (kwargs : gmap string pyval) (w : world) :
  truthy (req_body req) = false →
  req_params req' = req_params req →
  req_method req' = req_method req →
  req_path req' = req_path req →
  req_remote_addr req' = req_remote_addr req →
  req_body req' = req_body req →
  Raising.callfunction str_raises json_raises QUERY_PARAM_ATTRIBUTE_NAME d f
    req' args kwargs w
  = Raising.callfunction str_raises json_raises QUERY_PARAM_ATTRIBUTE_NAME d f
      req args kwargs w.
Proof.
  intros Hbody Hparams Hmethod Hpath Haddr Hbody'.
  destruct req as [params method path addr body json].
  destruct req' as [params' method' path' addr' body' json'].
  simpl in *. subst.
  unfold Raising.callfunction, Raising.guarded_block, request_data,
    request_info_of, strip_auth_token. simpl. by rewrite Hbody.
Qed.

End Raising_invocations.

Section Raising_responses.

Context (str_raises : exn → option exn) (json_raises : pyval → option exn)
  (QUERY_PARAM_ATTRIBUTE_NAME : string).

(** When the controller returns and its result can be encoded, the wrapper
    returns the result, encoded when the content type is
    [application/json] and as it is otherwise; the response has the status
    code of the decorator when one was given, else the status that the
    controller left, and the headers that the controller left. *)
Theorem controller_result_is_returned (d : jsexpose_args)
    (f : controller_function) (req : request) (args : list pyval)
    (kwargs : gmap string pyval) (w : world) (l : locals)
    (args' : list pyval) (resp : response) (result : pyval) :
  coerced QUERY_PARAM_ATTRIBUTE_NAME d f req args kwargs l →
  call_arguments d req l = Ok args' →
  noop_status d = None →
  f_call f args' (l_kwargs l) (pecan_response w) = (resp, Ok result) →
  (content_type d = "application/json" → json_raises result = None) →
  ∃ w',
    Raising.callfunction str_raises json_raises QUERY_PARAM_ATTRIBUTE_NAME d f
      req args kwargs w
    = (w', Ok (if String.eqb (content_type d) "application/json"
               then json_encode result else raw result)) ∧
    status (pecan_response w')
    = match status_code d with
      | Some c => if c =? 0 then status resp else c
      | None => status resp
      end ∧
    headers (pecan_response w') = headers resp.
Proof.
  intros [w0 Hco] Hargs Hnoop Hf Hjson.
  destruct (callfunction_coerced _ d f req args kwargs w w0 l Hco)
    as [logs Hrun].
  rewrite Raising_callfunction_run.
  rewrite (Raising_guarded_block_prepared _ _ _ _ _ _ _ _ _ _ _ _ _ Hrun Hargs),
    Hnoop.
  rewrite Raising_call_and_respond_run.
  change (pecan_response (emit _ w)) with (pecan_response w). rewrite Hf.
  simpl.
  destruct (String.eqb_spec (content_type d) "application/json") as [Heq|Hne].
  - rewrite (Hjson Heq). eexists. split; [reflexivity|]. done.
  - eexists. split; [reflexivity|]. done.
Qed.

(** When the controller returns, the response record of the log reports the
    status that the response ends with, and it carries the result unless the
    function is [get_all] or the controller is one of the three execution
    controllers, whose results stay out of the log. The record is the last
    of the log when the result can be encoded. *)
Theorem response_log_respects_blacklists (d : jsexpose_args)
    (f : controller_function) (req : request) (args : list pyval)
    (kwargs : gmap string pyval) (w : world) (l : locals)
    (args' : list pyval) (resp : response) (result : pyval) :
  coerced QUERY_PARAM_ATTRIBUTE_NAME d f req args kwargs l →
  call_arguments d req l = Ok args' →
  noop_status d = None →
  f_call f args' (l_kwargs l) (pecan_response w) = (resp, Ok result) →
  (content_type d = "application/json" → json_raises result = None) →
  ∃ w' r logged,
    Raising.callfunction str_raises json_raises QUERY_PARAM_ATTRIBUTE_NAME d f
      req args kwargs w = (w', r) ∧
    last (LOG w')
    = Some (LOG_info_response (request_info_of req)
              (status (pecan_response w')) logged) ∧
    (f_name f = "get_all" ∨
     class_name (controller_of args)
       ∈ ["ActionExecutionChildrenController";
          "ActionExecutionAttributeController";
          "ActionExecutionsController"] →
     logged = None) ∧
    (f_name f ≠ "get_all" →
     class_name (controller_of args)
       ∉ ["ActionExecutionChildrenController";
          "ActionExecutionAttributeController";
          "ActionExecutionsController"] →
     logged = Some result).
Proof.
  intros [w0 Hco] Hargs Hnoop Hf Hjson.
  destruct (callfunction_coerced _ d f req args kwargs w w0 l Hco)
    as [logs Hrun].
  rewrite Raising_callfunction_run.
  rewrite (Raising_guarded_block_prepared _ _ _ _ _ _ _ _ _ _ _ _ _ Hrun Hargs),
    Hnoop.
  rewrite Raising_call_and_respond_run.
  change (pecan_response (emit _ w)) with (pecan_response w). rewrite Hf.
  simpl.
  assert (Hlogged :
    (f_name f = "get_all" ∨
     class_name (controller_of args)
       ∈ ["ActionExecutionChildrenController";
          "ActionExecutionAttributeController";
          "ActionExecutionsController"] →
     (if log_result f (controller_of args) then Some result else None) = None) ∧
    (f_name f ≠ "get_all" →
     class_name (controller_of args)
       ∉ ["ActionExecutionChildrenController";
          "ActionExecutionAttributeController";
          "ActionExecutionsController"] →
     (if log_result f (controller_of args) then Some result else None)
     = Some result)).
  { unfold log_result.
    change RESPONSE_LOGGING_METHOD_NAME_BLACKLIST with ["get_all"].
    change RESPONSE_LOGGING_CONTROLLER_NAME_BLACKLIST
      with ["ActionExecutionChildrenController";
            "ActionExecutionAttributeController";
            "ActionExecutionsController"].
    split.
    - intros [Hname|Hctrl].
      + rewrite (bool_decide_eq_true_2 (f_name f ∈ ["get_all"])); [done|].
        rewrite Hname. apply list_elem_of_here.
      + rewrite (bool_decide_eq_true_2 (class_name _ ∈ _) Hctrl).
        by rewrite andb_false_r.
    - intros Hname Hctrl.
      rewrite (bool_decide_eq_false_2 (f_name f ∈ ["get_all"])).
      2:{ by intros ?%list_elem_of_singleton. }
      by rewrite (bool_decide_eq_false_2 (class_name _ ∈ _) Hctrl). }
  destruct (String.eqb_spec (content_type d) "application/json") as [Heq|Hne].
  - rewrite (Hjson Heq). eexists _, _, _. split; [reflexivity|]. simpl.
    split; [by rewrite last_snoc|]. exact Hlogged.
  - eexists _, _, _. split; [reflexivity|]. simpl.
    split; [by rewrite last_snoc|]. exact Hlogged.
Qed.

(** A result that [json_encode] cannot serialise: the controller has run
    and the response log reports its status, yet the reply is the 500 error
    body of the [TypeError], provided the outer handler can render and
    encode that exception. *)
Theorem unserialisable_result_is_internal_server_error (d : jsexpose_args)
    (f : controller_function) (req : request) (args : list pyval)
    (kwargs : gmap string pyval) (w : world) (l : locals)
    (args' : list pyval) (resp : response) (result : pyval) (e : exn) :
  coerced QUERY_PARAM_ATTRIBUTE_NAME d f req args kwargs l →
  call_arguments d req l = Ok args' →
  noop_status d = None →
  f_call f args' (l_kwargs l) (pecan_response w) = (resp, Ok result) →
  content_type d = "application/json" →
  json_raises result = Some e →
  is_HTTPException e = false →
  is_Exception e = true →
  str_raises e = None →
  json_raises (PDict {[ "faultstring" := message e ]}) = None →
  ∃ w' logs,
    Raising.callfunction str_raises json_raises QUERY_PARAM_ATTRIBUTE_NAME d f
      req args kwargs w
    = (w', Ok (json_encode (PDict {[ "faultstring" := message e ]}))) ∧
    status (pecan_response w') = INTERNAL_SERVER_ERROR ∧
    invocations w'
    = invocations w ++ [{| inv_args := args'; inv_kwargs := l_kwargs l |}] ∧
    LOG w'
    = LOG w ++ LOG_info_request (request_info_of req) kwargs :: logs ++
        [LOG_info_response (request_info_of req) (reported_status d resp)
           (if log_result f (controller_of args) then Some result else None);
         LOG_exception_failed e].
Proof.
  intros [w0 Hco] Hargs Hnoop Hf Hjson Hraises Hhttp He Hstr Hbody.
  destruct (callfunction_coerced _ d f req args kwargs w w0 l Hco)
    as [logs Hrun].
  rewrite Raising_callfunction_run.
  rewrite (Raising_guarded_block_prepared _ _ _ _ _ _ _ _ _ _ _ _ _ Hrun Hargs),
    Hnoop.
  rewrite Raising_call_and_respond_run.
  change (pecan_response (emit _ w)) with (pecan_response w). rewrite Hf.
  simpl. rewrite Hjson. simpl. rewrite Hraises.
  unfold inner_except. rewrite Hhttp, He, Hstr, Hbody.
  eexists _, logs. split; [reflexivity|]. split; [done|]. split; [done|].
  simpl. by rewrite <- !app_assoc.
Qed.

(** An HTTP exception of the controller whose body is empty or a dict is
    answered with its own status code, with that body extended by
    [faultstring], and with its headers when it has any, provided [str]
    renders the exception and the body can be encoded. An
    [HTTPUnauthorized] is logged with [LOG.debug], any other HTTP
    exception with [LOG.exception]. *)
Theorem http_exception_is_answered_with_its_own_status (d : jsexpose_args)
    (f : controller_function) (req : request) (args : list pyval)
    (kwargs : gmap string pyval) (w : world) (l : locals)
    (args' : list pyval) (resp : response) (u : bool) (m : pyval) (code : Z)
    (body hdrs : pyval) (bd : gmap string pyval) :
  coerced QUERY_PARAM_ATTRIBUTE_NAME d f req args kwargs l →
  call_arguments d req l = Ok args' →
  noop_status d = None →
  f_call f args' (l_kwargs l) (pecan_response w)
  = (resp, Raise (HTTPExc u m code body hdrs)) →
  str_raises (HTTPExc u m code body hdrs) = None →
  error_body body = PDict bd →
  json_raises (PDict (<["faultstring" := m]> bd)) = None →
  ∃ w',
    Raising.callfunction str_raises json_raises QUERY_PARAM_ATTRIBUTE_NAME d f
      req args kwargs w
    = (w', Ok (json_encode (PDict (<["faultstring" := m]> bd)))) ∧
    status (pecan_response w') = code ∧
    headers (pecan_response w') = (if truthy hdrs then hdrs else headers resp) ∧
    last (LOG w')
    = Some (if u then LOG_debug_failed (HTTPExc u m code body hdrs)
            else LOG_exception_failed (HTTPExc u m code body hdrs)).
Proof.
  intros [w0 Hco] Hargs Hnoop Hf Hstr Hbody Hjson.
  destruct (callfunction_coerced _ d f req args kwargs w w0 l Hco)
    as [logs Hrun].
  rewrite Raising_callfunction_run.
  rewrite (Raising_guarded_block_prepared _ _ _ _ _ _ _ _ _ _ _ _ _ Hrun Hargs),
    Hnoop.
  rewrite Raising_call_and_respond_run.
  change (pecan_response (emit _ w)) with (pecan_response w). rewrite Hf.
  unfold inner_except. cbn [is_HTTPException].
  rewrite Raising_handle_http_exception_run, Hstr.
  rewrite Raising_handle_error_run, Hbody. simpl. rewrite Hjson.
  eexists. split; [reflexivity|]. split; [done|]. split; [done|].
  simpl. by rewrite last_snoc.
Qed.

(** A type that rejects the positional argument it is applied to, with
    anything but an [IndexError] (which the loop takes for an exhausted
    list), ends the call, whatever the types before it returned: the reply
    is the 500 error body with the message of that exception, and the
    controller is not invoked. *)
Theorem rejected_argument_is_internal_server_error (d : jsexpose_args)
    (f : controller_function) (req : request) (self a : pyval)
    (before after vs : list pyval) (kwargs : gmap string pyval) (w : world)
    (t : pyval → result pyval) (ts types : list (pyval → result pyval))
    (names : list string) (name : string) (names' : list string) (e : exn) :
  arg_types d = Some (ts ++ t :: types) →
  tail (f_argspec_args f) = names ++ name :: names' →
  length names = length vs →
  Forall3 (λ t a v, t a = Ok v) ts before vs →
  t a = Raise e →
  is_IndexError e = false →
  is_Exception e = true →
  str_raises e = None →
  json_raises (PDict {[ "faultstring" := message e ]}) = None →
  ∃ w',
    Raising.callfunction str_raises json_raises QUERY_PARAM_ATTRIBUTE_NAME d f
      req (self :: before ++ a :: after) kwargs w
    = (w', Ok (json_encode (PDict {[ "faultstring" := message e ]}))) ∧
    status (pecan_response w') = INTERNAL_SERVER_ERROR ∧
    invocations w' = invocations w.
Proof.
  intros Htypes Hnames Hlen Hconv Ht Hindex He Hstr Hbody.
  rewrite Raising_callfunction_run.
  set (w0 := emit [LOG_info_request (request_info_of req) kwargs] w).
  assert (Hg :
    Raising.guarded_block str_raises json_raises d f req (request_info_of req)
      (controller_of (self :: before ++ a :: after))
      (self :: before ++ a :: after)
      (strip_auth_token QUERY_PARAM_ATTRIBUTE_NAME req kwargs) w0
    = (w0, Raise e)).
  { unfold Raising.guarded_block. unfold bind at 1.
    unfold coerce_arguments. rewrite Htypes, Hnames. simpl.
    destruct (ts ++ t :: types) as [|t0 ts0] eqn:Hts; [by destruct ts|].
    rewrite <- Hts, coerce_loop_app. unfold bind at 1.
    rewrite (coerce_loop_positional _ _ _ _ _ _ _ _ _ _ Hlen Hconv).
    simpl. unfold bind, coerce_step. simpl. by rewrite Ht, Hindex. }
  rewrite Hg, He, Hstr, Hbody. eexists. split; [reflexivity|]. done.
Qed.

End Raising_responses.

(** *** On the sample inputs *)

Lemma callfunction_passes_arguments_through_witness :
  invocations
    (Raising.callfunction Samples.ascii_str Samples.no_objects
       Samples.QUERY_PARAM_ATTRIBUTE_NAME Samples.jsexpose_default
       Samples.get_one Samples.token_request
       [Samples.rules_controller; PStr "1"] Samples.token_kwargs
       Samples.initial_world).1
  = invocations Samples.initial_world ++
      [{| inv_args := [Samples.rules_controller; PStr "1"];
          inv_kwargs := strip_auth_token Samples.QUERY_PARAM_ATTRIBUTE_NAME
                          Samples.token_request Samples.token_kwargs |}].
Proof.
  apply (callfunction_passes_arguments_through Samples.ascii_str
           Samples.no_objects Samples.QUERY_PARAM_ATTRIBUTE_NAME
           Samples.jsexpose_default Samples.get_one Samples.token_request
           Samples.rules_controller [PStr "1"] Samples.token_kwargs
           Samples.initial_world).
  - left. reflexivity.
  - reflexivity.
  - reflexivity.
Defined.

Lemma callfunction_passes_body_after_self_witness :
  invocations
    (Raising.callfunction Samples.ascii_str Samples.no_objects
       Samples.QUERY_PARAM_ATTRIBUTE_NAME Samples.jsexpose_body
       Samples.post Samples.good_post
       [Samples.rules_controller; PStr "extra"] ∅ Samples.initial_world).1
  = invocations Samples.initial_world ++
      [{| inv_args := [Samples.rules_controller;
                       PObject "RuleLikeAPI" Samples.good_kw; PStr "extra"];
          inv_kwargs := strip_auth_token Samples.QUERY_PARAM_ATTRIBUTE_NAME
                          Samples.good_post ∅ |}].
Proof.
  apply (callfunction_passes_body_after_self Samples.ascii_str
           Samples.no_objects Samples.QUERY_PARAM_ATTRIBUTE_NAME
           Samples.jsexpose_body Samples.post Samples.good_post
           Samples.rules_controller [PStr "extra"] ∅ Samples.initial_world
           Samples.RuleLikeAPI_cls (PDict Samples.good_kw)
           (PObject "RuleLikeAPI" Samples.good_kw)).
  - left. reflexivity.
  - reflexivity.
  - reflexivity.
  - vm_compute. reflexivity.
  - reflexivity.
Defined.

Lemma positional_arguments_are_converted_in_order_witness :
  invocations
    (Raising.callfunction Samples.ascii_str Samples.no_objects
       Samples.QUERY_PARAM_ATTRIBUTE_NAME Samples.jsexpose_bool_int
       Samples.get_one Samples.plain_request
       [Samples.rules_controller; PStr "1"; PInt 5] ∅
       Samples.initial_world).1
  = invocations Samples.initial_world ++
      [{| inv_args := [Samples.rules_controller; PBool true; PInt 5];
          inv_kwargs := strip_auth_token Samples.QUERY_PARAM_ATTRIBUTE_NAME
                          Samples.plain_request ∅ |}].
Proof.
  apply (positional_arguments_are_converted_in_order Samples.ascii_str
           Samples.no_objects Samples.QUERY_PARAM_ATTRIBUTE_NAME
           Samples.jsexpose_bool_int Samples.get_one Samples.plain_request
           Samples.rules_controller [PStr "1"; PInt 5] [PBool true; PInt 5]
           ∅ Samples.initial_world Samples.py_bool [Samples.py_int]).
  - reflexivity.
  - reflexivity.
  - apply Forall3_cons; [reflexivity|].
    apply Forall3_cons; [reflexivity|]. apply Forall3_nil.
  - reflexivity.
  - reflexivity.
Defined.

Lemma lookup_error_of_a_type_is_swallowed_witness :
  invocations
    (Raising.callfunction Samples.ascii_str Samples.no_objects
       Samples.QUERY_PARAM_ATTRIBUTE_NAME Samples.jsexpose_level
       Samples.get_all Samples.plain_request [Samples.rules_controller]
       {[ "level" := PStr "medium" ]} Samples.initial_world).1
  = invocations Samples.initial_world ++
      [{| inv_args := [Samples.rules_controller];
          inv_kwargs := strip_auth_token Samples.QUERY_PARAM_ATTRIBUTE_NAME
                          Samples.plain_request
                          {[ "level" := PStr "medium" ]} |}].
Proof.
  apply (lookup_error_of_a_type_is_swallowed Samples.ascii_str
           Samples.no_objects Samples.QUERY_PARAM_ATTRIBUTE_NAME
           Samples.jsexpose_level Samples.get_all Samples.plain_request
           Samples.rules_controller {[ "level" := PStr "medium" ]}
           Samples.initial_world Samples.by_level "self" "level"
           (PStr "medium") (PyExc KeyError (PStr "medium"))).
  - reflexivity.
  - reflexivity.
  - reflexivity.
  - reflexivity.
  - vm_compute. reflexivity.
  - reflexivity.
  - right. reflexivity.
Defined.

Lemma empty_body_never_reads_json_witness :
  Raising.callfunction Samples.ascii_str Samples.no_objects
    Samples.QUERY_PARAM_ATTRIBUTE_NAME Samples.jsexpose_body Samples.post
    Samples.plain_request_other_json [Samples.rules_controller] ∅
    Samples.initial_world
  = Raising.callfunction Samples.ascii_str Samples.no_objects
      Samples.QUERY_PARAM_ATTRIBUTE_NAME Samples.jsexpose_body Samples.post
      Samples.plain_request [Samples.rules_controller] ∅
      Samples.initial_world.
Proof.
  apply (empty_body_never_reads_json Samples.ascii_str Samples.no_objects
           Samples.QUERY_PARAM_ATTRIBUTE_NAME Samples.jsexpose_body
           Samples.post Samples.plain_request
           Samples.plain_request_other_json [Samples.rules_controller] ∅
           Samples.initial_world); reflexivity.
Defined.

Lemma controller_result_is_returned_witness :
  ∃ w',
    Raising.callfunction Samples.ascii_str Samples.no_objects
      Samples.QUERY_PARAM_ATTRIBUTE_NAME Samples.jsexpose_default
      Samples.get_one_found Samples.plain_request
      [Samples.rules_controller; PStr "1"] ∅ Samples.initial_world
    = (w', Ok (if String.eqb (content_type Samples.jsexpose_default)
                    "application/json"
               then json_encode (PDict {[ "name" := PStr "r1" ]})
               else raw (PDict {[ "name" := PStr "r1" ]}))) ∧
    status (pecan_response w')
    = match status_code Samples.jsexpose_default with
      | Some c => if c =? 0 then status (pecan_response Samples.initial_world)
                  else c
      | None => status (pecan_response Samples.initial_world)
      end ∧
    headers (pecan_response w')
    = headers (pecan_response Samples.initial_world).
Proof.
  apply (controller_result_is_returned Samples.ascii_str Samples.no_objects
           Samples.QUERY_PARAM_ATTRIBUTE_NAME Samples.jsexpose_default
           Samples.get_one_found Samples.plain_request
           [Samples.rules_controller; PStr "1"] ∅ Samples.initial_world
           {| l_args := [PStr "1"]; l_types := [];
              l_more := [Samples.rules_controller]; l_kwargs := ∅ |}
           [Samples.rules_controller; PStr "1"]
           (pecan_response Samples.initial_world)
           (PDict {[ "name" := PStr "r1" ]})).
  - exists Samples.initial_world. reflexivity.
  - reflexivity.
  - reflexivity.
  - reflexivity.
  - intros _. vm_compute. reflexivity.
Defined.

Lemma response_log_respects_blacklists_witness :
  ∃ w' r logged,
    Raising.callfunction Samples.ascii_str Samples.no_objects
      Samples.QUERY_PARAM_ATTRIBUTE_NAME Samples.jsexpose_level
      Samples.get_all Samples.plain_request [Samples.rules_controller] ∅
      Samples.initial_world = (w', r) ∧
    last (LOG w')
    = Some (LOG_info_response (request_info_of Samples.plain_request)
              (status (pecan_response w')) logged) ∧
    (f_name Samples.get_all = "get_all" ∨
     class_name (controller_of [Samples.rules_controller])
       ∈ ["ActionExecutionChildrenController";
          "ActionExecutionAttributeController";
          "ActionExecutionsController"] →
     logged = None) ∧
    (f_name Samples.get_all ≠ "get_all" →
     class_name (controller_of [Samples.rules_controller])
       ∉ ["ActionExecutionChildrenController";
          "ActionExecutionAttributeController";
          "ActionExecutionsController"] →
     logged = Some (PList [])).
Proof.
  apply (response_log_respects_blacklists Samples.ascii_str Samples.no_objects
           Samples.QUERY_PARAM_ATTRIBUTE_NAME Samples.jsexpose_level
           Samples.get_all Samples.plain_request [Samples.rules_controller] ∅
           Samples.initial_world
           {| l_args := []; l_types := [];
              l_more := [Samples.rules_controller]; l_kwargs := ∅ |}
           [Samples.rules_controller]
           (pecan_response Samples.initial_world) (PList [])).
  - exists Samples.initial_world. reflexivity.
  - reflexivity.
  - reflexivity.
  - reflexivity.
  - intros _. reflexivity.
Defined.

Lemma unserialisable_result_is_internal_server_error_witness :
  ∃ w' logs,
    Raising.callfunction Samples.ascii_str Samples.no_objects
      Samples.QUERY_PARAM_ATTRIBUTE_NAME Samples.jsexpose_default
      Samples.get_one_object Samples.plain_request
      [Samples.rules_controller; PStr "1"] ∅ Samples.initial_world
    = (w', Ok (json_encode
                 (PDict {[ "faultstring" :=
                             message (PyExc TypeError
                                        (PStr "is not JSON serializable")) ]}))) ∧
    status (pecan_response w') = INTERNAL_SERVER_ERROR ∧
    invocations w'
    = invocations Samples.initial_world ++
        [{| inv_args := [Samples.rules_controller; PStr "1"];
            inv_kwargs := l_kwargs
                            {| l_args := [PStr "1"]; l_types := [];
                               l_more := [Samples.rules_controller];
                               l_kwargs := ∅ |} |}] ∧
    LOG w'
    = LOG Samples.initial_world ++
        LOG_info_request (request_info_of Samples.plain_request) ∅ :: logs ++
        [LOG_info_response (request_info_of Samples.plain_request)
           (reported_status Samples.jsexpose_default
              (pecan_response Samples.initial_world))
           (if log_result Samples.get_one_object
                 (controller_of [Samples.rules_controller; PStr "1"])
            then Some (PObject "RuleDB" ∅) else None);
         LOG_exception_failed
           (PyExc TypeError (PStr "is not JSON serializable"))].
Proof.
  apply (unserialisable_result_is_internal_server_error Samples.ascii_str
           Samples.no_objects Samples.QUERY_PARAM_ATTRIBUTE_NAME
           Samples.jsexpose_default Samples.get_one_object
           Samples.plain_request [Samples.rules_controller; PStr "1"] ∅
           Samples.initial_world
           {| l_args := [PStr "1"]; l_types := [];
              l_more := [Samples.rules_controller]; l_kwargs := ∅ |}
           [Samples.rules_controller; PStr "1"]
           (pecan_response Samples.initial_world) (PObject "RuleDB" ∅)
           (PyExc TypeError (PStr "is not JSON serializable"))).
  - exists Samples.initial_world. reflexivity.
  - reflexivity.
  - reflexivity.
  - reflexivity.
  - reflexivity.
  - reflexivity.
  - reflexivity.
  - reflexivity.
  - reflexivity.
  - vm_compute. reflexivity.
Defined.

Lemma http_exception_is_answered_with_its_own_status_witness :
  ∃ w',
    Raising.callfunction Samples.ascii_str Samples.no_objects
      Samples.QUERY_PARAM_ATTRIBUTE_NAME Samples.jsexpose_default
      Samples.get_one_not_found_empty_body Samples.plain_request
      [Samples.rules_controller; PStr "x"] ∅ Samples.initial_world
    = (w', Ok (json_encode
                 (PDict (<["faultstring" := PStr "Rule not found"]> ∅)))) ∧
    status (pecan_response w') = 404 ∧
    headers (pecan_response w')
    = (if truthy Samples.not_found_headers then Samples.not_found_headers
       else headers (pecan_response Samples.initial_world)) ∧
    last (LOG w')
    = Some (if false
            then LOG_debug_failed
                   (HTTPExc false (PStr "Rule not found") 404 (PStr "")
                      Samples.not_found_headers)
            else LOG_exception_failed
                   (HTTPExc false (PStr "Rule not found") 404 (PStr "")
                      Samples.not_found_headers)).
Proof.
  apply (http_exception_is_answered_with_its_own_status Samples.ascii_str
           Samples.no_objects Samples.QUERY_PARAM_ATTRIBUTE_NAME
           Samples.jsexpose_default Samples.get_one_not_found_empty_body
           Samples.plain_request [Samples.rules_controller; PStr "x"] ∅
           Samples.initial_world
           {| l_args := [PStr "x"]; l_types := [];
              l_more := [Samples.rules_controller]; l_kwargs := ∅ |}
           [Samples.rules_controller; PStr "x"]
           (pecan_response Samples.initial_world)
           false (PStr "Rule not found") 404 (PStr "")
           Samples.not_found_headers ∅).
  - exists Samples.initial_world. reflexivity.
  - reflexivity.
  - reflexivity.
  - reflexivity.
  - reflexivity.
  - reflexivity.
  - vm_compute. reflexivity.
Defined.

Lemma rejected_argument_is_internal_server_error_witness :
  ∃ w',
    Raising.callfunction Samples.ascii_str Samples.no_objects
      Samples.QUERY_PARAM_ATTRIBUTE_NAME Samples.jsexpose_bool_int
      Samples.get_one Samples.plain_request
      (Samples.rules_controller :: [PStr "1"] ++ PStr "abc" :: []) ∅
      Samples.initial_world
    = (w', Ok (json_encode
                 (PDict {[ "faultstring" :=
                             message
                               (PyExc (OtherException "ValueError")
                                  (PStr "invalid literal for int() with base 10")) ]}))) ∧
    status (pecan_response w') = INTERNAL_SERVER_ERROR ∧
    invocations w' = invocations Samples.initial_world.
Proof.
  apply (rejected_argument_is_internal_server_error Samples.ascii_str
           Samples.no_objects Samples.QUERY_PARAM_ATTRIBUTE_NAME
           Samples.jsexpose_bool_int Samples.get_one Samples.plain_request
           Samples.rules_controller (PStr "abc") [PStr "1"] [] [PBool true]
           ∅ Samples.initial_world Samples.py_int [Samples.py_bool] []
           ["id"] "verbose" []
           (PyExc (OtherException "ValueError")
              (PStr "invalid literal for int() with base 10"))).
  - reflexivity.
  - reflexivity.
  - reflexivity.
  - apply Forall3_cons; [reflexivity|]. apply Forall3_nil.
  - reflexivity.
  - reflexivity.
  - reflexivity.
  - reflexivity.
  - vm_compute. reflexivity.
Defined.

(** ** Further properties of the conversions *)

(** *** [BaseAPI.to_model] and [BaseAPI.from_model] *)

(** [BaseAPI.to_model] spelled out. *)
Lemma BaseAPI_to_model_run (model_defaults : gmap string pyval) (doc : pyval)
    (σ : store) :
  BaseAPI_to_model model_defaults doc σ
  = (<[fresh (dom σ) :=
         <["description" :=
             field_value model_defaults "description"
               (getattr_default doc "description" PNone)]>
           (<["name" :=
                field_value model_defaults "name"
                  (getattr_default doc "name" PNone)]> model_defaults)]> σ,
     Ok (fresh (dom σ))).
Proof.
  unfold BaseAPI_to_model, model_new. unfold bind at 1.
  set (model := fresh (dom σ)).
  assert (Hm0 : <[model := model_defaults]> σ !! model = Some model_defaults)
    by apply lookup_insert_eq.
  unfold bind at 1. rewrite (model_setattr_run _ _ _ _ _ _ Hm0).
  unfold bind at 1. erewrite model_setattr_run by apply lookup_insert_eq.
  unfold ret. by rewrite !insert_insert_eq.
Qed.


Section BaseAPI_conversions.

Context (VALIDATOR : pyval → gmap string pyval → option exn)
  (unescape_chars : gmap string pyval → gmap string pyval)
  (str : pyval → string).

Lemma from_model_run (cls : api_class) (model : nat) (σ : store)
    (doc : gmap string pyval) :
  _from_model unescape_chars str model σ = (σ, Ok doc) →
  from_model VALIDATOR unescape_chars str cls model σ
  = (σ, match VALIDATOR (default (PDict ∅) (cls_schema cls))
                (filter (λ kv : string * pyval, is_not_None kv.2 = true) doc)
        with
        | Some e => Raise e
        | None =>
            Ok (PObject (cls_name cls)
                  (filter (λ kv : string * pyval, is_not_None kv.2 = true) doc))
        end).
Proof.
  intros Hdoc. unfold from_model. unfold bind. rewrite Hdoc.
  unfold lift. by rewrite BaseAPI_new_spec.
Qed.

(** The API object [BaseAPI.from_model] builds has exactly the fields of the
    document mapping that are not [None] as its attributes: a [None] never
    becomes an attribute, and a falsy value that is not [None] does. *)
Theorem from_model_keeps_what_is_not_None (cls : api_class) (model : nat)
    (σ σ' : store) (doc : gmap string pyval) (instance : pyval) :
  _from_model unescape_chars str model σ = (σ, Ok doc) →
  from_model VALIDATOR unescape_chars str cls model σ = (σ', Ok instance) →
  ∃ attrs,
    instance = PObject (cls_name cls) attrs ∧
    ∀ key value,
      attrs !! key = Some value ↔ doc !! key = Some value ∧ value ≠ PNone.
Proof.
  intros Hdoc. rewrite (from_model_run _ _ _ _ Hdoc).
  destruct (VALIDATOR _ _); [done|]. intros [= _ <-].
  eexists. split; [reflexivity|]. intros key value.
  rewrite map_lookup_filter_Some. simpl.
  split; intros [Hk Hv]; (split; [done|]); by destruct value.
Qed.

(** From a document to an API object and back with the two methods of
    [BaseAPI]: when the object passes validation, the new document has the
    [name] and the [description] of the original mapping, and the default of
    the field where the mapping has none or has [None]. *)
Theorem BaseAPI_round_trip_keeps_name_and_description (cls : api_class)
    (model_defaults : gmap string pyval) (model : nat) (σ : store)
    (doc : gmap string pyval) :
  _from_model unescape_chars str model σ = (σ, Ok doc) →
  VALIDATOR (default (PDict ∅) (cls_schema cls))
    (filter (λ kv : string * pyval, is_not_None kv.2 = true) doc) = None →
  ∃ instance σ' model' fields,
    from_model VALIDATOR unescape_chars str cls model σ = (σ, Ok instance) ∧
    BaseAPI_to_model model_defaults instance σ = (σ', Ok model') ∧
    σ !! model' = None ∧
    σ' !! model' = Some fields ∧
    fields !! "name"
    = Some (field_value model_defaults "name" (default PNone (doc !! "name"))) ∧
    fields !! "description"
    = Some (field_value model_defaults "description"
              (default PNone (doc !! "description"))).
Proof.
  intros Hdoc Hvalid. rewrite (from_model_run _ _ _ _ Hdoc), Hvalid.
  set (attrs := filter _ doc).
  assert (Hget : ∀ key,
    getattr_default (PObject (cls_name cls) attrs) key PNone
    = default PNone (doc !! key)).
  { intros key. simpl. unfold attrs.
    destruct (doc !! key) as [v|] eqn:Hk.
    - destruct (is_not_None v) eqn:Hv.
      + by rewrite (proj2 (map_lookup_filter_Some _ _ _ _) (conj Hk Hv)).
      + rewrite (proj2 (map_lookup_filter_None _ _ _)); [by destruct v|].
        right. intros v' Hv'. rewrite Hk in Hv'. injection Hv' as <-.
        simpl. by rewrite Hv.
    - rewrite (proj2 (map_lookup_filter_None _ _ _)); [done|]. by left. }
  eexists (PObject (cls_name cls) attrs), _, _, _.
  split; [reflexivity|]. split; [apply BaseAPI_to_model_run|].
  split; [apply (not_elem_of_dom (D := gset nat)), is_fresh|].
  split; [apply lookup_insert_eq|].
  rewrite <- !Hget. split.
  - rewrite lookup_insert_ne by done. apply lookup_insert_eq.
  - apply lookup_insert_eq.
Qed.

End BaseAPI_conversions.


(** *** [ActionExecutionAPI.from_model] *)

Section execution_from_model.

Context (VALIDATOR : pyval → gmap string pyval → option exn)
  (unescape_chars : gmap string pyval → gmap string pyval)
  (str : pyval → string)
  (isotime_format : pyval → result pyval)
  (imported : imported_schemas).

(** What a successful [from_model] went through. *)
Lemma execution_from_model_inv (model : nat) (σ σ' : store)
    (doc : gmap string pyval) (instance : pyval) :
  _from_model unescape_chars str model σ = (σ, Ok doc) →
  ActionExecutionAPI_from_model VALIDATOR unescape_chars str isotime_format
    imported model σ = (σ', Ok instance) →
  ∃ lv lv' start formatted,
    doc !! "liveaction" = Some (PDict lv) ∧
    lv !! "start_timestamp" = Some start ∧
    isotime_format start = Ok formatted ∧
    lv' !! "start_timestamp" = Some formatted ∧
    (∀ key, key ≠ "start_timestamp" → key ≠ "end_timestamp" →
            lv' !! key = lv !! key) ∧
    instance
    = PObject "ActionExecutionAPI"
        (filter (λ kv : string * pyval, truthy kv.2 = true)
           (<["liveaction" := PDict lv']> doc)).
Proof.
  intros Hdoc. unfold ActionExecutionAPI_from_model.
  unfold bind at 1. rewrite Hdoc. unfold bind at 1, lift at 1. simpl.
  destruct (doc !! "liveaction") as [liveaction|] eqn:Hlive; [|done].
  unfold bind at 1, lift at 1.
  destruct liveaction as [| | | | | |lv|]; try done. simpl.
  destruct (lv !! "start_timestamp") as [start|] eqn:Hstart; [|done].
  unfold bind at 1, lift at 1.
  destruct (isotime_format start) as [formatted|] eqn:Hfmt; [|done].
  unfold bind at 1, lift at 1. simpl.
  assert (Hfinish : ∀ lv1,
    (∀ key, key ≠ "end_timestamp" → lv1 !! key = lv !! key) →
    lift (BaseAPI_new VALIDATOR (ActionExecutionAPI imported)
            (filter (λ kv : string * pyval, truthy kv.2 = true)
               (<["liveaction" :=
                    PDict (<["start_timestamp" := formatted]> lv1)]> doc))) σ
    = (σ', Ok instance) →
    ∃ lv0 lv' start0 formatted0,
      Some (PDict lv) = Some (PDict lv0) ∧
      lv0 !! "start_timestamp" = Some start0 ∧
      isotime_format start0 = Ok formatted0 ∧
      lv' !! "start_timestamp" = Some formatted0 ∧
      (∀ key, key ≠ "start_timestamp" → key ≠ "end_timestamp" →
              lv' !! key = lv0 !! key) ∧
      instance
      = PObject "ActionExecutionAPI"
          (filter (λ kv : string * pyval, truthy kv.2 = true)
             (<["liveaction" := PDict lv']> doc))).
  { intros lv1 Hlv1. unfold lift. rewrite BaseAPI_new_spec.
    destruct (VALIDATOR _ _); [done|]. intros [= _ <-].
    exists lv, (<["start_timestamp" := formatted]> lv1), start, formatted.
    split; [done|]. split; [done|]. split; [done|].
    split; [apply lookup_insert_eq|]. split; [|done].
    intros key Hk1 Hk2. rewrite lookup_insert_ne by done. by apply Hlv1. }
  destruct (lv !! "end_timestamp") as [finish|] eqn:Hend.
  - destruct (is_not_None finish).
    + unfold bind at 1. unfold bind at 1, lift at 1.
      destruct (isotime_format finish) as [formatted_finish|]; [|done].
      unfold lift at 1. simpl. unfold bind at 1, lift at 1. simpl.
      apply Hfinish. intros key Hk. by rewrite lookup_insert_ne.
    + unfold bind at 1, ret. unfold bind at 1, lift at 1. simpl.
      by apply Hfinish.
  - simpl. unfold bind at 1, ret. unfold bind at 1, lift at 1. simpl.
    by apply Hfinish.
Qed.

(** The API object of an execution record has exactly the truthy fields of
    the document mapping as its attributes (an empty list, an empty string,
    [None], [False] and [0] are all dropped), and among them a [liveaction]
    with the formatted [start_timestamp]; the formatting changes no key of
    [liveaction] other than the two timestamps. *)
Theorem execution_from_model_keeps_what_is_truthy (model : nat)
    (σ σ' : store) (doc : gmap string pyval) (instance : pyval) :
  _from_model unescape_chars str model σ = (σ, Ok doc) →
  ActionExecutionAPI_from_model VALIDATOR unescape_chars str isotime_format
    imported model σ = (σ', Ok instance) →
  ∃ attrs lv lv' start formatted,
    instance = PObject "ActionExecutionAPI" attrs ∧
    (∀ key value, key ≠ "liveaction" →
       (attrs !! key = Some value ↔
        doc !! key = Some value ∧ truthy value = true)) ∧
    doc !! "liveaction" = Some (PDict lv) ∧
    attrs !! "liveaction" = Some (PDict lv') ∧
    lv !! "start_timestamp" = Some start ∧
    isotime_format start = Ok formatted ∧
    lv' !! "start_timestamp" = Some formatted ∧
    ∀ key, key ≠ "start_timestamp" → key ≠ "end_timestamp" →
           lv' !! key = lv !! key.
Proof.
  intros Hdoc Hfrom.
  destruct (execution_from_model_inv _ _ _ _ _ Hdoc Hfrom)
    as (lv & lv' & start & formatted & Hlive & Hstart & Hfmt & Hstart' &
        Hother & ->).
  eexists _, lv, lv', start, formatted. split; [reflexivity|].
  split.
  { intros key value Hkey. rewrite map_lookup_filter_Some. simpl.
    by rewrite lookup_insert_ne. }
  split; [done|]. split.
  { apply map_lookup_filter_Some. split; [apply lookup_insert_eq|]. simpl.
    apply negb_true_iff, bool_decide_eq_false_2. intros Hempty.
    apply (elem_of_dom_2 (D := gset string)) in Hstart'.
    rewrite Hempty in Hstart'. by apply not_elem_of_empty in Hstart'. }
  done.
Qed.

(** A document mapping without [liveaction], or whose [liveaction] has no
    [start_timestamp], cannot be converted: [from_model] raises the
    [KeyError] of the missing key, before any validation. *)
Theorem execution_from_model_needs_start_timestamp (model : nat) (σ : store)
    (doc : gmap string pyval) :
  _from_model unescape_chars str model σ = (σ, Ok doc) →
  (doc !! "liveaction" = None →
   ActionExecutionAPI_from_model VALIDATOR unescape_chars str isotime_format
     imported model σ = (σ, Raise (PyExc KeyError (PStr "liveaction")))) ∧
  (∀ lv, doc !! "liveaction" = Some (PDict lv) →
         lv !! "start_timestamp" = None →
   ActionExecutionAPI_from_model VALIDATOR unescape_chars str isotime_format
     imported model σ = (σ, Raise (PyExc KeyError (PStr "start_timestamp")))).
Proof.
  intros Hdoc. split.
  - intros Hlive. unfold ActionExecutionAPI_from_model.
    unfold bind at 1. rewrite Hdoc. unfold bind at 1, lift at 1. simpl.
    by rewrite Hlive.
  - intros lv Hlive Hstart. unfold ActionExecutionAPI_from_model.
    unfold bind at 1. rewrite Hdoc. unfold bind at 1, lift at 1. simpl.
    rewrite Hlive. unfold bind at 1, lift at 1. simpl. by rewrite Hstart.
Qed.

End execution_from_model.

(** *** [ActionExecutionAPI.to_model] and the store *)

Lemma writes_only_ret {A} (model : nat) (a : A) : writes_only model (ret a).
Proof. by intros σ other _. Qed.

Lemma writes_only_raise {A} (model : nat) (e : exn) :
  writes_only model (@raise store A e).
Proof. by intros σ other _. Qed.

Lemma writes_only_lift {A} (model : nat) (r : result A) :
  writes_only model (lift r).
Proof. by intros σ other _. Qed.

Lemma writes_only_bind {A B} (model : nat) (m : M store A) (k : A → M store B) :
  writes_only model m → (∀ a, writes_only model (k a)) →
  writes_only model (bind m k).
Proof.
  intros Hm Hk σ other Hne. unfold bind. specialize (Hm σ other Hne).
  destruct (m σ) as [σ1 [a|e]]; simpl in *; [|done].
  by rewrite (Hk a σ1 other Hne).
Qed.

Lemma writes_only_model_setattr (defaults : gmap string pyval) (model : nat)
    (attr : string) (value : pyval) :
  writes_only model (model_setattr defaults model attr value).
Proof.
  intros σ other Hne. unfold model_setattr, modify. simpl.
  by apply lookup_alter_ne.
Qed.

Lemma writes_only_model_getattr (model : nat) (attr : string) :
  writes_only model (model_getattr model attr).
Proof.
  intros σ other _. unfold model_getattr.
  by destruct (σ !! model ≫= (.!! attr)).
Qed.

Create HintDb writes_only.

#[local] Hint Resolve writes_only_ret writes_only_raise writes_only_lift
  writes_only_model_setattr writes_only_model_getattr : writes_only.

Ltac writes_only_tac :=
  repeat first
    [ apply writes_only_bind; [|intros ?]
    | solve [auto with writes_only] ].

Section to_model_store.

Context (isotime_parse : pyval → result pyval)
  (imported : imported_schemas)
  (ActionExecutionDB_defaults : gmap string pyval)
  (ActionExecutionDB_required : string → option bool).

Lemma writes_only_to_model_step (instance : pyval) (model : nat)
    (item : string * pyval) :
  writes_only model
    (to_model_step ActionExecutionDB_defaults ActionExecutionDB_required instance model item).
Proof.
  destruct item as [attr meta]. unfold to_model_step.
  apply writes_only_bind; [writes_only_tac|]. intros dflt.
  destruct (truthy _); [writes_only_tac|].
  destruct (ActionExecutionDB_required attr) as [[|]|]; writes_only_tac.
Qed.

Lemma writes_only_to_model_loop (instance : pyval) (model : nat)
    (items : list (string * pyval)) :
  writes_only model
    (to_model_loop ActionExecutionDB_defaults ActionExecutionDB_required instance model items).
Proof.
  induction items as [|item items IH]; cbn [to_model_loop].
  - writes_only_tac.
  - apply writes_only_bind; [apply writes_only_to_model_step|done].
Qed.

Lemma writes_only_parse_timestamp (model : nat) (key : string) :
  writes_only model (parse_timestamp isotime_parse ActionExecutionDB_defaults model key).
Proof. unfold parse_timestamp. writes_only_tac. Qed.

(** [to_model] works on a document of its own: whether it returns or
    raises, every document that was in the store is left as it was. *)
Theorem to_model_leaves_the_documents_alone (instance : pyval) (σ : store)
    (other : nat) (fields : gmap string pyval) :
  σ !! other = Some fields →
  (ActionExecutionAPI_to_model isotime_parse imported
     ActionExecutionDB_defaults ActionExecutionDB_required instance σ).1
    !! other = Some fields.
Proof.
  intros Hother. unfold ActionExecutionAPI_to_model.
  unfold bind at 1, model_new. set (model := fresh (dom σ)).
  assert (Hne : other ≠ model).
  { intros ->. apply (elem_of_dom_2 (D := gset nat)) in Hother.
    by apply is_fresh in Hother. }
  match goal with
  | |- (?c _).1 !! _ = _ =>
      assert (Hw : writes_only model c)
  end.
  { apply writes_only_bind; [apply writes_only_to_model_loop|]. intros _.
    apply writes_only_bind; [apply writes_only_parse_timestamp|]. intros _.
    apply writes_only_bind; [apply writes_only_parse_timestamp|]. intros _.
    apply writes_only_ret. }
  rewrite (Hw _ other Hne). by rewrite lookup_insert_ne.
Qed.

(** A step of the loop that returns: the attribute is written when the
    value is truthy or the field is required, and skipped otherwise. *)
Lemma to_model_step_fields (instance : pyval) (model : nat) (attr : string)
    (d : gmap string pyval) (σ σ' : store) (fields : gmap string pyval) :
  σ !! model = Some fields →
  to_model_step ActionExecutionDB_defaults ActionExecutionDB_required instance model (attr, PDict d) σ
  = (σ', Ok tt) →
  σ' !! model
  = Some (if truthy (getattr_default instance attr
                       (default PNone (d !! "default")))
             || bool_decide (ActionExecutionDB_required attr = Some true)
          then <[attr := field_value ActionExecutionDB_defaults attr
                           (getattr_default instance attr
                              (default PNone (d !! "default")))]> fields
          else fields).
Proof.
  intros Hm. unfold to_model_step, bind, lift, dict_get.
  assert (Hget : match d !! "default" with
                 | Some x => Ok x
                 | None => Ok PNone
                 end = Ok (default PNone (d !! "default")))
    by (by destruct (d !! "default")).
  rewrite Hget. clear Hget.
  set (value := getattr_default instance attr _).
  destruct (truthy value); simpl.
  - rewrite (model_setattr_run _ _ _ _ _ _ Hm). intros [= <-].
    apply lookup_insert_eq.
  - destruct (ActionExecutionDB_required attr) as [[|]|]; [| |done].
    + rewrite (model_setattr_run _ _ _ _ _ _ Hm). intros [= <-].
      rewrite bool_decide_eq_true_2 by done. apply lookup_insert_eq.
    + intros [= <-]. by rewrite bool_decide_eq_false_2.
Qed.

Lemma to_model_loop_fields (instance : pyval) (model : nat)
    (items : list (string * pyval)) (σ σ' : store)
    (fields : gmap string pyval) :
  NoDup items.*1 →
  σ !! model = Some fields →
  to_model_loop ActionExecutionDB_defaults ActionExecutionDB_required instance model items σ
  = (σ', Ok tt) →
  ∃ fields',
    σ' !! model = Some fields' ∧
    (∀ attr, attr ∉ items.*1 → fields' !! attr = fields !! attr) ∧
    ∀ attr d, (attr, PDict d) ∈ items →
      fields' !! attr
      = if truthy (getattr_default instance attr
                     (default PNone (d !! "default")))
           || bool_decide (ActionExecutionDB_required attr = Some true)
        then Some (field_value ActionExecutionDB_defaults attr
                     (getattr_default instance attr
                        (default PNone (d !! "default"))))
        else fields !! attr.
Proof.
  revert σ fields. induction items as [|[a meta] items IH];
    intros σ fields Hnodup Hm; cbn [to_model_loop].
  - intros [= <-]. exists fields. split; [done|]. split; [done|].
    by intros attr d ?%elem_of_nil.
  - apply NoDup_cons in Hnodup as [Hfresh Hnodup]. unfold bind at 1.
    destruct (to_model_step _ _ _ _ (a, meta) σ) as [σ1 [[]|e]] eqn:Hstep;
      [|done].
    assert (Hmeta : ∃ d, meta = PDict d).
    { unfold to_model_step, bind, lift, dict_get in Hstep.
      destruct meta; try done. by eexists. }
    destruct Hmeta as [d0 ->].
    pose proof (to_model_step_fields _ _ _ _ _ _ _ Hm Hstep) as Hm1.
    intros Hloop.
    destruct (IH _ _ Hnodup Hm1 Hloop) as (fields' & Hm' & Hkeep & Hset).
    exists fields'. split; [done|]. split.
    + intros attr Hattr. simpl in Hattr.
      apply not_elem_of_cons in Hattr as [Hne Hattr].
      rewrite (Hkeep attr Hattr).
      destruct (_ || _); [by rewrite lookup_insert_ne|done].
    + intros attr d Hin. apply elem_of_cons in Hin as [[= -> ->]|Hin].
      * rewrite (Hkeep a Hfresh).
        destruct (_ || _); [apply lookup_insert_eq|done].
      * rewrite (Hset attr d Hin).
        assert (Hne : a ≠ attr).
        { intros ->. apply Hfresh. apply list_elem_of_fmap.
          by exists (attr, PDict d). }
        destruct (truthy (getattr_default instance attr _) || _); [done|].
        destruct (_ || _); [by rewrite lookup_insert_ne|done].
Qed.

(** A successful [parse_timestamp] replaced one key of [liveaction] by a
    value [isotime.parse] returned. *)
Lemma parse_timestamp_inv (model : nat) (key : string) (σ σ' : store)
    (fields : gmap string pyval) :
  σ !! model = Some fields →
  parse_timestamp isotime_parse ActionExecutionDB_defaults model key σ = (σ', Ok tt) →
  ∃ lv ts parsed,
    fields !! "liveaction" = Some (PDict lv) ∧
    lv !! key = Some ts ∧
    isotime_parse ts = Ok parsed ∧
    σ' = <[model := <["liveaction" := PDict (<[key := parsed]> lv)]> fields]> σ.
Proof.
  intros Hm Hparse.
  destruct (fields !! "liveaction") as [liveaction|] eqn:Hlive.
  2:{ unfold parse_timestamp, bind, model_getattr in Hparse.
      rewrite Hm in Hparse. simpl in Hparse. by rewrite Hlive in Hparse. }
  destruct liveaction as [| | | | | |lv|];
    try (unfold parse_timestamp, bind, model_getattr in Hparse;
         rewrite Hm in Hparse; simpl in Hparse; rewrite Hlive in Hparse;
         done).
  rewrite (parse_timestamp_run _ _ _ _ _ _ _ Hm Hlive) in Hparse.
  destruct (lv !! key) as [ts|] eqn:Hkey; [|done].
  destruct (isotime_parse ts) as [parsed|] eqn:Hts; [|done].
  injection Hparse as <-. by exists lv, ts, parsed.
Qed.

(** When [to_model] returns, the new document has, for every property of
    the schema other than [liveaction], what the field holds after it was
    assigned the value of the API object (or the default named by the
    schema) if that value is truthy or the field is required, and the
    default of the document class otherwise: an optional attribute that is
    empty or missing is not written. *)
Theorem to_model_writes_truthy_or_required_attributes (instance : pyval)
    (σ σ' : store) (model : nat) (attr : string) (d : gmap string pyval) :
  ActionExecutionAPI_to_model isotime_parse imported
    ActionExecutionDB_defaults ActionExecutionDB_required instance σ
  = (σ', Ok model) →
  ActionExecutionAPI_properties imported !! attr = Some (PDict d) →
  attr ≠ "liveaction" →
  σ' !! model ≫= (.!! attr)
  = if truthy (getattr_default instance attr (default PNone (d !! "default")))
       || bool_decide (ActionExecutionDB_required attr = Some true)
    then Some (field_value ActionExecutionDB_defaults attr
                 (getattr_default instance attr
                    (default PNone (d !! "default"))))
    else ActionExecutionDB_defaults !! attr.
Proof.
  unfold ActionExecutionAPI_to_model. unfold bind at 1, model_new.
  set (new := fresh (dom σ)).
  assert (Hm0 : <[new := ActionExecutionDB_defaults]> σ !! new
                = Some ActionExecutionDB_defaults) by apply lookup_insert_eq.
  unfold bind at 1.
  destruct (to_model_loop _ _ _ new _ _) as [σ1 [[]|e]] eqn:Hloop; [|done].
  destruct (to_model_loop_fields _ _ _ _ _ _
              (NoDup_fst_map_to_list _) Hm0 Hloop)
    as (fields1 & Hm1 & _ & Hset).
  unfold bind at 1.
  destruct (parse_timestamp _ _ new "start_timestamp" σ1)
    as [σ2 [[]|e]] eqn:Hstart; [|done].
  destruct (parse_timestamp_inv _ _ _ _ _ Hm1 Hstart)
    as (lv & ts & parsed & Hlive & _ & _ & ->).
  unfold bind at 1.
  destruct (parse_timestamp _ _ new "end_timestamp" _)
    as [σ3 [[]|e]] eqn:Hend; [|done].
  edestruct (parse_timestamp_inv new "end_timestamp")
    as (lv2 & ts2 & parsed2 & _ & _ & _ & ->);
    [apply lookup_insert_eq|exact Hend|].
  unfold ret. intros [= <- <-] Hprop Hattr.
  rewrite lookup_insert_eq. simpl. rewrite !lookup_insert_ne by done.
  apply Hset. by apply elem_of_map_to_list.
Qed.

(** When [to_model] returns, the [liveaction] of the new document has both
    timestamps, and each of them is a value that [isotime.parse]
    returned. *)
Theorem to_model_returns_parsed_timestamps (instance : pyval)
    (σ σ' : store) (model : nat) :
  ActionExecutionAPI_to_model isotime_parse imported
    ActionExecutionDB_defaults ActionExecutionDB_required instance σ
  = (σ', Ok model) →
  ∃ fields lv text_start text_end parsed_start parsed_end,
    σ' !! model = Some fields ∧
    fields !! "liveaction" = Some (PDict lv) ∧
    lv !! "start_timestamp" = Some parsed_start ∧
    lv !! "end_timestamp" = Some parsed_end ∧
    isotime_parse text_start = Ok parsed_start ∧
    isotime_parse text_end = Ok parsed_end.
Proof.
  unfold ActionExecutionAPI_to_model. unfold bind at 1, model_new.
  generalize (fresh (dom σ)). intros new.
  assert (Hm0 : <[new := ActionExecutionDB_defaults]> σ !! new
                = Some ActionExecutionDB_defaults) by apply lookup_insert_eq.
  unfold bind at 1.
  destruct (to_model_loop _ _ _ new _ _) as [σ1 [[]|e]] eqn:Hloop;
    [|discriminate].
  destruct (to_model_loop_fields _ _ _ _ _ _
              (NoDup_fst_map_to_list _) Hm0 Hloop)
    as (fields1 & Hm1 & _ & _).
  unfold bind at 1.
  destruct (parse_timestamp _ _ new "start_timestamp" σ1)
    as [σ2 [[]|e]] eqn:Hstart; [|discriminate].
  destruct (parse_timestamp_inv _ _ _ _ _ Hm1 Hstart)
    as (lv & ts & parsed & Hlive & Hts & Hparsed & ->).
  unfold bind at 1.
  destruct (parse_timestamp _ _ new "end_timestamp" _)
    as [σ3 [[]|e]] eqn:Hend; [|discriminate].
  edestruct (parse_timestamp_inv new "end_timestamp")
    as (lv2 & ts2 & parsed2 & Hlive2 & Hts2 & Hparsed2 & Hσ3);
    [apply lookup_insert_eq|exact Hend|].
  rewrite lookup_insert_eq in Hlive2. injection Hlive2 as <-.
  unfold ret. intros Heq. injection Heq as Hσ Hnew.
  rewrite <- Hσ, <- Hnew, Hσ3.
  eexists _, (<["end_timestamp" := parsed2]> (<["start_timestamp" := parsed]> lv)),
    ts, ts2, parsed, parsed2.
  split; [apply lookup_insert_eq|].
  split; [apply lookup_insert_eq|].
  split; [rewrite lookup_insert_ne by discriminate; apply lookup_insert_eq|].
  split; [apply lookup_insert_eq|].
  split; assumption.
Qed.

End to_model_store.

Lemma from_model_keeps_what_is_not_None_witness :
  ∃ attrs,
    PObject "RuleLikeAPI"
      (filter (λ kv : string * pyval, is_not_None kv.2 = true)
         (<["id" := PStr "54c6bb640640fd5211edef0d"]>
            (delete "_id" Samples.rule_fields)))
    = PObject (cls_name Samples.RuleLikeAPI) attrs ∧
    ∀ key value,
      attrs !! key = Some value ↔
      <["id" := PStr "54c6bb640640fd5211edef0d"]>
        (delete "_id" Samples.rule_fields) !! key = Some value ∧
      value ≠ PNone.
Proof.
  apply (from_model_keeps_what_is_not_None Samples.accept_all
           Samples.nothing_to_unescape Samples.str_of_id Samples.RuleLikeAPI
           0%nat Samples.rule_store Samples.rule_store).
  - vm_compute. reflexivity.
  - vm_compute. reflexivity.
Defined.

Lemma BaseAPI_round_trip_keeps_name_and_description_witness :
  ∃ instance σ' model' fields,
    from_model Samples.accept_all Samples.nothing_to_unescape
      Samples.str_of_id Samples.RuleLikeAPI 0%nat Samples.rule_store
    = (Samples.rule_store, Ok instance) ∧
    BaseAPI_to_model Samples.rule_defaults instance Samples.rule_store
    = (σ', Ok model') ∧
    Samples.rule_store !! model' = None ∧
    σ' !! model' = Some fields ∧
    fields !! "name"
    = Some (field_value Samples.rule_defaults "name"
              (default PNone
                 (<["id" := PStr "54c6bb640640fd5211edef0d"]>
                    (delete "_id" Samples.rule_fields) !! "name"))) ∧
    fields !! "description"
    = Some (field_value Samples.rule_defaults "description"
              (default PNone
                 (<["id" := PStr "54c6bb640640fd5211edef0d"]>
                    (delete "_id" Samples.rule_fields) !! "description"))).
Proof.
  apply (BaseAPI_round_trip_keeps_name_and_description Samples.accept_all
           Samples.nothing_to_unescape Samples.str_of_id Samples.RuleLikeAPI
           Samples.rule_defaults 0%nat Samples.rule_store).
  - vm_compute. reflexivity.
  - reflexivity.
Defined.

Lemma execution_from_model_keeps_what_is_truthy_witness :
  ∃ attrs lv lv' start formatted,
    Samples.finished_api_object = PObject "ActionExecutionAPI" attrs ∧
    (∀ key value, key ≠ "liveaction" →
       (attrs !! key = Some value ↔
        <["id" := PStr "54c6bb640640fd5211edef0d"]>
          (delete "_id" (Samples.execution_fields Samples.finished_liveaction))
          !! key = Some value ∧
        truthy value = true)) ∧
    <["id" := PStr "54c6bb640640fd5211edef0d"]>
      (delete "_id" (Samples.execution_fields Samples.finished_liveaction))
      !! "liveaction" = Some (PDict lv) ∧
    attrs !! "liveaction" = Some (PDict lv') ∧
    lv !! "start_timestamp" = Some start ∧
    Samples.sample_format start = Ok formatted ∧
    lv' !! "start_timestamp" = Some formatted ∧
    ∀ key, key ≠ "start_timestamp" → key ≠ "end_timestamp" →
           lv' !! key = lv !! key.
Proof.
  apply (execution_from_model_keeps_what_is_truthy Samples.accept_all
           Samples.nothing_to_unescape Samples.str_of_id Samples.sample_format
           Samples.no_imported_schemas 0%nat Samples.finished_store
           Samples.finished_store).
  - vm_compute. reflexivity.
  - vm_compute. reflexivity.
Defined.

Lemma execution_from_model_needs_start_timestamp_witness :
  (<["id" := PStr "54c6bb640640fd5211edef0d"]>
     (delete "_id" Samples.rule_fields) !! "liveaction" = None →
   ActionExecutionAPI_from_model Samples.accept_all
     Samples.nothing_to_unescape Samples.str_of_id Samples.sample_format
     Samples.no_imported_schemas 0%nat Samples.rule_store
   = (Samples.rule_store, Raise (PyExc KeyError (PStr "liveaction")))) ∧
  (∀ lv,
     <["id" := PStr "54c6bb640640fd5211edef0d"]>
       (delete "_id" Samples.rule_fields) !! "liveaction" = Some (PDict lv) →
     lv !! "start_timestamp" = None →
     ActionExecutionAPI_from_model Samples.accept_all
       Samples.nothing_to_unescape Samples.str_of_id Samples.sample_format
       Samples.no_imported_schemas 0%nat Samples.rule_store
     = (Samples.rule_store, Raise (PyExc KeyError (PStr "start_timestamp")))).
Proof.
  apply (execution_from_model_needs_start_timestamp Samples.accept_all
           Samples.nothing_to_unescape Samples.str_of_id Samples.sample_format
           Samples.no_imported_schemas 0%nat Samples.rule_store).
  vm_compute. reflexivity.
Defined.

Lemma to_model_leaves_the_documents_alone_witness :
  (ActionExecutionAPI_to_model Samples.sample_parse
     Samples.no_imported_schemas Samples.sample_defaults
     Samples.sample_required Samples.finished_api_object
     Samples.finished_store).1 !! 0%nat
  = Some (Samples.execution_fields Samples.finished_liveaction).
Proof.
  apply (to_model_leaves_the_documents_alone Samples.sample_parse
           Samples.no_imported_schemas Samples.sample_defaults
           Samples.sample_required Samples.finished_api_object
           Samples.finished_store 0%nat).
  reflexivity.
Defined.

Lemma to_model_writes_truthy_or_required_attributes_witness :
  (ActionExecutionAPI_to_model Samples.sample_parse
     Samples.no_imported_schemas Samples.sample_defaults
     Samples.sample_required Samples.finished_api_object
     Samples.finished_store).1 !! 1%nat ≫= (.!! "action")
  = if truthy (getattr_default Samples.finished_api_object "action"
                 (default PNone
                    (<["required" := PBool true]> (∅ : gmap string pyval)
                       !! "default")))
       || bool_decide (Samples.sample_required "action" = Some true)
    then Some (field_value Samples.sample_defaults "action"
                 (getattr_default Samples.finished_api_object "action"
                    (default PNone
                       (<["required" := PBool true]> (∅ : gmap string pyval)
                          !! "default"))))
    else Samples.sample_defaults !! "action".
Proof.
  apply (to_model_writes_truthy_or_required_attributes Samples.sample_parse
           Samples.no_imported_schemas Samples.sample_defaults
           Samples.sample_required Samples.finished_api_object
           Samples.finished_store).
  - vm_compute. reflexivity.
  - reflexivity.
  - discriminate.
Defined.

Lemma to_model_returns_parsed_timestamps_witness :
  ∃ fields lv text_start text_end parsed_start parsed_end,
    (ActionExecutionAPI_to_model Samples.sample_parse
       Samples.no_imported_schemas Samples.sample_defaults
       Samples.sample_required Samples.finished_api_object
       Samples.finished_store).1 !! 1%nat = Some fields ∧
    fields !! "liveaction" = Some (PDict lv) ∧
    lv !! "start_timestamp" = Some parsed_start ∧
    lv !! "end_timestamp" = Some parsed_end ∧
    Samples.sample_parse text_start = Ok parsed_start ∧
    Samples.sample_parse text_end = Ok parsed_end.
Proof.
  apply (to_model_returns_parsed_timestamps Samples.sample_parse
           Samples.no_imported_schemas Samples.sample_defaults
           Samples.sample_required Samples.finished_api_object
           Samples.finished_store).
  vm_compute. reflexivity.
Defined.

Lemma callfunction_propagates_witness :
  ∃ e,
    raised_during_handling Samples.ascii_str Samples.no_objects
      Samples.QUERY_PARAM_ATTRIBUTE_NAME Samples.jsexpose_default
      Samples.get_one_failing_unicode Samples.plain_request
      [Samples.rules_controller; PStr "1"] ∅ Samples.initial_world e ∧
    (is_Exception e = false ∧
     PyExc (OtherException "UnicodeEncodeError")
       (PStr "'ascii' codec can't encode character") = e ∨
     is_Exception e = true ∧
     (Samples.ascii_str e
      = Some (PyExc (OtherException "UnicodeEncodeError")
                (PStr "'ascii' codec can't encode character")) ∨
      Samples.ascii_str e = None ∧
      Samples.no_objects (PDict {[ "faultstring" := message e ]})
      = Some (PyExc (OtherException "UnicodeEncodeError")
                (PStr "'ascii' codec can't encode character")))).
Proof.
  apply (callfunction_propagates Samples.ascii_str Samples.no_objects
           Samples.QUERY_PARAM_ATTRIBUTE_NAME Samples.jsexpose_default
           Samples.get_one_failing_unicode Samples.plain_request
           [Samples.rules_controller; PStr "1"] ∅ Samples.initial_world
           {| pecan_response := {| status := 200; headers := PDict ∅ |};
              LOG := [LOG_info_request
                        (request_info_of Samples.plain_request) ∅];
              invocations := [{| inv_args := [Samples.rules_controller;
                                              PStr "1"];
                                 inv_kwargs := ∅ |}] |}).
  vm_compute. reflexivity.
Defined.

(** ** The request errors, the no-op codes and the token, when [str] and
    [json_encode] raise *)

Section Raising_requests.

Context (str_raises : exn → option exn) (json_raises : pyval → option exn)
  (QUERY_PARAM_ATTRIBUTE_NAME : string).

(** Whatever [str] and [json_encode] do, a token that is both a query
    parameter of the request and a keyword argument is among the keyword
    arguments of no invocation of the controller that the call makes. *)
Theorem auth_token_never_reaches_the_controller (d : jsexpose_args)
    (f : controller_function) (req : request) (args : list pyval)
    (kwargs : gmap string pyval) (w : world) :
  QUERY_PARAM_ATTRIBUTE_NAME ∈ dom (default ∅ (req_params req)) →
  QUERY_PARAM_ATTRIBUTE_NAME ∈ dom kwargs →
  ∃ new,
    invocations
      (Raising.callfunction str_raises json_raises QUERY_PARAM_ATTRIBUTE_NAME
         d f req args kwargs w).1
    = invocations w ++ new ∧
    ∀ i, i ∈ new → inv_kwargs i !! QUERY_PARAM_ATTRIBUTE_NAME = None.
Proof.
  intros Hparams Hkwargs.
  assert (Hstrip : strip_auth_token QUERY_PARAM_ATTRIBUTE_NAME req kwargs
                   = delete QUERY_PARAM_ATTRIBUTE_NAME kwargs).
  { unfold strip_auth_token. by rewrite !bool_decide_eq_true_2. }
  destruct (Raising.guarded_block str_raises json_raises d f req
              (request_info_of req) (controller_of args) args
              (strip_auth_token QUERY_PARAM_ATTRIBUTE_NAME req kwargs)
              (emit [LOG_info_request (request_info_of req) kwargs] w))
    as [w1 rg] eqn:Hg.
  destruct (Raising_callfunction_after_guarded_block _ _ _ _ _ _ _ _ _ _ _ Hg)
    as (w' & r & -> & Hinv & _).
  apply Raising_guarded_block_invocations in Hg as [Hg _].
  simpl. rewrite Hinv.
  destruct Hg as [Hsame|(_ & args' & kwargs' & Hone & Hdom)].
  - exists []. rewrite app_nil_r. split; [done|]. by intros i ?%elem_of_nil.
  - eexists. split; [exact Hone|].
    intros i ->%list_elem_of_singleton. simpl.
    apply (not_elem_of_dom (D := gset string)).
    rewrite Hdom, Hstrip. apply not_elem_of_dom, lookup_delete_eq.
Qed.

(** Whatever [str] and [json_encode] do, with a [status_code] of 501, 405
    or 403 the controller is never invoked; and once the arguments of the
    call are ready, the wrapper sets the response status to that code and
    returns the encoding of [None], when [json_encode(None)] returns. *)
Theorem noop_status_code_never_invokes_the_controller (d : jsexpose_args)
    (f : controller_function) (req : request) (args : list pyval)
    (kwargs : gmap string pyval) (w : world) (c : Z) :
  status_code d = Some c →
  c ∈ noop_codes →
  invocations
    (Raising.callfunction str_raises json_raises QUERY_PARAM_ATTRIBUTE_NAME d
       f req args kwargs w).1
  = invocations w ∧
  ∀ (l : locals) (args' : list pyval),
    coerced QUERY_PARAM_ATTRIBUTE_NAME d f req args kwargs l →
    call_arguments d req l = Ok args' →
    json_raises PNone = None →
    ∃ w',
      Raising.callfunction str_raises json_raises QUERY_PARAM_ATTRIBUTE_NAME d
        f req args kwargs w
      = (w', Ok (json_encode PNone)) ∧
      status (pecan_response w') = c.
Proof.
  intros Hc Hin. pose proof (noop_status_Some d c Hc Hin) as Hnoop. split.
  - destruct (Raising.guarded_block str_raises json_raises d f req
                (request_info_of req) (controller_of args) args
                (strip_auth_token QUERY_PARAM_ATTRIBUTE_NAME req kwargs)
                (emit [LOG_info_request (request_info_of req) kwargs] w))
      as [w1 rg] eqn:Hg.
    destruct (Raising_callfunction_after_guarded_block _ _ _ _ _ _ _ _ _ _ _ Hg)
      as (w' & r & -> & Hinv & _).
    apply Raising_guarded_block_invocations in Hg as [[Hsame|[Hnone _]] _].
    + simpl. by rewrite Hinv.
    + congruence.
  - intros l args' [w0 Hco] Hargs Hjson.
    destruct (callfunction_coerced _ d f req args kwargs w w0 l Hco)
      as [logs Hrun].
    rewrite Raising_callfunction_run.
    rewrite (Raising_guarded_block_prepared _ _ _ _ _ _ _ _ _ _ _ _ _ Hrun
               Hargs).
    rewrite Hnoop, Hjson. eexists. split; [reflexivity|]. done.
Qed.

(** When building the body class raises a [ValidationError] and its
    message can be encoded, the wrapper returns the encoded
    [{'faultstring': e.message}] with status 400, and the controller is not
    invoked. *)
Theorem body_validation_error_is_answered_with_400 (d : jsexpose_args)
    (f : controller_function) (req : request) (args : list pyval)
    (kwargs : gmap string pyval) (w : world) (l : locals)
    (cls : gmap string pyval → result pyval) (data : pyval) (e : exn) :
  body_cls d = Some cls →
  coerced QUERY_PARAM_ATTRIBUTE_NAME d f req args kwargs l →
  request_data req = Ok data →
  construct cls data = Raise e →
  is_ValidationError e = true →
  json_raises (PDict {[ "faultstring" := message e ]}) = None →
  ∃ w',
    Raising.callfunction str_raises json_raises QUERY_PARAM_ATTRIBUTE_NAME d f
      req args kwargs w
    = (w', Ok (json_encode (PDict {[ "faultstring" := message e ]}))) ∧
    status (pecan_response w') = BAD_REQUEST ∧
    invocations w' = invocations w.
Proof.
  intros Hcls [w0 Hco] Hdata Hcons Hval Hjson.
  destruct (callfunction_coerced _ d f req args kwargs w w0 l Hco)
    as [logs Hrun].
  rewrite Raising_callfunction_run.
  rewrite (Raising_guarded_block_coerced _ _ _ _ _ _ _ _ _ _ _ _ Hrun).
  rewrite Hcls, Hdata, Hcons, Hval, Hjson.
  eexists. split; [reflexivity|]. done.
Qed.

(** An HTTP exception of the controller whose body is neither empty nor a
    dict: [_handle_error] sets the status and the headers of the exception,
    then its assertion fails, and the outer handler answers with status 500
    and the empty message of the [AssertionError]; the headers of the HTTP
    exception stay on the response. *)
Theorem http_exception_with_another_body_is_internal_server_error
    (d : jsexpose_args) (f : controller_function) (req : request)
    (args : list pyval) (kwargs : gmap string pyval) (w : world) (l : locals)
    (args' : list pyval) (resp : response) (u : bool) (m : pyval) (code : Z)
    (body hdrs : pyval) :
  coerced QUERY_PARAM_ATTRIBUTE_NAME d f req args kwargs l →
  call_arguments d req l = Ok args' →
  noop_status d = None →
  f_call f args' (l_kwargs l) (pecan_response w)
  = (resp, Raise (HTTPExc u m code body hdrs)) →
  (∀ bd, error_body body ≠ PDict bd) →
  str_raises (HTTPExc u m code body hdrs) = None →
  str_raises (PyExc AssertionError (PStr "")) = None →
  json_raises (PDict {[ "faultstring" := PStr "" ]}) = None →
  ∃ w',
    Raising.callfunction str_raises json_raises QUERY_PARAM_ATTRIBUTE_NAME d f
      req args kwargs w
    = (w', Ok (json_encode (PDict {[ "faultstring" := PStr "" ]}))) ∧
    status (pecan_response w') = INTERNAL_SERVER_ERROR ∧
    headers (pecan_response w') = (if truthy hdrs then hdrs else headers resp).
Proof.
  intros [w0 Hco] Hargs Hnoop Hf Hbody Hstr Hstr' Hjson.
  destruct (callfunction_coerced _ d f req args kwargs w w0 l Hco)
    as [logs Hrun].
  rewrite Raising_callfunction_run.
  rewrite (Raising_guarded_block_prepared _ _ _ _ _ _ _ _ _ _ _ _ _ Hrun Hargs),
    Hnoop.
  rewrite Raising_call_and_respond_run.
  change (pecan_response (emit _ w)) with (pecan_response w). rewrite Hf.
  unfold inner_except. cbn [is_HTTPException].
  rewrite Raising_handle_http_exception_run, Hstr.
  rewrite Raising_handle_error_run.
  destruct (error_body body) eqn:Hb; try by destruct (Hbody d0).
  all: cbn [is_Exception message]; rewrite Hstr', Hjson;
    (eexists; split; [reflexivity|]; split; [reflexivity|]);
    simpl; by destruct (truthy hdrs).
Qed.

End Raising_requests.

Lemma auth_token_never_reaches_the_controller_witness :
  ∃ new,
    invocations
      (Raising.callfunction Samples.ascii_str Samples.no_objects
         Samples.QUERY_PARAM_ATTRIBUTE_NAME Samples.jsexpose_default
         Samples.get_one Samples.token_request
         [Samples.rules_controller; PStr "1"] Samples.token_kwargs
         Samples.initial_world).1
    = invocations Samples.initial_world ++ new ∧
    ∀ i, i ∈ new → inv_kwargs i !! Samples.QUERY_PARAM_ATTRIBUTE_NAME = None.
Proof.
  apply (auth_token_never_reaches_the_controller Samples.ascii_str
           Samples.no_objects Samples.QUERY_PARAM_ATTRIBUTE_NAME
           Samples.jsexpose_default Samples.get_one Samples.token_request
           [Samples.rules_controller; PStr "1"] Samples.token_kwargs
           Samples.initial_world).
  - apply elem_of_dom. eexists. vm_compute. reflexivity.
  - apply elem_of_dom. eexists. vm_compute. reflexivity.
Defined.

Lemma noop_status_code_never_invokes_the_controller_witness :
  invocations
    (Raising.callfunction Samples.ascii_str Samples.no_objects
       Samples.QUERY_PARAM_ATTRIBUTE_NAME Samples.jsexpose_not_implemented
       Samples.get_one Samples.plain_request
       [Samples.rules_controller; PStr "1"] ∅ Samples.initial_world).1
  = invocations Samples.initial_world ∧
  ∀ (l : locals) (args' : list pyval),
    coerced Samples.QUERY_PARAM_ATTRIBUTE_NAME
      Samples.jsexpose_not_implemented Samples.get_one Samples.plain_request
      [Samples.rules_controller; PStr "1"] ∅ l →
    call_arguments Samples.jsexpose_not_implemented Samples.plain_request l
    = Ok args' →
    Samples.no_objects PNone = None →
    ∃ w',
      Raising.callfunction Samples.ascii_str Samples.no_objects
        Samples.QUERY_PARAM_ATTRIBUTE_NAME Samples.jsexpose_not_implemented
        Samples.get_one Samples.plain_request
        [Samples.rules_controller; PStr "1"] ∅ Samples.initial_world
      = (w', Ok (json_encode PNone)) ∧
      status (pecan_response w') = NOT_IMPLEMENTED.
Proof.
  apply (noop_status_code_never_invokes_the_controller Samples.ascii_str
           Samples.no_objects Samples.QUERY_PARAM_ATTRIBUTE_NAME
           Samples.jsexpose_not_implemented Samples.get_one
           Samples.plain_request [Samples.rules_controller; PStr "1"] ∅
           Samples.initial_world NOT_IMPLEMENTED).
  - reflexivity.
  - apply list_elem_of_here.
Defined.

Lemma body_validation_error_is_answered_with_400_witness :
  ∃ w',
    Raising.callfunction Samples.ascii_str Samples.no_objects
      Samples.QUERY_PARAM_ATTRIBUTE_NAME Samples.jsexpose_body
      Samples.post Samples.bad_post [Samples.rules_controller] ∅
      Samples.initial_world
    = (w', Ok (json_encode
                 (PDict {[ "faultstring" :=
                             message (PyExc ValidationError
                                        (PStr "'name' is a required property")) ]}))) ∧
    status (pecan_response w') = BAD_REQUEST ∧
    invocations w' = invocations Samples.initial_world.
Proof.
  apply (body_validation_error_is_answered_with_400 Samples.ascii_str
           Samples.no_objects Samples.QUERY_PARAM_ATTRIBUTE_NAME
           Samples.jsexpose_body Samples.post Samples.bad_post
           [Samples.rules_controller] ∅ Samples.initial_world
           {| l_args := []; l_types := []; l_more := [Samples.rules_controller];
              l_kwargs := ∅ |}
           Samples.RuleLikeAPI_cls (PDict Samples.bad_kw)).
  - reflexivity.
  - exists Samples.initial_world. reflexivity.
  - reflexivity.
  - reflexivity.
  - reflexivity.
  - vm_compute. reflexivity.
Defined.

Lemma http_exception_with_another_body_is_internal_server_error_witness :
  ∃ w',
    Raising.callfunction Samples.ascii_str Samples.no_objects
      Samples.QUERY_PARAM_ATTRIBUTE_NAME Samples.jsexpose_default
      Samples.get_one_not_found_with_body Samples.plain_request
      [Samples.rules_controller; PStr "x"] ∅ Samples.initial_world
    = (w', Ok (json_encode (PDict {[ "faultstring" := PStr "" ]}))) ∧
    status (pecan_response w') = INTERNAL_SERVER_ERROR ∧
    headers (pecan_response w')
    = (if truthy Samples.not_found_headers then Samples.not_found_headers
       else headers (pecan_response Samples.initial_world)).
Proof.
  apply (http_exception_with_another_body_is_internal_server_error
           Samples.ascii_str Samples.no_objects
           Samples.QUERY_PARAM_ATTRIBUTE_NAME Samples.jsexpose_default
           Samples.get_one_not_found_with_body Samples.plain_request
           [Samples.rules_controller; PStr "x"] ∅ Samples.initial_world
           {| l_args := [PStr "x"]; l_types := [];
              l_more := [Samples.rules_controller]; l_kwargs := ∅ |}
           [Samples.rules_controller; PStr "x"]
           (pecan_response Samples.initial_world)
           false (PStr "Rule not found") 404
           (PStr "404 Not Found: no such rule") Samples.not_found_headers).
  - exists Samples.initial_world. reflexivity.
  - reflexivity.
  - reflexivity.
  - reflexivity.
  - intros bd. discriminate.
  - reflexivity.
  - reflexivity.
  - vm_compute. reflexivity.
Defined.

(** A call without positional arguments, not even the controller: the
    [args.pop(0)] of line 158 raises [IndexError], so whatever the decorator
    and the request, the reply is the 500 error body, the headers are
    untouched and the controller is not invoked, provided the outer handler
    can render and encode the [IndexError]. *)
Theorem callfunction_without_positional_arguments
    (str_raises : exn → option exn) (json_raises : pyval → option exn)
    (QUERY_PARAM_ATTRIBUTE_NAME : string) (d : jsexpose_args)
    (f : controller_function) (req : request) (kwargs : gmap string pyval)
    (w : world) :
  str_raises (PyExc IndexError (PStr "pop from empty list")) = None →
  json_raises (PDict {[ "faultstring" := PStr "pop from empty list" ]}) = None →
  ∃ w',
    Raising.callfunction str_raises json_raises QUERY_PARAM_ATTRIBUTE_NAME d f
      req [] kwargs w
    = (w', Ok (json_encode
                 (PDict {[ "faultstring" := PStr "pop from empty list" ]}))) ∧
    status (pecan_response w') = INTERNAL_SERVER_ERROR ∧
    headers (pecan_response w') = headers (pecan_response w) ∧
    invocations w' = invocations w.
Proof.
  intros Hstr Hjson. rewrite Raising_callfunction_run.
  unfold Raising.guarded_block, coerce_arguments. unfold bind at 1, raise.
  cbn [is_Exception message]. rewrite Hstr, Hjson.
  eexists. split; [reflexivity|]. done.
Qed.

Lemma callfunction_without_positional_arguments_witness :
  ∃ w',
    Raising.callfunction Samples.ascii_str Samples.no_objects
      Samples.QUERY_PARAM_ATTRIBUTE_NAME Samples.jsexpose_default
      Samples.get_one Samples.plain_request [] ∅ Samples.initial_world
    = (w', Ok (json_encode
                 (PDict {[ "faultstring" := PStr "pop from empty list" ]}))) ∧
    status (pecan_response w') = INTERNAL_SERVER_ERROR ∧
    headers (pecan_response w') = headers (pecan_response Samples.initial_world) ∧
    invocations w' = invocations Samples.initial_world.
Proof.
  apply (callfunction_without_positional_arguments Samples.ascii_str
           Samples.no_objects Samples.QUERY_PARAM_ATTRIBUTE_NAME
           Samples.jsexpose_default Samples.get_one Samples.plain_request ∅
           Samples.initial_world).
  - reflexivity.
  - vm_compute. reflexivity.
Defined.

(** An API object without [liveaction]: the field is required, so it is
    assigned [None] and keeps its default, the empty dict; [to_model] then
    fails with the [KeyError] of [model.liveaction['start_timestamp']]. *)
Example to_model_of_an_object_without_liveaction :
  (ActionExecutionAPI_to_model Samples.sample_parse
     Samples.no_imported_schemas Samples.sample_defaults
     Samples.sample_required
     (PObject "ActionExecutionAPI"
        {[ "id" := PStr "54c6bb640640fd5211edef0d" ]})
     Samples.finished_store).2
  = Raise (PyExc KeyError (PStr "start_timestamp")).
Proof. vm_compute. reflexivity. Qed.
